(** * Order lifecycle and inventory consistency of the CRM dashboard

    A shallow embedding of the route handlers
      - [src/app/api/orders/route.ts]          (POST)
      - [src/app/api/orders/[id]/route.ts]     (PUT, DELETE)
      - [src/app/api/products/[id]/route.ts]   (PUT, DELETE)
    over an explicit database state.  Every handler is a function from the
    database (and what the handler reads from its environment: the session,
    the clock, the id generator) to a new database and a JSON response.

    JavaScript numbers that carry money are IEEE-754 binary64 values and are
    modelled by Rocq's primitive floats, whose operations are the same
    binary64 operations.  Quantities and stock levels are integers.

    What the database does with a row it is given (the foreign keys it
    enforces, the representation of an amount in its column) is declared in
    the Prisma schema; where the handlers depend on it, it is a component
    of the database state. *)

From Stdlib Require Import ZArith List Floats.PrimFloat Floats.FloatOps
  Floats.SpecFloat.
From stdpp Require Import gmap strings list fin_maps pretty.

Set Warnings "-inexact-float".

Open Scope Z_scope.

(** ** Data model *)

(** JavaScript [number] used for money. *)
Abbreviation number := float.

(** An integer as a JavaScript number: the binary64 value nearest to it
    (ties to even, infinite beyond the binary64 range), which is the
    integer itself for [|z| <= 2^53]. *)
Definition Number (z : Z) : number :=
  SF2Prim (binary_normalize prec emax z 0 false).

Inductive OrderStatus :=
  PENDING | CONFIRMED | PROCESSING | SHIPPED | DELIVERED | CANCELLED.

Inductive PaymentStatus :=
  PAY_PENDING | PAY_PAID | PAY_FAILED | PAY_REFUNDED.

Inductive ShippingStatus :=
  SHIP_NOT_SHIPPED | SHIP_SHIPPED | SHIP_IN_TRANSIT | SHIP_DELIVERED.

Inductive ProductStatus :=
  ACTIVE | INACTIVE | DISCONTINUED.

#[global] Instance OrderStatus_eq_dec : EqDecision OrderStatus.
Proof. solve_decision. Defined.

(** Modelled from the spec: the Prisma schema that declares the tables
    is not among the sources.  A row of the product table has the columns
    the product handlers read and write, with the types of the spec's data
    model (the on-hand quantity is an integer, the unit price a number);
    the key of the table is the row's [id]. *)
Record Product := mkProduct {
  p_name : string;
  p_description : option string;
  p_price : number;
  p_categoryId : string;
  p_sku : string;
  p_stock : Z;
  p_costPrice : option number;
  p_lowStock : Z;
  p_image : option string;
  p_status : ProductStatus
}.

(** Modelled from the spec: a row of the order-item table (absent schema,
    as above) with the columns [tx.order.create] fills in; the quantity is
    an integer, the unit price and the line total are numbers.  The rows of
    one order are kept with the order, which owns them. *)
Record OrderItem := mkOrderItem {
  oi_productId : string;
  oi_quantity : Z;
  oi_price : number;
  oi_total : number
}.

(** Modelled from the spec: a row of the order table (absent schema, as
    above) with the columns the order handlers read and write and the two
    timestamps; [o_items] is the relation [items]. *)
Record Order := mkOrder {
  o_orderNumber : string;
  o_customerId : string;
  o_subtotal : number;
  o_tax : number;
  o_shipping : number;
  o_total : number;
  o_status : OrderStatus;
  o_paymentStatus : PaymentStatus;
  o_shippingStatus : ShippingStatus;
  o_shippingAddressId : option string;
  o_notes : option string;
  o_items : list OrderItem;
  o_createdAt : Z;
  o_updatedAt : Z
}.

(** Modelled from the spec: the Prisma schema is absent, and with it the
    declarations of the tables, of their relations and of the column
    types.  The database holds customers by id, products by id and orders
    by id.  The handlers name the relations [shippingAddress] of an order
    and [category] of a product; the ids of the rows these can point at
    are [addresses] and [categories].  The computed amounts of an order
    are written to amount columns, which the spec describes as decimals:
    [stored_amount x] is what such a column holds, and returns, once [x]
    is written to it, and [None] when the database refuses to store [x].
    This representation is a parameter of the database. *)
Record Db := mkDb {
  customers : gset string;
  products : gmap string Product;
  orders : gmap string Order;
  addresses : gset string;
  categories : gset string;
  stored_amount : number → option number
}.

(** The database with other product and order tables. *)
Abbreviation with_tables db ps os :=
  (mkDb (customers db) ps os (addresses db) (categories db) (stored_amount db)).

(** What a handler reads besides the request body: the role of the session's
    user ([None] when there is no session), [Date.now()] and the id the
    database generates for a new row. *)
Record Env := mkEnv {
  session : option string;
  now : Z;
  newId : string
}.

(** ** Responses *)

Inductive Body :=
  | BError (error : string)
  | BValidation (error : string)
  | BMessage (message : string)
  | BOrder (order : Order)
  | BProduct (message : string) (product : Product).

(** [NextResponse.json(body, { status })] *)
Inductive Response := json (body : Body) (status : Z).

Definition res_status (r : Response) : Z := let 'json _ s := r in s.
Definition res_body (r : Response) : Body := let 'json b _ := r in b.

(** ** Request bodies and their zod schemas *)

(** The bodies are taken after [request.json()], with fields of the right
    JSON type.  A quantity is an integer that a JavaScript number carries
    exactly; the schema also lets a fractional quantity through, and
    requests with one are outside this model. *)
Record ItemBody := mkItemBody {
  ib_productId : string;
  ib_quantity : Z;
  ib_price : number
}.

Record OrderCreateBody := mkOrderCreateBody {
  cb_customerId : string;
  cb_items : list ItemBody;
  cb_shippingAddressId : option string;
  cb_notes : option string
}.

(** [z.string().min(1)] *)
Definition string_min1 (s : string) : bool := bool_decide (s ≠ "").

Definition ItemSchema (it : ItemBody) : bool :=
  string_min1 (ib_productId it)
  && (1 <=? ib_quantity it)
  && PrimFloat.leb 0 (ib_price it).

(** [OrderCreateSchema.parse]: [true] when the body validates. *)
Definition OrderCreateSchema (b : OrderCreateBody) : bool :=
  string_min1 (cb_customerId b)
  && forallb ItemSchema (cb_items b)
  && negb (bool_decide (cb_items b = [])).

(** The body of PUT /api/orders/[id]; enum fields arrive as strings. *)
Record OrderUpdateBody := mkOrderUpdateBody {
  ub_status : option string;
  ub_paymentStatus : option string;
  ub_shippingStatus : option string;
  ub_notes : option string;
  ub_shippingAddressId : option string
}.

(** The validated data of [OrderUpdateSchema]. *)
Record OrderUpdate := mkOrderUpdate {
  u_status : option OrderStatus;
  u_paymentStatus : option PaymentStatus;
  u_shippingStatus : option ShippingStatus;
  u_notes : option string;
  u_shippingAddressId : option string
}.

Definition parse_OrderStatus (s : string) : option OrderStatus :=
  if String.eqb s "PENDING" then Some PENDING
  else if String.eqb s "CONFIRMED" then Some CONFIRMED
  else if String.eqb s "PROCESSING" then Some PROCESSING
  else if String.eqb s "SHIPPED" then Some SHIPPED
  else if String.eqb s "DELIVERED" then Some DELIVERED
  else if String.eqb s "CANCELLED" then Some CANCELLED
  else None.

Definition parse_PaymentStatus (s : string) : option PaymentStatus :=
  if String.eqb s "PENDING" then Some PAY_PENDING
  else if String.eqb s "PAID" then Some PAY_PAID
  else if String.eqb s "FAILED" then Some PAY_FAILED
  else if String.eqb s "REFUNDED" then Some PAY_REFUNDED
  else None.

Definition parse_ShippingStatus (s : string) : option ShippingStatus :=
  if String.eqb s "NOT_SHIPPED" then Some SHIP_NOT_SHIPPED
  else if String.eqb s "SHIPPED" then Some SHIP_SHIPPED
  else if String.eqb s "IN_TRANSIT" then Some SHIP_IN_TRANSIT
  else if String.eqb s "DELIVERED" then Some SHIP_DELIVERED
  else None.

(** An optional enum field: absent is fine, present must be a member. *)
Definition parse_optional {A} (parse : string → option A) (f : option string)
  : option (option A) :=
  match f with
  | None => Some None
  | Some s => match parse s with Some a => Some (Some a) | None => None end
  end.

(** [OrderUpdateSchema.parse]: [None] stands for the thrown [ZodError]. *)
Definition OrderUpdateSchema (b : OrderUpdateBody) : option OrderUpdate :=
  st ← parse_optional parse_OrderStatus (ub_status b);
  pay ← parse_optional parse_PaymentStatus (ub_paymentStatus b);
  ship ← parse_optional parse_ShippingStatus (ub_shippingStatus b);
  Some (mkOrderUpdate st pay ship (ub_notes b) (ub_shippingAddressId b)).

(** ** Database operations (Prisma client) *)

Definition with_stock (p : Product) (s : Z) : Product :=
  mkProduct (p_name p) (p_description p) (p_price p) (p_categoryId p)
    (p_sku p) s (p_costPrice p) (p_lowStock p) (p_image p) (p_status p).

(** [prisma.product.findMany({ where: { id: { in: ids } } })] *)
Definition product_findMany (db : Db) (ids : list string)
  : list (string * Product) :=
  filter (λ kp, kp.1 ∈ ids) (map_to_list (products db)).

(** [products.find(p => p.id === id)] *)
Definition find_product (found : list (string * Product)) (id : string)
  : option Product :=
  snd <$> List.find (λ kp, String.eqb kp.1 id) found.

(** [tx.product.update({ where: { id }, data: { stock: { increment } } })];
    a decrement is a negative increment.  [None] is the exception Prisma
    throws when no row has this id. *)
Definition product_update_stock (ps : gmap string Product) (id : string)
    (increment : Z) : option (gmap string Product) :=
  p ← ps !! id;
  Some (<[id := with_stock p (p_stock p + increment)]> ps).

(** The [for] loops over stock updates inside a transaction. *)
Fixpoint stock_updates (ps : gmap string Product) (ups : list (string * Z))
  : option (gmap string Product) :=
  match ups with
  | [] => Some ps
  | (id, increment) :: rest =>
      ps' ← product_update_stock ps id increment;
      stock_updates ps' rest
  end.

(** [product.orderItems]: the order items that reference a product. *)
Definition orderItems (db : Db) (id : string) : list OrderItem :=
  filter (λ it, oi_productId it = id)
    ((map_to_list (orders db)).*2 ≫= o_items).

(** The stock each line takes ([decrement: item.quantity]) and the stock
    each line of a stored order gives back ([increment: item.quantity]). *)
Definition decrements (items : list ItemBody) : list (string * Z) :=
  (λ item, (ib_productId item, - ib_quantity item)) <$> items.

Definition increments (items : list OrderItem) : list (string * Z) :=
  (λ item, (oi_productId item, oi_quantity item)) <$> items.

(** ** POST /api/orders *)

Definition has_role (roles : list string) (role : string) : bool :=
  bool_decide (role ∈ roles).

(** The stock-availability loop: the first product found short, if any. *)
Fixpoint check_stock (found : list (string * Product)) (items : list ItemBody)
  : option Product :=
  match items with
  | [] => None
  | item :: rest =>
      match find_product found (ib_productId item) with
      | Some product =>
          if p_stock product <? ib_quantity item then Some product
          else check_stock found rest
      | None => check_stock found rest
      end
  end.

Definition calc_subtotal (items : list ItemBody) : number :=
  fold_left (λ sum item, sum + ib_price item * Number (ib_quantity item))%float
    items 0%float.

Definition calc_tax (subtotal : number) : number := (subtotal * 0.1)%float.

Definition calc_shipping : number := 10.00%float.

Definition calc_total (subtotal tax shipping : number) : number :=
  (subtotal + tax + shipping)%float.

Definition create_item (item : ItemBody) : OrderItem :=
  mkOrderItem (ib_productId item) (ib_quantity item) (ib_price item)
    (ib_price item * Number (ib_quantity item))%float.

(** The [data] handed to [tx.order.create]. *)
Definition new_order (env : Env) (b : OrderCreateBody) : Order :=
  let subtotal := calc_subtotal (cb_items b) in
  let tax := calc_tax subtotal in
  let shipping := calc_shipping in
  let total := calc_total subtotal tax shipping in
  mkOrder ("ORD-" +:+ pretty (now env)) (cb_customerId b)
    subtotal tax shipping total
    PENDING PAY_PENDING SHIP_NOT_SHIPPED
    (cb_shippingAddressId b) (cb_notes b)
    (create_item <$> cb_items b)
    (now env) (now env).

(** Everything the handler does before it opens the transaction: [Some r]
    is an early [return r], [None] lets the request through. *)
Definition POST_checks (db : Db) (env : Env) (b : OrderCreateBody)
  : option Response :=
  match session env with
  | None => Some (json (BError "Unauthorized") 401)
  | Some role =>
    if negb (has_role ["ADMIN"; "MANAGER"] role) then
      Some (json (BError "Insufficient permissions") 403)
    else if negb (OrderCreateSchema b) then
      Some (json (BValidation "Validation failed") 400)
    else if negb (bool_decide (cb_customerId b ∈ customers db)) then
      Some (json (BError "Customer not found") 404)
    else
      let productIds := ib_productId <$> cb_items b in
      let found := product_findMany db productIds in
      if negb (length found =? length productIds)%nat then
        Some (json (BError "One or more products not found") 404)
      else
        match check_stock found (cb_items b) with
        | Some product =>
            Some (json (BError ("Insufficient stock for product: "
                                +:+ p_name product)) 400)
        | None => None
        end
  end.

(** A foreign key: the reference, when there is one, names a row. *)
Definition references_ok (ids : gset string) (ref : option string) : bool :=
  match ref with
  | Some id => bool_decide (id ∈ ids)
  | None => true
  end.

(** The rows [tx.order.create] returns for the [data] it is given: product,
    quantity and unit price of a line are those of the request, the
    computed amounts are what the amount columns hold for them.  [None] is
    the exception thrown when the database refuses an amount. *)
Definition stored_item (db : Db) (item : OrderItem) : option OrderItem :=
  total ← stored_amount db (oi_total item);
  Some (mkOrderItem (oi_productId item) (oi_quantity item) (oi_price item)
          total).

Definition stored_order (db : Db) (data : Order) : option Order :=
  subtotal ← stored_amount db (o_subtotal data);
  tax ← stored_amount db (o_tax data);
  shipping ← stored_amount db (o_shipping data);
  total ← stored_amount db (o_total data);
  items ← mapM (stored_item db) (o_items data);
  Some (mkOrder (o_orderNumber data) (o_customerId data)
          subtotal tax shipping total
          (o_status data) (o_paymentStatus data) (o_shippingStatus data)
          (o_shippingAddressId data) (o_notes data) items
          (o_createdAt data) (o_updatedAt data)).

(** The [prisma.$transaction] block: the order row is inserted, then the
    stock of every line's product is decremented.  The insertion throws
    when the generated id is taken, when [shippingAddressId] names no
    address or when the database refuses an amount; a stock update throws
    when its product is gone.  An exception inside rolls everything back
    and the handler answers 500. *)
Definition POST_transaction (db : Db) (env : Env) (b : OrderCreateBody)
  : Db * Response :=
  let tx :=
    if bool_decide (newId env ∈ dom (orders db)) then None
    else if negb (references_ok (addresses db) (cb_shippingAddressId b))
    then None
    else
      newOrder ← stored_order db (new_order env b);
      ps ← stock_updates (products db) (decrements (cb_items b));
      Some (with_tables db ps (<[newId env := newOrder]> (orders db)),
            newOrder) in
  match tx with
  | Some (db', newOrder) => (db', json (BOrder newOrder) 201)
  | None => (db, json (BError "Failed to create order") 500)
  end.

Definition POST (db : Db) (env : Env) (b : OrderCreateBody) : Db * Response :=
  match POST_checks db env b with
  | Some r => (db, r)
  | None => POST_transaction db env b
  end.

(** ** PUT /api/orders/[id] *)

(** [data: { ...validatedData, updatedAt: new Date() }]: a field that is
    absent from the validated data keeps its value. *)
Definition apply_update (o : Order) (u : OrderUpdate) (updatedAt : Z) : Order :=
  mkOrder (o_orderNumber o) (o_customerId o)
    (o_subtotal o) (o_tax o) (o_shipping o) (o_total o)
    (default (o_status o) (u_status u))
    (default (o_paymentStatus o) (u_paymentStatus u))
    (default (o_shippingStatus o) (u_shippingStatus u))
    (match u_shippingAddressId u with Some a => Some a
                                    | None => o_shippingAddressId o end)
    (match u_notes u with Some n => Some n | None => o_notes o end)
    (o_items o)
    (o_createdAt o) updatedAt.

(** The stock to give back: the order's lines when the request cancels an
    order that is not cancelled yet, nothing otherwise. *)
Definition stockUpdates (existingOrder : Order) (u : OrderUpdate)
  : list (string * Z) :=
  if bool_decide (u_status u = Some CANCELLED)
     && negb (bool_decide (o_status existingOrder = CANCELLED))
  then increments (o_items existingOrder)
  else [].

(** [tx.order.update] throws when the new [shippingAddressId] names no
    address, a stock update when its product is gone; either way the
    transaction is rolled back and the handler answers 500. *)
Definition PUT (db : Db) (env : Env) (id : string) (b : OrderUpdateBody)
  : Db * Response :=
  match session env with
  | None => (db, json (BError "Unauthorized") 401)
  | Some role =>
    if negb (has_role ["ADMIN"; "MANAGER"] role) then
      (db, json (BError "Insufficient permissions") 403)
    else
      match OrderUpdateSchema b with
      | None => (db, json (BValidation "Validation failed") 400)
      | Some validatedData =>
        match orders db !! id with
        | None => (db, json (BError "Order not found") 404)
        | Some existingOrder =>
          let order := apply_update existingOrder validatedData (now env) in
          let tx :=
            if references_ok (addresses db)
                 (u_shippingAddressId validatedData)
            then stock_updates (products db)
                   (stockUpdates existingOrder validatedData)
            else None in
          match tx with
          | Some ps =>
              (with_tables db ps (<[id := order]> (orders db)),
               json (BOrder order) 200)
          | None => (db, json (BError "Failed to update order") 500)
          end
        end
      end
  end.

(** ** DELETE /api/orders/[id] *)

Definition DELETE (db : Db) (env : Env) (id : string) : Db * Response :=
  match session env with
  | None => (db, json (BError "Unauthorized") 401)
  | Some role =>
    if negb (String.eqb role "ADMIN") then
      (db, json (BError "Insufficient permissions") 403)
    else
      match orders db !! id with
      | None => (db, json (BError "Order not found") 404)
      | Some existingOrder =>
        if negb (bool_decide (o_status existingOrder = PENDING)) then
          (db, json (BError "Only pending orders can be deleted") 400)
        else
          match stock_updates (products db)
                  (increments (o_items existingOrder)) with
          | Some ps =>
              (with_tables db ps (delete id (orders db)),
               json (BMessage "Order deleted successfully") 200)
          | None => (db, json (BError "Failed to delete order") 500)
          end
      end
  end.

(** ** PUT /api/products/[id] *)

Record ProductUpdateBody := mkProductUpdateBody {
  pb_name : option string;
  pb_description : option string;
  pb_price : option number;
  pb_categoryId : option string;
  pb_sku : option string;
  pb_stock : option Z;
  pb_costPrice : option number;
  pb_lowStock : option Z;
  pb_image : option string;
  pb_status : option string
}.

Definition parse_ProductStatus (s : string) : option ProductStatus :=
  if String.eqb s "ACTIVE" then Some ACTIVE
  else if String.eqb s "INACTIVE" then Some INACTIVE
  else if String.eqb s "DISCONTINUED" then Some DISCONTINUED
  else None.

(** An optional field passes when it is absent or satisfies its check. *)
Definition optional {A} (check : A → bool) (f : option A) : bool :=
  match f with Some a => check a | None => true end.

(** [updateProductSchema.parse]: the validated status when the body
    validates, [None] for the thrown [ZodError]. *)
Definition updateProductSchema (b : ProductUpdateBody)
  : option (option ProductStatus) :=
  if optional string_min1 (pb_name b)
     && optional (λ p, PrimFloat.ltb 0 p) (pb_price b)
     && optional string_min1 (pb_categoryId b)
     && optional string_min1 (pb_sku b)
     && optional (λ s, 0 <=? s) (pb_stock b)
     && optional (λ p, PrimFloat.ltb 0 p) (pb_costPrice b)
     && optional (λ s, 0 <=? s) (pb_lowStock b)
  then parse_optional parse_ProductStatus (pb_status b)
  else None.

(** [prisma.product.findUnique({ where: { sku } })] finds a row. *)
Definition sku_exists (db : Db) (sku : string) : bool :=
  existsb (λ kp, String.eqb (p_sku kp.2) sku) (map_to_list (products db)).

(** The row after
    [prisma.product.update({ where: { id }, data: validatedData })] *)
Definition apply_product_update (p : Product) (b : ProductUpdateBody)
    (st : option ProductStatus) : Product :=
  mkProduct
    (default (p_name p) (pb_name b))
    (match pb_description b with Some d => Some d | None => p_description p end)
    (default (p_price p) (pb_price b))
    (default (p_categoryId p) (pb_categoryId b))
    (default (p_sku p) (pb_sku b))
    (default (p_stock p) (pb_stock b))
    (match pb_costPrice b with Some c => Some c | None => p_costPrice p end)
    (default (p_lowStock p) (pb_lowStock b))
    (match pb_image b with Some i => Some i | None => p_image p end)
    (default (p_status p) st).

(** [prisma.product.update] throws when the new [categoryId] names no
    category; the handler then answers 500 and the row is unchanged. *)
Definition product_PUT (db : Db) (env : Env) (id : string)
    (b : ProductUpdateBody) : Db * Response :=
  match session env with
  | None => (db, json (BMessage "Unauthorized") 401)
  | Some role =>
    if negb (String.eqb role "ADMIN") && negb (String.eqb role "MANAGER") then
      (db, json (BMessage "Unauthorized") 401)
    else
      match updateProductSchema b with
      | None => (db, json (BValidation "Invalid input data") 400)
      | Some st =>
        match products db !! id with
        | None => (db, json (BMessage "Product not found") 404)
        | Some existingProduct =>
          if match pb_sku b with
             | Some sku => negb (String.eqb sku (p_sku existingProduct))
                           && sku_exists db sku
             | None => false
             end
          then (db, json (BMessage "Product with this SKU already exists") 400)
          else if negb (references_ok (categories db) (pb_categoryId b)) then
            (db, json (BMessage "Internal server error") 500)
          else
            let updatedProduct := apply_product_update existingProduct b st in
            (with_tables db (<[id := updatedProduct]> (products db))
               (orders db),
             json (BProduct "Product updated successfully" updatedProduct) 200)
        end
      end
  end.

(** ** DELETE /api/products/[id] *)

Definition product_DELETE (db : Db) (env : Env) (id : string) : Db * Response :=
  match session env with
  | None => (db, json (BMessage "Unauthorized") 401)
  | Some role =>
    if negb (String.eqb role "ADMIN") then
      (db, json (BMessage "Unauthorized") 401)
    else
      match products db !! id with
      | None => (db, json (BMessage "Product not found") 404)
      | Some existingProduct =>
        if (0 <? length (orderItems db id))%nat then
          (db, json (BMessage "Cannot delete product with existing orders. Consider marking it as discontinued instead.") 400)
        else
          (with_tables db (delete id (products db)) (orders db),
           json (BMessage "Product deleted successfully") 200)
      end
  end.

(** * Auxiliary definitions for the statements *)

(** The sum of the increments a list of stock updates applies to one id. *)
Fixpoint total_increment (id : string) (ups : list (string * Z)) : Z :=
  match ups with
  | [] => 0
  | (k, d) :: rest =>
      (if decide (k = id) then d else 0) + total_increment id rest
  end.


(** A line is in stock when its product, if it exists, has at least the
    requested quantity on hand. *)
Definition in_stock (db : Db) (item : ItemBody) : Prop :=
  ∀ p, products db !! ib_productId item = Some p → ib_quantity item ≤ p_stock p.

#[global] Instance in_stock_dec db item : Decision (in_stock db item).
Proof.
  unfold in_stock. destruct (products db !! ib_productId item) as [p|].
  - destruct (decide (ib_quantity item ≤ p_stock p)) as [Hle|Hgt].
    + left. by intros ? [= <-].
    + right. intros H. apply Hgt. by apply H.
  - left. done.
Defined.

(** The product ids of a request's lines, in order. *)
Definition productIds (b : OrderCreateBody) : list string :=
  ib_productId <$> cb_items b.

(** The session belongs to a user whose role is one of [roles]. *)
Definition authorised (roles : list string) (env : Env) : Prop :=
  match session env with
  | Some role => role ∈ roles
  | None => False
  end.

#[global] Instance authorised_dec roles env : Decision (authorised roles env).
Proof. unfold authorised. destruct (session env); apply _. Defined.

(** A request that gets past the session, role, schema and customer checks
    of POST /api/orders. *)
Definition accepted (db : Db) (env : Env) (b : OrderCreateBody) : Prop :=
  authorised ["ADMIN"; "MANAGER"] env ∧
  OrderCreateSchema b = true ∧
  cb_customerId b ∈ customers db.

#[global] Instance accepted_dec db env b : Decision (accepted db env b).
Proof. unfold accepted. apply _. Defined.

(** Every line names a product of the catalog. *)
Definition products_exist (db : Db) (ids : list string) : Prop :=
  Forall (λ id, is_Some (products db !! id)) ids.

#[global] Instance products_exist_dec db ids : Decision (products_exist db ids).
Proof. unfold products_exist. apply _. Defined.

(** ** Sample data *)

Definition sample_product (name : string) (price : number) (stock : Z)
  : Product :=
  mkProduct name None price "cat-1" ("SKU-" +:+ name) stock None 0 None ACTIVE.

(** An amount column that holds every finite number as it is and refuses
    the others. *)
Definition float_column (x : number) : option number :=
  if PrimFloat.is_nan x || PrimFloat.is_infinity x then None else Some x.


(** One customer with one address, one category, two products with five
    units each, no order yet. *)
Definition sample_db : Db :=
  mkDb {["c1"]}
    (<["X" := sample_product "Widget" 10 5]>
       (<["Y" := sample_product "Gadget" 20 5]> ∅))
    ∅ {["a1"]} {["cat-1"]} float_column.

Definition sample_env : Env := mkEnv (Some "ADMIN") 1700000000000 "o1".

(** Six widgets, one more than there are. *)
Definition body_short : OrderCreateBody :=
  mkOrderCreateBody "c1" [mkItemBody "Y" 1 20; mkItemBody "X" 6 10] None None.

(** Two lines for the same product, the first of them short. *)
Definition body_twice : OrderCreateBody :=
  mkOrderCreateBody "c1" [mkItemBody "X" 6 10; mkItemBody "X" 1 10] None None.

(** Two lines for the same product, one unit each. *)
Definition body_double : OrderCreateBody :=
  mkOrderCreateBody "c1" [mkItemBody "X" 1 10; mkItemBody "X" 1 10] None None.

(** Two widgets at $10 and one gadget at $20. *)
Definition body_two_lines : OrderCreateBody :=
  mkOrderCreateBody "c1" [mkItemBody "X" 2 10; mkItemBody "Y" 1 20] None None.

(** ** The mutating routes, served one request after the other *)

Inductive Request :=
  | CreateOrder (env : Env) (b : OrderCreateBody)
  | UpdateOrder (env : Env) (id : string) (b : OrderUpdateBody)
  | DeleteOrder (env : Env) (id : string)
  | UpdateProduct (env : Env) (id : string) (b : ProductUpdateBody)
  | DeleteProduct (env : Env) (id : string).

Definition handle (db : Db) (req : Request) : Db * Response :=
  match req with
  | CreateOrder env b => POST db env b
  | UpdateOrder env id b => PUT db env id b
  | DeleteOrder env id => DELETE db env id
  | UpdateProduct env id b => product_PUT db env id b
  | DeleteProduct env id => product_DELETE db env id
  end.

Definition run (db : Db) (reqs : list Request) : Db :=
  fold_left (λ db req, (handle db req).1) reqs db.

(** ** Money *)

(** The sum of the line totals, added up from zero in line order. *)
Definition sum_line_totals (items : list OrderItem) : number :=
  fold_left (λ sum item, sum + oi_total item)%float items 0%float.

(** The invariant of an order's derived amounts. *)
Definition totals_hold (o : Order) : Prop :=
  o_total o = (o_subtotal o + o_tax o + o_shipping o)%float ∧
  o_subtotal o = sum_line_totals (o_items o).






(** A stored line carries the product, quantity and price of a request
    line. *)
Definition line_of (item : ItemBody) (line : OrderItem) : Prop :=
  oi_productId line = ib_productId item ∧
  oi_quantity line = ib_quantity item ∧
  oi_price line = ib_price item.




Definition status_body (s : string) : OrderUpdateBody :=
  mkOrderUpdateBody (Some s) None None None None.

(** The status SHIPPED together with a shipping address: the address of
    the sample, and one that names no address. *)
Definition shipped_to_a1 : OrderUpdateBody :=
  mkOrderUpdateBody (Some "SHIPPED") None None None (Some "a1").

Definition shipped_to_nowhere : OrderUpdateBody :=
  mkOrderUpdateBody (Some "SHIPPED") None None None (Some "addr-404").

(** ** Order updates *)

Definition OrderStatus_name (s : OrderStatus) : string :=
  match s with
  | PENDING => "PENDING"
  | CONFIRMED => "CONFIRMED"
  | PROCESSING => "PROCESSING"
  | SHIPPED => "SHIPPED"
  | DELIVERED => "DELIVERED"
  | CANCELLED => "CANCELLED"
  end.

(** The requests served in turn, with their responses. *)
Fixpoint serve (db : Db) (reqs : list Request) : Db * list Response :=
  match reqs with
  | [] => (db, [])
  | req :: rest =>
      let '(db1, r) := handle db req in
      let '(db2, rs) := serve db1 rest in
      (db2, r :: rs)
  end.

(** The product ids of the lines of a stored order. *)
Definition line_products (o : Order) : list string :=
  oi_productId <$> o_items o.

(** The sample database after the two-line order "o1" has been created,
    and after that order has then been cancelled. *)
Definition sample_db1 : Db := (POST sample_db sample_env body_two_lines).1.

Definition sample_db2 : Db :=
  (PUT sample_db1 sample_env "o1" (status_body "CANCELLED")).1.

(** The four status updates of the regular lifecycle, one after the other. *)
Definition lifecycle (env : Env) (id : string) : list Request :=
  [UpdateOrder env id (status_body "CONFIRMED");
   UpdateOrder env id (status_body "PROCESSING");
   UpdateOrder env id (status_body "SHIPPED");
   UpdateOrder env id (status_body "DELIVERED")].

(** The product table after the stock of every product went up by the sum
    of the increments addressed to it. *)
Definition restocked (ps : gmap string Product) (ups : list (string * Z))
  : gmap string Product :=
  map_imap (λ id p, Some (with_stock p (p_stock p + total_increment id ups))) ps.

(** Some order line references the product. *)
Definition referenced (db : Db) (id : string) : Prop :=
  ∃ oid o line, orders db !! oid = Some o ∧ line ∈ o_items o ∧
                oi_productId line = id.

(** A session of the administrator, who alone may delete. *)
Definition admin (env : Env) : Prop := session env = Some "ADMIN".

(** The sample with its order "o1" in status PROCESSING. *)
Definition sample_db3 : Db :=
  (PUT sample_db1 sample_env "o1" (status_body "PROCESSING")).1.

(** The sample with a third product that no order references. *)
Definition sample_db4 : Db :=
  with_tables sample_db1
    (<["Z" := sample_product "Gizmo" 30 7]> (products sample_db1))
    (orders sample_db1).

(** ** Stock levels *)

Definition stocks_nonneg (db : Db) : Prop :=
  map_Forall (λ _ p, 0 ≤ p_stock p) (products db).

(** Every line of every stored order has a quantity of at least one. *)
Definition quantities_positive (db : Db) : Prop :=
  map_Forall (λ _ o, Forall (λ line, 1 ≤ oi_quantity line) (o_items o))
    (orders db).

(** *** Requests served concurrently

    The POST handler awaits the database between its checks and its
    transaction, so other requests can be served in between.  A system
    state is the database together with the order-creation requests that
    have passed their checks and have not run their transaction yet. *)
Record System := mkSystem {
  sys_db : Db;
  in_flight : list (Env * OrderCreateBody)
}.

Inductive step : System → System → Prop :=
  | step_checks db fl env b :
      POST_checks db env b = None →
      step (mkSystem db fl) (mkSystem db ((env, b) :: fl))
  | step_transaction db fl1 env b fl2 :
      step (mkSystem db (fl1 ++ (env, b) :: fl2))
           (mkSystem (POST_transaction db env b).1 (fl1 ++ fl2))
  | step_request db fl req :
      step (mkSystem db fl) (mkSystem (handle db req).1 fl).

(** Two requests for three widgets each, of which there are five. *)
Definition body_three : OrderCreateBody :=
  mkOrderCreateBody "c1" [mkItemBody "X" 3 10] None None.

Definition sample_env2 : Env := mkEnv (Some "MANAGER") 1700000000001 "o2".

(** Every line of every stored order names a product of the catalog. *)
Definition referential_integrity (db : Db) : Prop :=
  map_Forall (λ _ o, products_exist db (line_products o)) (orders db).

(** * Further handlers and their callers *)

(** ** GET /api/orders/[id] *)

(** As in the other order handlers the body stands for the order row with
    its lines; the joined customer, address, product and payment columns
    are not modelled.  Any signed-in user may read. *)
Definition GET (db : Db) (env : Env) (id : string) : Response :=
  match session env with
  | None => json (BError "Unauthorized") 401
  | Some _ =>
    match orders db !! id with
    | None => json (BError "Order not found") 404
    | Some order => json (BOrder order) 200
    end
  end.

(** ** GET /api/products/[id] *)

(** The body of the product route's read: a message, or the product with
    its [orderItems], each with its [order].  The joined category, variants
    and images are not modelled. *)
Inductive ProductBody :=
  | PMessage (message : string)
  | PProduct (product : Product) (items : list (OrderItem * Order)).

(** [include: { orderItems: { include: { order: true } } }] *)
Definition orderItems_with_order (db : Db) (id : string)
  : list (OrderItem * Order) :=
  filter (λ io, oi_productId io.1 = id)
    ((map_to_list (orders db)).*2 ≫= (λ o, (λ it, (it, o)) <$> o_items o)).

Definition product_GET (db : Db) (env : Env) (id : string)
  : ProductBody * Z :=
  match session env with
  | None => (PMessage "Unauthorized", 401)
  | Some _ =>
    match products db !! id with
    | None => (PMessage "Product not found", 404)
    | Some product => (PProduct product (orderItems_with_order db id), 200)
    end
  end.

(** ** The new-order page, [src/app/dashboard/orders/new/page.tsx] *)

(** The handlers of the page are taken on the state the page shows: the
    [formData] a handler reads and the [prev] its updater receives are the
    same state. *)

(** A product as the page receives it from the product search. *)
Record UiProduct := mkUiProduct {
  up_id : string;
  up_name : string;
  up_sku : string;
  up_price : number;
  up_stock : Z;
  up_image : option string
}.

Record FormItem := mkFormItem {
  fi_productId : string;
  fi_quantity : Z;
  fi_price : number;
  fi_product : option UiProduct
}.

(** The [formData] state of the page. *)
Record FormData := mkFormData {
  fd_customerId : string;
  fd_shippingAddressId : string;
  fd_notes : string;
  fd_items : list FormItem
}.

Definition with_items (f : FormData) (items : list FormItem) : FormData :=
  mkFormData (fd_customerId f) (fd_shippingAddressId f) (fd_notes f) items.

Definition with_quantity (item : FormItem) (quantity : Z) : FormItem :=
  mkFormItem (fi_productId item) quantity (fi_price item) (fi_product item).

Definition handleAddProduct (product : UiProduct) (f : FormData) : FormData :=
  match List.find (λ item, String.eqb (fi_productId item) (up_id product))
          (fd_items f) with
  | Some existingItem =>
      with_items f
        ((λ item, if String.eqb (fi_productId item) (up_id product)
                  then with_quantity item (fi_quantity item + 1)
                  else item) <$> fd_items f)
  | None =>
      with_items f
        (fd_items f ++ [mkFormItem (up_id product) 1 (up_price product)
                          (Some product)])
  end.

Definition handleRemoveItem (productId : string) (f : FormData) : FormData :=
  with_items f
    (List.filter (λ item, negb (String.eqb (fi_productId item) productId))
       (fd_items f)).

(** The quantity is what [parseInt(e.target.value) || 0] yields: an
    integer. *)
Definition handleUpdateQuantity (productId : string) (quantity : Z)
    (f : FormData) : FormData :=
  if quantity <=? 0 then handleRemoveItem productId f
  else
    with_items f
      ((λ item, if String.eqb (fi_productId item) productId
                then with_quantity item quantity
                else item) <$> fd_items f).

Definition calculateSubtotal (f : FormData) : number :=
  fold_left (λ sum item, sum + fi_price item * Number (fi_quantity item))%float
    (fd_items f) 0%float.

Definition calculateTax (subtotal : number) : number := (subtotal * 0.08)%float.

Definition calculateShipping : number := 10.00%float.

Definition calculateTotal (f : FormData) : number :=
  let subtotal := calculateSubtotal f in
  let tax := calculateTax subtotal in
  let shipping := calculateShipping in
  (subtotal + tax + shipping)%float.

(** The JSON the page posts to /api/orders. *)
Record OrderData := mkOrderData {
  od_customerId : string;
  od_shippingAddressId : option string;
  od_items : list ItemBody;
  od_subtotal : number;
  od_tax : number;
  od_shipping : number;
  od_total : number;
  od_notes : option string
}.

(** [s || undefined] *)
Definition or_undefined (s : string) : option string :=
  if String.eqb s "" then None else Some s.

Inductive Submit :=
  | Toast (description : string)
  | Fetch (orderData : OrderData).

Definition handleSubmit (f : FormData) : Submit :=
  if String.eqb (fd_customerId f) "" then Toast "Please select a customer"
  else if (length (fd_items f) =? 0)%nat then
    Toast "Please add at least one item to the order"
  else
    Fetch (mkOrderData (fd_customerId f)
             (or_undefined (fd_shippingAddressId f))
             ((λ item, mkItemBody (fi_productId item) (fi_quantity item)
                         (fi_price item)) <$> fd_items f)
             (calculateSubtotal f) (calculateTax (calculateSubtotal f))
             calculateShipping (calculateTotal f)
             (or_undefined (fd_notes f))).

(** What [OrderCreateSchema.parse] keeps of the posted JSON: the keys of
    the schema; [subtotal], [tax], [shipping] and [total] are not among
    them. *)
Definition parsed_body (d : OrderData) : OrderCreateBody :=
  mkOrderCreateBody (od_customerId d) (od_items d) (od_shippingAddressId d)
    (od_notes d).

(** The events of the page that change the list of items. *)
Inductive FormEvent :=
  | AddProduct (product : UiProduct)
  | UpdateQuantity (productId : string) (quantity : Z)
  | RemoveItem (productId : string).

Definition form_step (f : FormData) (e : FormEvent) : FormData :=
  match e with
  | AddProduct product => handleAddProduct product f
  | UpdateQuantity productId quantity => handleUpdateQuantity productId quantity f
  | RemoveItem productId => handleRemoveItem productId f
  end.

(** The initial state of the page. *)
Definition empty_form : FormData := mkFormData "" "" "" [].

(** ** The order list page, [src/app/dashboard/orders/page.tsx] *)

Definition canManageOrders (env : Env) : bool :=
  bool_decide (session env = Some "ADMIN")
  || bool_decide (session env = Some "MANAGER").

(** The requests behind the entries of an order's action menu: the five
    status updates and, for an administrator and a PENDING order, the
    deletion. *)
Definition menu (env : Env) (id : string) (order : Order) : list Request :=
  if canManageOrders env then
    [UpdateOrder env id (status_body "CONFIRMED");
     UpdateOrder env id (status_body "PROCESSING");
     UpdateOrder env id (status_body "SHIPPED");
     UpdateOrder env id (status_body "DELIVERED");
     UpdateOrder env id (status_body "CANCELLED")]
    ++ (if bool_decide (session env = Some "ADMIN")
           && bool_decide (o_status order = PENDING)
        then [DeleteOrder env id] else [])
  else [].

(** * Auxiliary definitions for the further properties *)

(** A response that reports success. *)
Definition ok (r : Response) : Prop := res_status r = 200 ∨ res_status r = 201.

(** The environment of a request. *)
Definition req_env (req : Request) : Env :=
  match req with
  | CreateOrder env _ | UpdateOrder env _ _ | DeleteOrder env _
  | UpdateProduct env _ _ | DeleteProduct env _ => env
  end.

(** A request to one of the three order routes. *)
Definition order_request (req : Request) : Prop :=
  match req with
  | CreateOrder _ _ | UpdateOrder _ _ _ | DeleteOrder _ _ => True
  | UpdateProduct _ _ _ | DeleteProduct _ _ => False
  end.

(** [q] is the row [p] with, at most, another stock. *)
Definition same_but_stock (p q : Product) : Prop := q = with_stock p (p_stock q).

(** No two products carry the same SKU. *)
Definition sku_unique (db : Db) : Prop :=
  ∀ id1 id2 p1 p2,
    products db !! id1 = Some p1 → products db !! id2 = Some p2 →
    p_sku p1 = p_sku p2 → id1 = id2.

(** A request body that sets nothing. *)
Definition empty_update : OrderUpdateBody :=
  mkOrderUpdateBody None None None None None.

Definition empty_product_update : ProductUpdateBody :=
  mkProductUpdateBody None None None None None None None None None None.

(** A manager, and a signed-in user with neither managing role. *)
Definition manager_env : Env := mkEnv (Some "MANAGER") 1700000000002 "o3".

Definition user_env : Env := mkEnv (Some "USER") 1700000000003 "o4".

Definition anonymous_env : Env := mkEnv None 1700000000004 "o5".

(** The validated data of a request that only sets the status. *)
Definition only_status (s : OrderStatus) : OrderUpdate :=
  mkOrderUpdate (Some s) None None None None.

(** The SKU an update would give the product clashes with another row:
    the [if] of PUT /api/products/[id]. *)
Definition sku_taken (db : Db) (existingProduct : Product)
    (b : ProductUpdateBody) : bool :=
  match pb_sku b with
  | Some sku => negb (String.eqb sku (p_sku existingProduct))
                && sku_exists db sku
  | None => false
  end.

(** Bodies that set a single field of a product. *)
Definition price_update (price : number) : ProductUpdateBody :=
  mkProductUpdateBody None None (Some price) None None None None None None None.

Definition stock_update (stock : Z) : ProductUpdateBody :=
  mkProductUpdateBody None None None None None (Some stock) None None None None.

Definition sku_update (sku : string) : ProductUpdateBody :=
  mkProductUpdateBody None None None None (Some sku) None None None None None.

(** A second session at the same reading of the clock as [sample_env]. *)
Definition same_time_env : Env := mkEnv (Some "MANAGER") 1700000000000 "o2".

(** ** The new-order form *)

Definition item_ids (f : FormData) : list string := fi_productId <$> fd_items f.

(** No product on two lines, and every line with a quantity of at least
    one. *)
Definition form_ok (f : FormData) : Prop :=
  NoDup (item_ids f) ∧ Forall (λ item, 1 ≤ fi_quantity item) (fd_items f).

(** The form after a sequence of events. *)
Definition form_after (f : FormData) (events : list FormEvent) : FormData :=
  fold_left form_step events f.

(** The products the page shows for the sample catalog. *)
Definition ui_widget : UiProduct := mkUiProduct "X" "Widget" "SKU-Widget" 10 5 None.

Definition ui_gadget : UiProduct := mkUiProduct "Y" "Gadget" "SKU-Gadget" 20 5 None.

Definition sample_form : FormData := mkFormData "c1" "" "" [].

(** What the page needs of a line for the server to accept the request:
    a product id, a price that is not negative, a product of the catalog. *)
Definition line_known (db : Db) (item : FormItem) : Prop :=
  fi_productId item ≠ "" ∧ PrimFloat.leb 0 (fi_price item) = true ∧
  is_Some (products db !! fi_productId item).

(** The form after the sample customer has put a widget in it. *)
Definition widget_form : FormData := handleAddProduct ui_widget sample_form.

(** The widget as a later search shows it, at a new price. *)
Definition ui_widget_dearer : UiProduct :=
  mkUiProduct "X" "Widget" "SKU-Widget" 12 5 None.

(** A body that only carries notes. *)
Definition notes_body (notes : string) : OrderUpdateBody :=
  mkOrderUpdateBody None None None (Some notes) None.

(** The sample after an order took all five widgets. *)
Definition body_all_widgets : OrderCreateBody :=
  mkOrderCreateBody "c1" [mkItemBody "X" 5 10] None None.

Definition sold_out_db : Db := (POST sample_db sample_env body_all_widgets).1.


(** Bodies that name an address that does not exist: with a cancellation,
    and alone. *)
Definition cancelled_to_nowhere : OrderUpdateBody :=
  mkOrderUpdateBody (Some "CANCELLED") None None None (Some "addr-404").

Definition address_body_nowhere : OrderUpdateBody :=
  mkOrderUpdateBody None None None None (Some "addr-404").


(** A body that moves a product to another category. *)
Definition category_update (categoryId : string) : ProductUpdateBody :=
  mkProductUpdateBody None None None (Some categoryId) None None None None
    None None.

(** * Properties *)

(** ** Stock updates *)

Lemma with_stock_same p : with_stock p (p_stock p) = p.
Proof. by destruct p. Qed.

Lemma with_stock_twice p s t : with_stock (with_stock p s) t = with_stock p t.
Proof. done. Qed.

Lemma p_stock_with_stock p s : p_stock (with_stock p s) = s.
Proof. done. Qed.

Lemma product_update_stock_Some ps id d ps' :
  product_update_stock ps id d = Some ps' ↔
  ∃ p, ps !! id = Some p ∧ ps' = <[id := with_stock p (p_stock p + d)]> ps.
Proof.
  unfold product_update_stock. destruct (ps !! id) as [p|]; simpl.
  - split; [intros [= <-]; eauto | intros (q & [= <-] & ->); done].
  - split; [done | intros (q & ? & _); done].
Qed.

(** A successful run of updates adds, to every product, the sum of the
    increments addressed to it, and changes nothing else. *)
Lemma stock_updates_lookup ups : ∀ ps ps',
  stock_updates ps ups = Some ps' →
  ∀ id, ps' !! id
        = (λ p, with_stock p (p_stock p + total_increment id ups)) <$> ps !! id.
Proof.
  induction ups as [|[k d] rest IH]; intros ps ps' Hrun id; simpl in *.
  - injection Hrun as <-. destruct (ps !! id) as [p|]; simpl; [|done].
    by rewrite Z.add_0_r, with_stock_same.
  - destruct (product_update_stock ps k d) as [ps1|] eqn:Hup; [|done].
    simpl in Hrun. apply product_update_stock_Some in Hup as (p & Hp & ->).
    rewrite (IH _ _ Hrun id). destruct (decide (k = id)) as [->|Hne].
    + rewrite lookup_insert_eq, Hp. simpl. f_equal.
      rewrite with_stock_twice. f_equal. lia.
    + rewrite lookup_insert_ne by done. by rewrite Z.add_0_l.
Qed.

Lemma stock_updates_dom ups : ∀ ps ps',
  stock_updates ps ups = Some ps' → dom ps' = dom ps.
Proof.
  intros ps ps' Hrun. apply set_eq. intros id.
  rewrite !elem_of_dom, (stock_updates_lookup _ _ _ Hrun id).
  by rewrite fmap_is_Some.
Qed.

(** The updates go through exactly when every addressed product exists. *)
Lemma stock_updates_is_Some ups : ∀ ps,
  is_Some (stock_updates ps ups) ↔ Forall (λ u, is_Some (ps !! u.1)) ups.
Proof.
  induction ups as [|[k d] rest IH]; intros ps; simpl.
  - split; [constructor | eauto].
  - rewrite Forall_cons. simpl. split.
    + intros [ps' Hrun].
      destruct (product_update_stock ps k d) as [ps1|] eqn:Hup; [|done].
      simpl in Hrun. pose proof Hup as Hup'.
      apply product_update_stock_Some in Hup as (p & Hp & ->).
      split; [eauto|].
      assert (is_Some (stock_updates (<[k:=with_stock p (p_stock p + d)]> ps) rest))
        as Hs by eauto.
      apply IH in Hs. eapply Forall_impl; [exact Hs|].
      intros [k' d'] Hk'. simpl in *.
      destruct (decide (k = k')) as [->|]; [eauto|].
      by rewrite lookup_insert_ne in Hk'.
    + intros [[p Hp] Hrest]. unfold product_update_stock. rewrite Hp. simpl.
      apply IH. eapply Forall_impl; [exact Hrest|].
      intros [k' d'] Hk'. simpl in *.
      destruct (decide (k = k')) as [->|].
      * rewrite lookup_insert_eq. eauto.
      * by rewrite lookup_insert_ne.
Qed.

Lemma total_increment_not_in id ups :
  id ∉ ups.*1 → total_increment id ups = 0.
Proof.
  induction ups as [|[k d] rest IH]; simpl; [done|].
  rewrite not_elem_of_cons. intros [Hne Hrest].
  rewrite decide_False by done. rewrite IH by done. lia.
Qed.

(** When no id is addressed twice, the increment of an addressed id is the
    one of its only update. *)
Lemma total_increment_NoDup id d ups :
  NoDup ups.*1 → (id, d) ∈ ups → total_increment id ups = d.
Proof.
  induction ups as [|[k e] rest IH]; simpl; [by intros _ ?%elem_of_nil|].
  rewrite NoDup_cons. intros [Hk Hnd] [Heq|Hin]%elem_of_cons.
  - injection Heq as <- <-. rewrite decide_True by done.
    rewrite total_increment_not_in by done. lia.
  - rewrite decide_False.
    + rewrite IH by done. lia.
    + intros ->. apply Hk. apply list_elem_of_fmap. by exists (id, d).
Qed.

(** ** Product lookup *)

Lemma product_findMany_elem db ids id p :
  (id, p) ∈ product_findMany db ids ↔ id ∈ ids ∧ products db !! id = Some p.
Proof.
  unfold product_findMany.
  by rewrite list_elem_of_filter, elem_of_map_to_list.
Qed.

Lemma product_findMany_keys db ids id :
  id ∈ (product_findMany db ids).*1 ↔ id ∈ ids ∧ is_Some (products db !! id).
Proof.
  rewrite list_elem_of_fmap. split.
  - intros ([k p] & -> & Hin). apply product_findMany_elem in Hin as [? ?].
    simpl. eauto.
  - intros [Hin [p Hp]]. exists (id, p). split; [done|].
    by apply product_findMany_elem.
Qed.

Lemma product_findMany_NoDup db ids : NoDup (product_findMany db ids).*1.
Proof.
  apply (sublist_NoDup _ (map_to_list (products db)).*1).
  - apply NoDup_fst_map_to_list.
  - apply fmap_sublist, sublist_filter.
Qed.

(** The lookup returns as many rows as ids were asked for exactly when the
    ids are pairwise distinct and each of them names a product. *)
Lemma product_findMany_length db ids :
  length (product_findMany db ids) = length ids ↔
  NoDup ids ∧ Forall (λ id, is_Some (products db !! id)) ids.
Proof.
  pose proof (product_findMany_NoDup db ids) as Hnd.
  split.
  - intros Hlen.
    assert ((product_findMany db ids).*1 ≡ₚ ids) as Hperm.
    { apply submseteq_length_Permutation.
      - apply NoDup_submseteq; [done|].
        intros id Hin. by apply product_findMany_keys in Hin as [? _].
      - rewrite length_fmap. lia. }
    split; [by rewrite <- Hperm|].
    apply Forall_forall. intros id Hin. rewrite <- Hperm in Hin.
    by apply product_findMany_keys in Hin as [_ ?].
  - intros [Hids Hall]. rewrite <- (length_fmap fst).
    apply Permutation_length, NoDup_Permutation; [done..|].
    intros id. rewrite product_findMany_keys. split; [tauto|].
    intros Hin. split; [done|]. by eapply Forall_forall in Hall.
Qed.

Lemma find_product_elem found id p :
  find_product found id = Some p → (id, p) ∈ found.
Proof.
  unfold find_product. induction found as [|[k q] rest IH]; simpl; [done|].
  destruct (String.eqb k id) eqn:Hk; simpl.
  - apply String.eqb_eq in Hk as ->. intros [= ->]. left.
  - intros ?. right. auto.
Qed.

Lemma find_product_None found id :
  find_product found id = None → id ∉ found.*1.
Proof.
  unfold find_product. induction found as [|[k q] rest IH]; simpl.
  - intros _. apply not_elem_of_nil.
  - destruct (String.eqb k id) eqn:Hk; simpl; [done|].
    apply String.eqb_neq in Hk. intros ?.
    rewrite not_elem_of_cons. split; [congruence | auto].
Qed.

(** [find] on the rows of the lookup is the table lookup itself. *)
Lemma find_product_findMany db ids id :
  id ∈ ids → find_product (product_findMany db ids) id = products db !! id.
Proof.
  intros Hin.
  destruct (find_product (product_findMany db ids) id) as [p|] eqn:Hfind.
  - apply find_product_elem, product_findMany_elem in Hfind as [_ ->]. done.
  - apply find_product_None in Hfind. rewrite product_findMany_keys in Hfind.
    destruct (products db !! id); [|done]. exfalso. eauto.
Qed.

(** ** The stock check *)

Lemma check_stock_None db ids items :
  (∀ item, item ∈ items → ib_productId item ∈ ids) →
  check_stock (product_findMany db ids) items = None ↔
  Forall (in_stock db) items.
Proof.
  induction items as [|item rest IH]; intros Hids; simpl.
  - split; [constructor | done].
  - rewrite find_product_findMany by (apply Hids; left).
    rewrite Forall_cons. unfold in_stock at 1.
    assert (∀ it, it ∈ rest → ib_productId it ∈ ids) as Hrest
      by (intros; apply Hids; by right).
    destruct (products db !! ib_productId item) as [p|].
    + destruct (Z.ltb_spec (p_stock p) (ib_quantity item)).
      * split; [done|]. intros [Hp _]. specialize (Hp p eq_refl). lia.
      * rewrite (IH Hrest). split; [|tauto].
        intros ?. split; [|done]. intros ? [= <-]. lia.
    + rewrite (IH Hrest). split; [|tauto]. intros ?. split; done.
Qed.

(** The check answers with the product of the first line that is short. *)
Lemma check_stock_first db ids pre item post p :
  (∀ it, it ∈ pre ++ item :: post → ib_productId it ∈ ids) →
  Forall (in_stock db) pre →
  products db !! ib_productId item = Some p →
  p_stock p < ib_quantity item →
  check_stock (product_findMany db ids) (pre ++ item :: post) = Some p.
Proof.
  induction pre as [|it pre IH]; intros Hids Hpre Hp Hlt; simpl.
  - rewrite find_product_findMany by (apply Hids; left). rewrite Hp.
    by rewrite (proj2 (Z.ltb_lt _ _) Hlt).
  - apply Forall_cons in Hpre as [Hit Hpre].
    rewrite find_product_findMany by (apply Hids; left).
    assert (check_stock (product_findMany db ids) (pre ++ item :: post) = Some p)
      as -> by (apply IH; [intros; apply Hids; by right | done..]).
    destruct (products db !! ib_productId it) as [q|] eqn:Hq; [|done].
    specialize (Hit q Hq). by rewrite (proj2 (Z.ltb_ge _ _) Hit).
Qed.

(** Among lines of which one is short there is a first one. *)
Lemma first_short_line db items :
  ¬ Forall (in_stock db) items →
  ∃ pre item post p,
    items = pre ++ item :: post ∧ Forall (in_stock db) pre ∧
    products db !! ib_productId item = Some p ∧ p_stock p < ib_quantity item.
Proof.
  induction items as [|it rest IH]; intros Hnot.
  - destruct Hnot. constructor.
  - destruct (decide (in_stock db it)) as [Hit|Hit].
    + destruct IH as (pre & item & post & p & -> & Hpre & Hp & Hlt).
      { intros Hrest. apply Hnot. by constructor. }
      exists (it :: pre), item, post, p. repeat split; try done.
      by constructor.
    + exists [], it, rest.
      unfold in_stock in Hit.
      destruct (products db !! ib_productId it) as [p|] eqn:Hp.
      * exists p. repeat split; try done.
        destruct (decide (ib_quantity it ≤ p_stock p)); [|lia].
        exfalso. apply Hit. by intros ? [= <-].
      * exfalso. by apply Hit.
Qed.

(** ** POST /api/orders: the checks *)

Lemma has_role_true roles role : has_role roles role = true ↔ role ∈ roles.
Proof. unfold has_role. by rewrite bool_decide_eq_true. Qed.

Lemma items_productIds b item :
  item ∈ cb_items b → ib_productId item ∈ productIds b.
Proof. intros ?. by apply list_elem_of_fmap_2. Qed.

(** Past the first four checks the handler compares the number of rows
    found with the number of lines, then checks the stock. *)
Lemma POST_checks_accepted db env b :
  accepted db env b →
  POST_checks db env b =
    if (length (product_findMany db (productIds b)) =? length (productIds b))%nat
    then match check_stock (product_findMany db (productIds b)) (cb_items b) with
         | Some product =>
             Some (json (BError ("Insufficient stock for product: "
                                 +:+ p_name product)) 400)
         | None => None
         end
    else Some (json (BError "One or more products not found") 404).
Proof.
  intros (Hauth & Hschema & Hcust). unfold POST_checks, authorised in *.
  destruct (session env) as [role|]; [|done].
  apply has_role_true in Hauth. rewrite Hauth, Hschema. simpl.
  rewrite bool_decide_eq_true_2 by done. simpl. fold (productIds b).
  by destruct (_ =? _)%nat.
Qed.

(** The checks let a request through exactly when it is accepted, its
    lines name pairwise distinct products of the catalog, and every line
    is in stock. *)
Lemma POST_checks_None db env b :
  POST_checks db env b = None ↔
  accepted db env b ∧ NoDup (productIds b) ∧
  products_exist db (productIds b) ∧ Forall (in_stock db) (cb_items b).
Proof.
  split.
  - intros Hnone.
    assert (accepted db env b) as Hacc.
    { unfold POST_checks, accepted, authorised in *.
      destruct (session env) as [role|]; [|done].
      destruct (has_role _ role) eqn:Hrole; [|done].
      destruct (OrderCreateSchema b); [|done].
      destruct (bool_decide (cb_customerId b ∈ customers db)) eqn:Hc; [|done].
      apply has_role_true in Hrole. apply bool_decide_eq_true in Hc. done. }
    split; [done|]. rewrite (POST_checks_accepted _ _ _ Hacc) in Hnone.
    destruct (Nat.eqb_spec (length (product_findMany db (productIds b)))
                (length (productIds b))) as [Hlen|]; [|done].
    apply product_findMany_length in Hlen as [Hnd Hex].
    repeat split; try done.
    destruct (check_stock _ _) eqn:Hcs; [done|].
    eapply check_stock_None; [|exact Hcs]. apply items_productIds.
  - intros (Hacc & Hnd & Hex & Hstock).
    rewrite (POST_checks_accepted _ _ _ Hacc).
    rewrite (proj2 (Nat.eqb_eq _ _)) by by apply product_findMany_length.
    by rewrite (proj2 (check_stock_None db _ _ (items_productIds b))).
Qed.

Lemma POST_checks_status db env b r :
  POST_checks db env b = Some r → res_status r ≠ 201.
Proof.
  unfold POST_checks. intros H.
  repeat (match type of H with
          | context [match ?x with _ => _ end] => destruct x
          end; simpl in H); by simplify_eq.
Qed.

Lemma POST_early_return db env b r :
  POST_checks db env b = Some r → POST db env b = (db, r).
Proof. unfold POST. by intros ->. Qed.

Lemma short_line_not_in_stock db items item p :
  item ∈ items → products db !! ib_productId item = Some p →
  p_stock p < ib_quantity item → ¬ Forall (in_stock db) items.
Proof.
  intros Hin Hp Hlt Hall. eapply Forall_forall in Hall; [|exact Hin].
  specialize (Hall p Hp). lia.
Qed.

(** ** POST /api/orders: the transaction *)

Lemma decrements_keys items : (decrements items).*1 = ib_productId <$> items.
Proof.
  unfold decrements. rewrite <- list_fmap_compose. by apply list_fmap_ext.
Qed.

Lemma increments_keys items : (increments items).*1 = oi_productId <$> items.
Proof.
  unfold increments. rewrite <- list_fmap_compose. by apply list_fmap_ext.
Qed.

Lemma products_exist_updates db (ups : list (string * Z)) :
  products_exist db ups.*1 → is_Some (stock_updates (products db) ups).
Proof.
  intros Hex. apply stock_updates_is_Some.
  unfold products_exist in Hex. by rewrite Forall_fmap in Hex.
Qed.

(** *** The row the database stores *)

Lemma stored_item_Some db item line :
  stored_item db item = Some line ↔
  oi_productId line = oi_productId item ∧
  oi_quantity line = oi_quantity item ∧
  oi_price line = oi_price item ∧
  stored_amount db (oi_total item) = Some (oi_total line).
Proof.
  unfold stored_item. destruct (stored_amount db (oi_total item)) as [t|]; simpl.
  - split; [by intros [= <-]|].
    destruct line; simpl. by intros (-> & -> & -> & [= ->]).
  - split; [done | by intros (_ & _ & _ & ?)].
Qed.

(** The stored row has the amounts the columns hold for the written ones,
    and every other field as written. *)
Lemma stored_order_Some db data o :
  stored_order db data = Some o ↔
  ∃ subtotal tax shipping total items,
    stored_amount db (o_subtotal data) = Some subtotal ∧
    stored_amount db (o_tax data) = Some tax ∧
    stored_amount db (o_shipping data) = Some shipping ∧
    stored_amount db (o_total data) = Some total ∧
    Forall2 (λ item line, stored_item db item = Some line)
      (o_items data) items ∧
    o = mkOrder (o_orderNumber data) (o_customerId data)
          subtotal tax shipping total
          (o_status data) (o_paymentStatus data) (o_shippingStatus data)
          (o_shippingAddressId data) (o_notes data) items
          (o_createdAt data) (o_updatedAt data).
Proof.
  unfold stored_order. split.
  - intros H.
    destruct (stored_amount db (o_subtotal data)) as [subtotal|]; [|done].
    destruct (stored_amount db (o_tax data)) as [tax|]; [|done].
    destruct (stored_amount db (o_shipping data)) as [shipping|]; [|done].
    destruct (stored_amount db (o_total data)) as [total|]; [|done].
    simpl in H.
    destruct (mapM (stored_item db) (o_items data)) as [items|] eqn:Hitems;
      [|done].
    simpl in H. injection H as <-. apply mapM_Some in Hitems.
    by exists subtotal, tax, shipping, total, items.
  - intros (subtotal & tax & shipping & total & items
            & -> & -> & -> & -> & Hitems & ->).
    simpl. apply mapM_Some in Hitems. by rewrite Hitems.
Qed.

Lemma stored_lines_increments db (written lines : list OrderItem) :
  Forall2 (λ item line, stored_item db item = Some line) written lines →
  increments lines = increments written.
Proof.
  induction 1 as [|item line written lines Hline _ IH]; [done|].
  apply stored_item_Some in Hline as (Hid & Hq & _).
  unfold increments in *. rewrite !fmap_cons, IH. by rewrite Hid, Hq.
Qed.

Lemma stored_order_lines db data o :
  stored_order db data = Some o →
  Forall2 (λ item line, stored_item db item = Some line)
    (o_items data) (o_items o).
Proof.
  intros (? & ? & ? & ? & items & _ & _ & _ & _ & Hitems & ->)%stored_order_Some.
  done.
Qed.

Lemma stored_order_increments db data o :
  stored_order db data = Some o →
  increments (o_items o) = increments (o_items data).
Proof. intros Ho. eapply stored_lines_increments, stored_order_lines, Ho. Qed.

Lemma stored_order_line_products db data o :
  stored_order db data = Some o → line_products o = line_products data.
Proof.
  intros Ho%stored_order_increments. unfold line_products.
  by rewrite <- !increments_keys, Ho.
Qed.

Lemma stored_order_status db data o :
  stored_order db data = Some o → o_status o = o_status data.
Proof.
  intros (? & ? & ? & ? & items & _ & _ & _ & _ & _ & ->)%stored_order_Some.
  done.
Qed.


(** A 201 answer comes from a committed transaction. *)
Lemma POST_created db env b db' body :
  POST db env b = (db', json body 201) →
  POST_checks db env b = None ∧
  (newId env ∉ dom (orders db)) ∧
  references_ok (addresses db) (cb_shippingAddressId b) = true ∧
  ∃ o ps, stored_order db (new_order env b) = Some o ∧
          body = BOrder o ∧
          stock_updates (products db) (decrements (cb_items b)) = Some ps ∧
          db' = with_tables db ps (<[newId env := o]> (orders db)).
Proof.
  unfold POST. destruct (POST_checks db env b) as [r|] eqn:Hchecks.
  - intros [= <- ->]. by apply POST_checks_status in Hchecks.
  - unfold POST_transaction. case_bool_decide as Hid; [done|].
    destruct (references_ok _ _) eqn:Haddr; simpl; [|done].
    destruct (stored_order _ _) as [o|] eqn:Ho; simpl; [|done].
    destruct (stock_updates _ _) as [ps|]; simpl; [|done].
    intros [= <- <-]. eauto 10.
Qed.

(** ** What each handler can do to the database *)

Lemma POST_cases db env b :
  (POST db env b).1 = db ∨
  ∃ o ps, POST_checks db env b = None ∧ (newId env ∉ dom (orders db)) ∧
          stock_updates (products db) (decrements (cb_items b)) = Some ps ∧
          stored_order db (new_order env b) = Some o ∧
          POST db env b
          = (with_tables db ps (<[newId env := o]> (orders db)),
             json (BOrder o) 201).
Proof.
  unfold POST. destruct (POST_checks db env b) as [r|]; [by left|].
  unfold POST_transaction. case_bool_decide as Hid; [by left|].
  destruct (references_ok _ _); simpl; [|by left].
  destruct (stored_order _ _) as [o|] eqn:Ho; simpl; [|by left].
  destruct (stock_updates _ _) as [ps|]; simpl; [|by left].
  right. exists o, ps. by repeat split.
Qed.

Lemma PUT_cases db env id b :
  (PUT db env id b).1 = db ∨
  ∃ o u ps, authorised ["ADMIN"; "MANAGER"] env ∧
            OrderUpdateSchema b = Some u ∧ orders db !! id = Some o ∧
            stock_updates (products db) (stockUpdates o u) = Some ps ∧
            PUT db env id b
            = (with_tables db ps
                 (<[id := apply_update o u (now env)]> (orders db)),
               json (BOrder (apply_update o u (now env))) 200).
Proof.
  unfold PUT, authorised. destruct (session env) as [role|]; [|by left].
  destruct (has_role _ role) eqn:Hrole; simpl; [|by left].
  destruct (OrderUpdateSchema b) as [u|]; [|by left].
  destruct (orders db !! id) as [o|]; [|by left].
  destruct (references_ok _ _); [|by left].
  destruct (stock_updates _ _) as [ps|] eqn:Hps; [|by left].
  right. exists o, u, ps. apply has_role_true in Hrole. by repeat split.
Qed.

Lemma DELETE_cases db env id :
  (DELETE db env id).1 = db ∨
  ∃ o ps, session env = Some "ADMIN" ∧
          orders db !! id = Some o ∧ o_status o = PENDING ∧
          stock_updates (products db) (increments (o_items o)) = Some ps ∧
          DELETE db env id
          = (with_tables db ps (delete id (orders db)),
             json (BMessage "Order deleted successfully") 200).
Proof.
  unfold DELETE. destruct (session env) as [role|]; [|by left].
  destruct (String.eqb_spec role "ADMIN") as [->|]; simpl; [|by left].
  destruct (orders db !! id) as [o|]; [|by left].
  case_bool_decide as Hst; simpl; [|by left].
  destruct (stock_updates _ _) as [ps|] eqn:Hps; [|by left].
  right. exists o, ps. by repeat split.
Qed.

Lemma product_PUT_cases db env id b :
  (product_PUT db env id b).1 = db ∨
  ∃ p st, authorised ["ADMIN"; "MANAGER"] env ∧
          updateProductSchema b = Some st ∧ products db !! id = Some p ∧
          product_PUT db env id b
          = (with_tables db
               (<[id := apply_product_update p b st]> (products db))
               (orders db),
             json (BProduct "Product updated successfully"
                     (apply_product_update p b st)) 200).
Proof.
  unfold product_PUT, authorised. destruct (session env) as [role|]; [|by left].
  destruct (String.eqb_spec role "ADMIN") as [->|];
    [|destruct (String.eqb_spec role "MANAGER") as [->|]]; simpl;
    [| |by left].
  all: destruct (updateProductSchema b) as [st|]; [|by left].
  all: destruct (products db !! id) as [p|]; [|by left].
  all: match goal with |- context [if ?c then _ else _] => destruct c end;
    [by left|].
  all: destruct (references_ok _ _); simpl; [|by left].
  all: right; exists p, st; repeat split; set_solver.
Qed.

Lemma product_DELETE_cases db env id :
  (product_DELETE db env id).1 = db ∨
  ∃ p, session env = Some "ADMIN" ∧ products db !! id = Some p ∧
       orderItems db id = [] ∧
       product_DELETE db env id
       = (with_tables db (delete id (products db)) (orders db),
          json (BMessage "Product deleted successfully") 200).
Proof.
  unfold product_DELETE. destruct (session env) as [role|]; [|by left].
  destruct (String.eqb_spec role "ADMIN") as [->|]; simpl; [|by left].
  destruct (products db !! id) as [p|]; [|by left].
  destruct (orderItems db id) as [|it its] eqn:Hitems; simpl; [|by left].
  right. exists p. by repeat split.
Qed.

(** ** Amounts of a created order *)

Lemma sum_line_totals_create items :
  sum_line_totals (create_item <$> items) = calc_subtotal items.
Proof.
  unfold sum_line_totals, calc_subtotal. generalize 0%float.
  induction items as [|item rest IH]; intros acc; simpl; [done|].
  by rewrite IH.
Qed.

Lemma new_order_totals env b : totals_hold (new_order env b).
Proof. split; simpl; [done|]. by rewrite sum_line_totals_create. Qed.



Lemma stored_order_line_of db env b o :
  stored_order db (new_order env b) = Some o →
  Forall2 line_of (cb_items b) (o_items o).
Proof.
  intros Hlines%stored_order_lines. simpl in Hlines.
  apply Forall2_fmap_l in Hlines.
  eapply Forall2_impl; [exact Hlines|].
  intros item line (Hid & Hq & Hp & _)%stored_item_Some. by repeat split.
Qed.


Lemma apply_update_totals o u t : totals_hold o → totals_hold (apply_update o u t).
Proof. done. Qed.

(** ** Effect of the handlers on the order table *)

Lemma product_PUT_orders db env id b :
  orders (product_PUT db env id b).1 = orders db.
Proof.
  destruct (product_PUT_cases db env id b) as [->|(p & st & _ & _ & _ & ->)];
    done.
Qed.


Lemma run_app db reqs1 reqs2 : run db (reqs1 ++ reqs2) = run (run db reqs1) reqs2.
Proof. apply fold_left_app. Qed.





(** ** PUT /api/orders/[id] *)

Lemma parse_OrderStatus_name s : parse_OrderStatus (OrderStatus_name s) = Some s.
Proof. by destruct s. Qed.

Lemma OrderUpdateSchema_status_body s :
  OrderUpdateSchema (status_body (OrderStatus_name s))
  = Some (mkOrderUpdate (Some s) None None None None).
Proof. by destruct s. Qed.

Lemma stockUpdates_cancel o u :
  u_status u = Some CANCELLED → o_status o ≠ CANCELLED →
  stockUpdates o u = increments (o_items o).
Proof.
  intros Hu Ho. unfold stockUpdates.
  by rewrite bool_decide_eq_true_2, bool_decide_eq_false_2.
Qed.

Lemma stockUpdates_cancelled o u : o_status o = CANCELLED → stockUpdates o u = [].
Proof.
  intros Ho. unfold stockUpdates.
  rewrite (bool_decide_eq_true_2 (o_status o = CANCELLED)) by done.
  by rewrite andb_false_r.
Qed.

Lemma stockUpdates_other o u : u_status u ≠ Some CANCELLED → stockUpdates o u = [].
Proof. intros Hu. unfold stockUpdates. by rewrite bool_decide_eq_false_2. Qed.

Lemma stockUpdates_exist db o u :
  (u_status u = Some CANCELLED → products_exist db (line_products o)) →
  products_exist db (stockUpdates o u).*1.
Proof.
  intros Hex. destruct (decide (u_status u = Some CANCELLED)) as [Hu|Hu].
  - unfold stockUpdates. destruct (_ && _); [|constructor].
    rewrite increments_keys. by apply Hex.
  - rewrite stockUpdates_other by done. constructor.
Qed.

(** An authorised, well-formed update of an existing order goes through
    once the products whose stock it restores exist. *)
Lemma PUT_accepts db env id b u o :
  authorised ["ADMIN"; "MANAGER"] env →
  OrderUpdateSchema b = Some u →
  orders db !! id = Some o →
  references_ok (addresses db) (u_shippingAddressId u) = true →
  products_exist db (stockUpdates o u).*1 →
  ∃ ps, stock_updates (products db) (stockUpdates o u) = Some ps ∧
        PUT db env id b
        = (with_tables db ps
             (<[id := apply_update o u (now env)]> (orders db)),
           json (BOrder (apply_update o u (now env))) 200).
Proof.
  intros Hauth Hu Ho Haddr Hex. unfold PUT, authorised in *.
  destruct (session env) as [role|]; [|done].
  apply has_role_true in Hauth. rewrite Hauth, Hu, Ho, Haddr. simpl.
  destruct (products_exist_updates db (stockUpdates o u)) as [ps Hps];
    [done|].
  exists ps. by rewrite Hps.
Qed.

Lemma PUT_orders_other db env id b id' :
  id' ≠ id → orders (PUT db env id b).1 !! id' = orders db !! id'.
Proof.
  intros Hne.
  destruct (PUT_cases db env id b) as [->|(o & u & ps & _ & _ & _ & _ & ->)];
    [done|].
  simpl. by rewrite lookup_insert_ne.
Qed.

Lemma PUT_orders_same db env id b :
  orders (PUT db env id b).1 !! id = orders db !! id ∨
  ∃ o u, OrderUpdateSchema b = Some u ∧ orders db !! id = Some o ∧
         orders (PUT db env id b).1 !! id = Some (apply_update o u (now env)).
Proof.
  destruct (PUT_cases db env id b) as [->|(o & u & ps & _ & Hu & Ho & _ & ->)];
    [by left|].
  right. exists o, u. simpl. by rewrite lookup_insert_eq.
Qed.

Lemma OrderUpdateSchema_status name s :
  parse_OrderStatus name = Some s →
  OrderUpdateSchema (status_body name)
  = Some (mkOrderUpdate (Some s) None None None None).
Proof. intros Hs. unfold OrderUpdateSchema. simpl. by rewrite Hs. Qed.

(** A request that only sets a status other than CANCELLED touches the
    addressed order and nothing else. *)
Lemma PUT_status db env id o name s :
  parse_OrderStatus name = Some s → s ≠ CANCELLED →
  authorised ["ADMIN"; "MANAGER"] env → orders db !! id = Some o →
  PUT db env id (status_body name)
  = (with_tables db (products db)
       (<[id := apply_update o (mkOrderUpdate (Some s) None None None None)
                  (now env)]> (orders db)),
     json (BOrder (apply_update o (mkOrderUpdate (Some s) None None None None)
                     (now env))) 200).
Proof.
  intros Hname Hs Hauth Ho.
  destruct (PUT_accepts db env id _ _ o Hauth
              (OrderUpdateSchema_status _ _ Hname) Ho) as (ps & Hps & ->);
    [done| |].
  { rewrite stockUpdates_other by (simpl; congruence). constructor. }
  rewrite stockUpdates_other in Hps by (simpl; congruence).
  by injection Hps as <-.
Qed.

Lemma serve_cons db req rest :
  serve db (req :: rest)
  = ((serve (handle db req).1 rest).1,
     (handle db req).2 :: (serve (handle db req).1 rest).2).
Proof.
  simpl. destruct (handle db req) as [db1 r]. simpl.
  by destruct (serve db1 rest).
Qed.

(** ** Restoring stock *)

Lemma restocked_lookup ps ups id :
  restocked ps ups !! id
  = (λ p, with_stock p (p_stock p + total_increment id ups)) <$> ps !! id.
Proof.
  unfold restocked. rewrite map_lookup_imap. by destruct (ps !! id).
Qed.

Lemma stock_updates_restocked ps ups ps' :
  stock_updates ps ups = Some ps' → ps' = restocked ps ups.
Proof.
  intros Hrun. apply map_eq. intros id.
  by rewrite restocked_lookup, (stock_updates_lookup _ _ _ Hrun).
Qed.

Lemma total_increment_line (items : list OrderItem) line :
  NoDup (oi_productId <$> items) → line ∈ items →
  total_increment (oi_productId line) (increments items) = oi_quantity line.
Proof.
  intros Hnd Hin. apply total_increment_NoDup.
  - by rewrite increments_keys.
  - unfold increments. apply list_elem_of_fmap. by exists line.
Qed.

Lemma total_increment_no_line (items : list OrderItem) id :
  id ∉ oi_productId <$> items → total_increment id (increments items) = 0.
Proof. intros Hid. apply total_increment_not_in. by rewrite increments_keys. Qed.

(** A product outside the order keeps its row; with lines for distinct
    products, the product of a line gains that line's quantity. *)
Lemma restocked_outside ps (items : list OrderItem) pid :
  pid ∉ oi_productId <$> items →
  restocked ps (increments items) !! pid = ps !! pid.
Proof.
  intros Hpid. rewrite restocked_lookup, total_increment_no_line by done.
  destruct (ps !! pid) as [p|]; simpl; [|done].
  by rewrite Z.add_0_r, with_stock_same.
Qed.

Lemma restocked_line ps (items : list OrderItem) line p :
  NoDup (oi_productId <$> items) → line ∈ items →
  ps !! oi_productId line = Some p →
  restocked ps (increments items) !! oi_productId line
  = Some (with_stock p (p_stock p + oi_quantity line)).
Proof.
  intros Hnd Hline Hp. rewrite restocked_lookup, Hp. simpl.
  by rewrite total_increment_line.
Qed.

(** ** Deleting orders and products *)

Lemma orderItems_elem db id line :
  line ∈ orderItems db id ↔
  ∃ oid o, orders db !! oid = Some o ∧ line ∈ o_items o ∧
           oi_productId line = id.
Proof.
  unfold orderItems. rewrite list_elem_of_filter, list_elem_of_bind. split.
  - intros (Hid & o & Hline & Ho).
    apply list_elem_of_fmap in Ho as ([oid o'] & -> & Ho).
    apply elem_of_map_to_list in Ho. by exists oid, o'.
  - intros (oid & o & Ho & Hline & Hid). split; [done|].
    exists o. split; [done|]. apply list_elem_of_fmap. exists (oid, o).
    split; [done|]. by apply elem_of_map_to_list.
Qed.

Lemma orderItems_referenced db id : orderItems db id ≠ [] ↔ referenced db id.
Proof.
  unfold referenced. split.
  - destruct (orderItems db id) as [|line rest] eqn:Hitems; [done|].
    intros _. assert (line ∈ orderItems db id) as Hin by (rewrite Hitems; left).
    apply orderItems_elem in Hin as (oid & o & ?). by exists oid, o, line.
  - intros (oid & o & line & Hin) Hnil.
    assert (line ∈ orderItems db id) as Hline
      by (apply orderItems_elem; by exists oid, o).
    rewrite Hnil in Hline. by apply elem_of_nil in Hline.
Qed.

(** An administrator's deletion of a PENDING order whose products exist
    goes through. *)
Lemma DELETE_pending db env id o :
  admin env → orders db !! id = Some o → o_status o = PENDING →
  products_exist db (line_products o) →
  DELETE db env id
  = (with_tables db (restocked (products db) (increments (o_items o)))
       (delete id (orders db)),
     json (BMessage "Order deleted successfully") 200).
Proof.
  intros Hadmin Ho Hst Hex. unfold DELETE, admin in *.
  rewrite Hadmin, Ho. simpl. rewrite bool_decide_eq_true_2 by done. simpl.
  destruct (products_exist_updates db (increments (o_items o))) as [ps Hps].
  { by rewrite increments_keys. }
  rewrite Hps. by apply stock_updates_restocked in Hps as ->.
Qed.

Lemma DELETE_not_pending db env id o :
  admin env → orders db !! id = Some o → o_status o ≠ PENDING →
  DELETE db env id
  = (db, json (BError "Only pending orders can be deleted") 400).
Proof.
  intros Hadmin Ho Hst. unfold DELETE, admin in *.
  rewrite Hadmin, Ho. simpl. by rewrite bool_decide_eq_false_2.
Qed.

Lemma DELETE_ok_pending db env id :
  res_status (DELETE db env id).2 = 200 →
  ∃ o, orders db !! id = Some o ∧ o_status o = PENDING.
Proof.
  unfold DELETE. destruct (session env) as [role|]; [|done].
  destruct (String.eqb role "ADMIN"); simpl; [|done].
  destruct (orders db !! id) as [o|]; [|done].
  case_bool_decide as Hst; simpl; [|done].
  intros _. by exists o.
Qed.

Lemma product_DELETE_rejects db env id :
  referenced db id →
  (product_DELETE db env id).1 = db ∧
  res_status (product_DELETE db env id).2 ≠ 200.
Proof.
  intros Href%orderItems_referenced. unfold product_DELETE.
  destruct (session env) as [role|]; [|done].
  destruct (String.eqb role "ADMIN"); simpl; [|done].
  destruct (products db !! id) as [p|]; [|done].
  by destruct (orderItems db id).
Qed.

Lemma product_DELETE_referenced db env id p :
  admin env → products db !! id = Some p → referenced db id →
  product_DELETE db env id
  = (db, json (BMessage "Cannot delete product with existing orders. Consider marking it as discontinued instead.") 400).
Proof.
  intros Hadmin Hp Href%orderItems_referenced. unfold product_DELETE, admin in *.
  rewrite Hadmin, Hp. simpl. by destruct (orderItems db id).
Qed.

Lemma product_DELETE_unreferenced db env id p :
  admin env → products db !! id = Some p → ¬ referenced db id →
  product_DELETE db env id
  = (with_tables db (delete id (products db)) (orders db),
     json (BMessage "Product deleted successfully") 200).
Proof.
  intros Hadmin Hp Href. unfold product_DELETE, admin in *.
  rewrite Hadmin, Hp. simpl.
  destruct (orderItems db id) as [|line rest] eqn:Hitems; [done|].
  destruct Href. apply orderItems_referenced. by rewrite Hitems.
Qed.

(** ** Stock never goes below zero when requests are served in turn *)

Lemma total_increment_nonneg id ups :
  Forall (λ u, 0 ≤ u.2) ups → 0 ≤ total_increment id ups.
Proof.
  induction 1 as [|[k d] rest Hd _ IH]; simpl in *; [done|].
  destruct (decide (k = id)); lia.
Qed.

Lemma increments_nonneg items :
  Forall (λ line, 1 ≤ oi_quantity line) items →
  Forall (λ u : string * Z, 0 ≤ u.2) (increments items).
Proof.
  intros Hq. unfold increments. apply Forall_fmap.
  eapply Forall_impl; [exact Hq|]. simpl. intros; lia.
Qed.

(** The decrements of a checked request take from a product no more than
    it has. *)
Lemma decrements_in_stock db items id p :
  NoDup (ib_productId <$> items) → Forall (in_stock db) items →
  products db !! id = Some p →
  0 ≤ p_stock p → 0 ≤ p_stock p + total_increment id (decrements items).
Proof.
  intros Hnd Hstock Hp Hp0.
  destruct (decide (id ∈ ib_productId <$> items)) as [Hin|Hout].
  - apply list_elem_of_fmap in Hin as (item & -> & Hitem).
    rewrite (total_increment_NoDup _ (- ib_quantity item)).
    + eapply Forall_forall in Hstock; [|exact Hitem].
      specialize (Hstock p Hp). lia.
    + by rewrite decrements_keys.
    + unfold decrements. apply list_elem_of_fmap. by exists item.
  - rewrite total_increment_not_in by by rewrite decrements_keys. lia.
Qed.

Lemma stock_updates_nonneg ps ups ps' :
  stock_updates ps ups = Some ps' →
  (∀ id p, ps !! id = Some p → 0 ≤ p_stock p + total_increment id ups) →
  map_Forall (λ _ p, 0 ≤ p_stock p) ps'.
Proof.
  intros Hrun Hall id p'. rewrite (stock_updates_lookup _ _ _ Hrun).
  destruct (ps !! id) as [p|] eqn:Hp; simpl; [|done].
  intros [= <-]. simpl. by apply Hall.
Qed.

Lemma OrderCreateSchema_quantities b :
  OrderCreateSchema b = true →
  Forall (λ item, 1 ≤ ib_quantity item) (cb_items b).
Proof.
  unfold OrderCreateSchema. rewrite !andb_true_iff.
  intros [[_ Hitems] _]. apply Forall_forall. intros item Hin.
  rewrite forallb_forall in Hitems.
  specialize (Hitems item (proj1 (list_elem_of_In _ _) Hin)).
  unfold ItemSchema in Hitems. rewrite !andb_true_iff in Hitems.
  destruct Hitems as [[_ Hq] _]. by apply Z.leb_le.
Qed.

Lemma updateProductSchema_stock b st s :
  updateProductSchema b = Some st → pb_stock b = Some s → 0 ≤ s.
Proof.
  unfold updateProductSchema. intros Hschema Hs. rewrite Hs in Hschema.
  destruct (_ && _) eqn:Hchecks in Hschema; [|done].
  rewrite !andb_true_iff in Hchecks. simpl in Hchecks.
  destruct Hchecks as [[[_ Hstock] _] _]. by apply Z.leb_le.
Qed.

Lemma handle_stocks db req :
  stocks_nonneg db → quantities_positive db →
  stocks_nonneg (handle db req).1 ∧ quantities_positive (handle db req).1.
Proof.
  unfold stocks_nonneg, quantities_positive. intros Hstock Hqty.
  destruct req as [env b|env id b|env id|env id b|env id]; simpl.
  - destruct (POST_cases db env b)
      as [->|(o & ps & Hchecks & _ & Hps & Ho & ->)]; [done|].
    apply POST_checks_None in Hchecks as ((_ & Hschema & _) & Hnd & _ & Hin).
    simpl. split.
    + eapply stock_updates_nonneg; [exact Hps|]. intros id p Hp.
      eapply decrements_in_stock; eauto.
    + apply map_Forall_insert_2; [|done].
      apply stored_order_line_of in Ho. revert Ho. generalize (o_items o).
      intros lines Ho.
      apply OrderCreateSchema_quantities in Hschema. clear -Ho Hschema.
      induction Ho as [|item line items lines (_ & Hq & _) _ IH];
        [constructor|].
      apply Forall_cons in Hschema as [Hitem Hitems].
      constructor; [by rewrite Hq | by apply IH].
  - destruct (PUT_cases db env id b)
      as [->|(o & u & ps & _ & _ & Ho & Hps & ->)]; [done|].
    simpl. split.
    + eapply stock_updates_nonneg; [exact Hps|]. intros pid p Hp.
      assert (0 ≤ total_increment pid (stockUpdates o u)); [|by specialize (Hstock pid p Hp); simpl in *; lia].
      apply total_increment_nonneg. unfold stockUpdates.
      destruct (_ && _); [|constructor].
      apply increments_nonneg. by apply (Hqty id).
    + apply map_Forall_insert_2; [|done]. simpl. by apply (Hqty id).
  - destruct (DELETE_cases db env id)
      as [->|(o & ps & _ & Ho & _ & Hps & ->)]; [done|].
    simpl. split.
    + eapply stock_updates_nonneg; [exact Hps|]. intros pid p Hp.
      assert (0 ≤ total_increment pid (increments (o_items o))); [|by specialize (Hstock pid p Hp); simpl in *; lia].
      apply total_increment_nonneg, increments_nonneg. by apply (Hqty id).
    + by apply map_Forall_delete.
  - destruct (product_PUT_cases db env id b)
      as [->|(p & st & _ & Hschema & Hp & ->)]; [done|].
    simpl. split; [|done]. apply map_Forall_insert_2; [|done]. simpl.
    destruct (pb_stock b) as [s|] eqn:Hs; simpl.
    + by eapply updateProductSchema_stock.
    + by apply (Hstock id).
  - destruct (product_DELETE_cases db env id) as [->|(p & _ & _ & _ & ->)];
      [done|].
    simpl. split; [|done]. by apply map_Forall_delete.
Qed.


(** ** Order lines keep pointing at products *)

Lemma products_exist_dom db db' ids :
  dom (products db') = dom (products db) →
  products_exist db ids → products_exist db' ids.
Proof.
  intros Hdom Hex. unfold products_exist in *.
  eapply Forall_impl; [exact Hex|]. intros id. simpl.
  by rewrite <- !elem_of_dom, Hdom.
Qed.

Lemma referential_integrity_dom db db' :
  dom (products db') = dom (products db) → orders db' = orders db →
  referential_integrity db → referential_integrity db'.
Proof.
  unfold referential_integrity. intros Hdom -> Hall oid o Ho.
  eapply products_exist_dom; [exact Hdom|]. by apply (Hall oid).
Qed.

Lemma handle_integrity db req :
  referential_integrity db → referential_integrity (handle db req).1.
Proof.
  intros Hall. destruct req as [env b|env id b|env id|env id b|env id]; simpl.
  - destruct (POST_cases db env b)
      as [->|(o & ps & Hchecks & _ & Hps & Ho & ->)]; [done|].
    apply POST_checks_None in Hchecks as (_ & _ & Hex & _).
    apply stock_updates_dom in Hps. unfold referential_integrity. simpl.
    apply map_Forall_insert_2.
    + eapply (products_exist_dom db); [done|].
      rewrite (stored_order_line_products _ _ _ Ho).
      unfold line_products. simpl. rewrite <- list_fmap_compose. exact Hex.
    + intros oid o' Ho'. eapply (products_exist_dom db); [done|].
      by apply (Hall oid).
  - destruct (PUT_cases db env id b)
      as [->|(o & u & ps & _ & _ & Ho & Hps & ->)]; [done|].
    apply stock_updates_dom in Hps. unfold referential_integrity. simpl.
    apply map_Forall_insert_2.
    + eapply (products_exist_dom db); [done|]. exact (Hall id o Ho).
    + intros oid o' Ho'. eapply (products_exist_dom db); [done|].
      by apply (Hall oid).
  - destruct (DELETE_cases db env id)
      as [->|(o & ps & _ & Ho & _ & Hps & ->)]; [done|].
    apply stock_updates_dom in Hps. unfold referential_integrity. simpl.
    apply map_Forall_delete. intros oid o' Ho'.
    eapply (products_exist_dom db); [done|]. by apply (Hall oid).
  - destruct (product_PUT_cases db env id b)
      as [->|(p & st & _ & _ & Hp & ->)]; [done|].
    apply (referential_integrity_dom db); [|done..]. simpl.
    rewrite dom_insert_L. apply elem_of_dom_2 in Hp.
    apply subseteq_union_1_L. by apply singleton_subseteq_l.
  - destruct (product_DELETE_cases db env id)
      as [->|(p & _ & _ & Hitems & ->)]; [done|].
    unfold referential_integrity. simpl. intros oid o Ho.
    specialize (Hall oid o Ho). apply Forall_forall. intros pid Hpid. simpl.
    rewrite lookup_delete_ne; [by eapply Forall_forall in Hall|].
    intros <-. apply list_elem_of_fmap in Hpid as (line & Hid & Hline).
    assert (line ∈ orderItems db id) as Hin
      by (apply orderItems_elem; by exists oid, o).
    rewrite Hitems in Hin. by apply elem_of_nil in Hin.
Qed.

(** From a database that has it, every database reached by serving
    requests in turn has referential integrity: the products of the lines
    of a stored order exist. *)
Lemma run_integrity reqs : ∀ db,
  referential_integrity db → referential_integrity (run db reqs).
Proof.
  induction reqs as [|req reqs IH]; intros db Hall; simpl; [done|].
  by apply IH, handle_integrity.
Qed.

(** Serving requests in turn is one behaviour of the concurrent system. *)
Lemma run_steps reqs : ∀ db fl,
  rtc step (mkSystem db fl) (mkSystem (run db reqs) fl).
Proof.
  induction reqs as [|req reqs IH]; intros db fl; simpl; [apply rtc_refl|].
  eapply rtc_l; [apply step_request | apply IH].
Qed.

(** * The claims *)

(** ** C1 *)

(** C1 (where the handler misses it): the request of an administrator for
    customer "c1" with the lines [(X,6,$10),(X,1,$10)], where the widget X
    exists with a stock of 5.  Its first line asks for more than the stock
    of its product, yet the answer is 404 "One or more products not found"
    and not the insufficient-stock error: the handler compares the number
    of rows found with the number of lines, and a product named on two
    lines is found once. *)
Lemma POST_short_line_twice_not_found :
  (∃ item p, item ∈ cb_items body_twice ∧
     products sample_db !! ib_productId item = Some p ∧
     p_stock p < ib_quantity item) ∧
  accepted sample_db sample_env body_twice ∧
  POST sample_db sample_env body_twice
    = (sample_db, json (BError "One or more products not found") 404) ∧
  ∀ name, (POST sample_db sample_env body_twice).2
          ≠ json (BError ("Insufficient stock for product: " +:+ name)) 400.
Proof.
  split; [|split; [|split]].
  - exists (mkItemBody "X" 6 10), (sample_product "Widget" 10 5).
    split; [left|]. split; [by vm_compute | by vm_compute].
  - compute_done.
  - by vm_compute.
  - intros name. by vm_compute.
Qed.

(** ** C2 *)

(** C2 (as stated, refuted): with five widgets in stock and every stock
    level non-negative, two order-creation requests for three widgets each
    that both pass the stock check before either runs its transaction
    leave the widget with a stock of -1. *)
Lemma concurrent_orders_oversell :
  stocks_nonneg sample_db ∧ quantities_positive sample_db ∧
  ∃ sys, rtc step (mkSystem sample_db []) sys ∧
         p_stock <$> products (sys_db sys) !! "X" = Some (-1) ∧
         ¬ stocks_nonneg (sys_db sys).
Proof.
  split; [compute_done|]. split; [compute_done|].
  exists (mkSystem
            (POST_transaction (POST_transaction sample_db sample_env body_three).1
               sample_env2 body_three).1 []).
  split; [|split].
  - eapply rtc_l; [apply (step_checks _ _ sample_env body_three); by vm_compute|].
    eapply rtc_l; [apply (step_checks _ _ sample_env2 body_three); by vm_compute|].
    eapply rtc_l;
      [apply (step_transaction _ [(sample_env2, body_three)] sample_env
                body_three [])|].
    eapply rtc_l; [apply (step_transaction _ [] sample_env2 body_three [])|].
    apply rtc_refl.
  - by vm_compute.
  - intros Hnonneg.
    specialize (Hnonneg "X" (sample_product "Widget" 10 (-1))).
    simpl in Hnonneg. assert (0 ≤ -1) as Hneg; [|lia].
    apply Hnonneg. by vm_compute.
Qed.

(** C2 (amended): when the requests are served one after the other (each
    handler running from its checks to the end of its transaction before
    the next request starts), stock never goes below zero: starting from a
    database whose stock levels are non-negative and whose order lines have
    quantities of at least one, every sequence of order creations, order
    updates (cancellations included), order deletions, product updates and
    product deletions leads to a database whose stock levels are
    non-negative (and whose order lines still have quantities of at least
    one). *)
Theorem stock_never_negative db reqs :
  stocks_nonneg db → quantities_positive db →
  stocks_nonneg (run db reqs) ∧ quantities_positive (run db reqs).
Proof.
  revert db. induction reqs as [|req reqs IH]; intros db Hstock Hqty.
  - by split.
  - simpl. destruct (handle_stocks db req Hstock Hqty) as [Hstock' Hqty'].
    destruct req as [env b|env id b|env id|env id b|env id];
      by apply IH.
Qed.

Lemma stock_never_negative_witness :
  stocks_nonneg sample_db ∧ quantities_positive sample_db ∧
  stocks_nonneg
    (run sample_db [CreateOrder sample_env body_three;
                    CreateOrder sample_env2 body_three;
                    UpdateOrder sample_env "o1" (status_body "CANCELLED")]) ∧
  p_stock <$>
    products (run sample_db [CreateOrder sample_env body_three;
                             CreateOrder sample_env2 body_three]) !! "X"
  = Some 2.
Proof.
  assert (stocks_nonneg sample_db) as Hstock by compute_done.
  assert (quantities_positive sample_db) as Hqty by compute_done.
  split; [exact Hstock|]. split; [exact Hqty|]. split.
  - apply (stock_never_negative sample_db _ Hstock Hqty).
  - by vm_compute.
Defined.

(** ** C3 *)

(** C3 (as stated, refuted): on the PENDING order "o1" the request that
    sets the status SHIPPED is answered 200 and the stored status becomes
    SHIPPED; no invalid-transition error is raised. *)
Lemma PUT_pending_to_shipped :
  o_status <$> orders sample_db1 !! "o1" = Some PENDING ∧
  res_status (PUT sample_db1 sample_env "o1" (status_body "SHIPPED")).2 = 200 ∧
  o_status <$> orders (PUT sample_db1 sample_env "o1"
                         (status_body "SHIPPED")).1 !! "o1"
    = Some SHIPPED.
Proof. repeat split; by vm_compute. Qed.

(** C3 (amended): the order-status update checks no transition.  For an
    authorised user and an existing order, whatever its current status,
    every request that validates, carries one of the six statuses and
    either no shippingAddressId or one that names an existing address is
    answered 200 and stores the requested status (when the request cancels,
    provided the products of the order's lines exist); in particular
    PENDING -> SHIPPED succeeds, and the single updates to CONFIRMED,
    PROCESSING, SHIPPED and DELIVERED, served in this order, each succeed
    and leave the order DELIVERED. *)
Theorem PUT_any_status db env id o :
  authorised ["ADMIN"; "MANAGER"] env →
  orders db !! id = Some o →
  (∀ b u s,
     OrderUpdateSchema b = Some u → u_status u = Some s →
     references_ok (addresses db) (u_shippingAddressId u) = true →
     (s = CANCELLED → products_exist db (line_products o)) →
     ∃ db' o', PUT db env id b = (db', json (BOrder o') 200) ∧
               orders db' !! id = Some o' ∧ o_status o' = s) ∧
  (∀ s, ∃ u, OrderUpdateSchema (status_body (OrderStatus_name s)) = Some u ∧
             u_status u = Some s) ∧
  (∃ db' o', serve db (lifecycle env id)
             = (db', [json (BOrder (apply_update o
                        (mkOrderUpdate (Some CONFIRMED) None None None None)
                        (now env))) 200;
                      json (BOrder (apply_update o
                        (mkOrderUpdate (Some PROCESSING) None None None None)
                        (now env))) 200;
                      json (BOrder (apply_update o
                        (mkOrderUpdate (Some SHIPPED) None None None None)
                        (now env))) 200;
                      json (BOrder o') 200]) ∧
             orders db' !! id = Some o' ∧ o_status o' = DELIVERED).
Proof.
  intros Hauth Ho. split; [|split].
  - intros b u s Hu Hs Haddr Hex.
    destruct (PUT_accepts db env id b u o Hauth Hu Ho Haddr) as (ps & _ & ->).
    { apply stockUpdates_exist. intros Hc. apply Hex. congruence. }
    eexists _, _. split; [done|]. simpl. rewrite lookup_insert_eq.
    split; [done|]. simpl. by rewrite Hs.
  - intros s. eexists. by rewrite OrderUpdateSchema_status_body.
  - unfold lifecycle. rewrite !serve_cons. cbn [handle fst snd].
    rewrite (PUT_status db env id o "CONFIRMED" CONFIRMED) by done.
    cbn [fst snd].
    erewrite (PUT_status _ env id _ "PROCESSING" PROCESSING);
      [|done..|cbn [orders]; by rewrite lookup_insert_eq].
    cbn [fst snd].
    erewrite (PUT_status _ env id _ "SHIPPED" SHIPPED);
      [|done..|cbn [orders]; by rewrite lookup_insert_eq].
    cbn [fst snd].
    erewrite (PUT_status _ env id _ "DELIVERED" DELIVERED);
      [|done..|cbn [orders]; by rewrite lookup_insert_eq].
    cbn [fst snd serve].
    eexists _, _. split; [done|]. cbn [orders]. by rewrite lookup_insert_eq.
Qed.

Lemma PUT_any_status_witness :
  (∃ db' o', PUT sample_db1 sample_env "o1" (status_body "SHIPPED")
             = (db', json (BOrder o') 200) ∧
             orders db' !! "o1" = Some o' ∧ o_status o' = SHIPPED) ∧
  (∃ db' o', PUT sample_db1 sample_env "o1" shipped_to_a1
             = (db', json (BOrder o') 200) ∧
             orders db' !! "o1" = Some o' ∧ o_status o' = SHIPPED ∧
             o_shippingAddressId o' = Some "a1") ∧
  PUT sample_db1 sample_env "o1" shipped_to_nowhere
    = (sample_db1, json (BError "Failed to update order") 500) ∧
  (∃ db' o', (serve sample_db1 (lifecycle sample_env "o1")).1 = db' ∧
             orders db' !! "o1" = Some o' ∧ o_status o' = DELIVERED).
Proof.
  assert (authorised ["ADMIN"; "MANAGER"] sample_env) as Hauth by compute_done.
  assert (orders sample_db1 !! "o1"
          = Some (new_order sample_env body_two_lines)) as Ho by by vm_compute.
  destruct (PUT_any_status sample_db1 sample_env "o1" _ Hauth Ho)
    as (Hany & _ & (db' & o' & Hserve & Ho' & Hst)).
  split; [|split; [|split]].
  - apply (Hany (status_body "SHIPPED")
             (mkOrderUpdate (Some SHIPPED) None None None None) SHIPPED);
      [reflexivity | reflexivity | reflexivity | discriminate].
  - destruct (Hany shipped_to_a1
                (mkOrderUpdate (Some SHIPPED) None None None (Some "a1"))
                SHIPPED)
      as (db1 & o1 & Hput & Ho1 & Hst1);
      [reflexivity | reflexivity | by vm_compute | discriminate |].
    exists db1, o1. repeat (split; [assumption|]).
    assert (Some (o_shippingAddressId o1) = Some (Some "a1")) as [= ->];
      [|done].
    change (Some (o_shippingAddressId o1))
      with (o_shippingAddressId <$> Some o1).
    rewrite <- Ho1.
    replace db1 with (PUT sample_db1 sample_env "o1" shipped_to_a1).1
      by by rewrite Hput.
    by vm_compute.
  - by vm_compute.
  - exists db', o'. rewrite Hserve. split; [reflexivity|].
    split; assumption.
Defined.

(** ** C4 *)




(** ** C5 *)

(** C5 (as stated, refuted): on the order "o1", already CANCELLED, the
    request that sets the status CANCELLED again is answered 200 with the
    order: it is accepted, not rejected (it restores no stock). *)
Lemma PUT_cancel_again_accepted :
  o_status <$> orders sample_db2 !! "o1" = Some CANCELLED ∧
  res_status (PUT sample_db2 sample_env "o1" (status_body "CANCELLED")).2
    = 200 ∧
  o_status <$> orders (PUT sample_db2 sample_env "o1"
                         (status_body "CANCELLED")).1 !! "o1"
    = Some CANCELLED ∧
  products (PUT sample_db2 sample_env "o1" (status_body "CANCELLED")).1
    = products sample_db2.
Proof. repeat split; by vm_compute. Qed.

(** C5 (amended): an authorised, valid request that sets the status
    CANCELLED (and carries no shippingAddressId, or one that names an
    existing address) on an order that is not CANCELLED is answered 200
    and, in the same step, stores the status CANCELLED and adds to the
    stock of every product the quantities of the order's lines for that
    product (exactly the line's quantity when the lines name distinct
    products; nothing for a product outside the order), provided the
    products of the lines exist.  The same request on an order that is
    already CANCELLED is accepted too (answer 200), and then no stock is
    restored: the product table is left as it was. *)
Theorem PUT_cancel db env id b u o :
  authorised ["ADMIN"; "MANAGER"] env →
  OrderUpdateSchema b = Some u → u_status u = Some CANCELLED →
  references_ok (addresses db) (u_shippingAddressId u) = true →
  orders db !! id = Some o →
  (o_status o ≠ CANCELLED → products_exist db (line_products o) →
   ∃ db' o',
     PUT db env id b = (db', json (BOrder o') 200) ∧
     orders db' !! id = Some o' ∧ o_status o' = CANCELLED ∧
     products db' = restocked (products db) (increments (o_items o)) ∧
     (∀ pid, pid ∉ line_products o → products db' !! pid = products db !! pid) ∧
     (NoDup (line_products o) →
      ∀ line p, line ∈ o_items o → products db !! oi_productId line = Some p →
        products db' !! oi_productId line
        = Some (with_stock p (p_stock p + oi_quantity line)))) ∧
  (o_status o = CANCELLED →
   ∃ db' o',
     PUT db env id b = (db', json (BOrder o') 200) ∧
     orders db' !! id = Some o' ∧ o_status o' = CANCELLED ∧
     products db' = products db).
Proof.
  intros Hauth Hu Hs Haddr Ho. split.
  - intros Hst Hex.
    destruct (PUT_accepts db env id b u o Hauth Hu Ho Haddr)
      as (ps & Hps & ->); [by apply stockUpdates_exist|].
    rewrite stockUpdates_cancel in Hps by done.
    apply stock_updates_restocked in Hps as ->.
    eexists _, _. split; [done|]. simpl. rewrite lookup_insert_eq.
    split; [done|]. split; [simpl; by rewrite Hs|]. split; [done|]. split.
    + intros pid Hpid. by apply restocked_outside.
    + intros Hnd line p Hline Hp. by apply restocked_line.
  - intros Hst.
    destruct (PUT_accepts db env id b u o Hauth Hu Ho Haddr)
      as (ps & Hps & ->).
    { rewrite stockUpdates_cancelled by done. constructor. }
    rewrite stockUpdates_cancelled in Hps by done. injection Hps as <-.
    eexists _, _. split; [done|]. simpl. rewrite lookup_insert_eq.
    split; [done|]. split; [simpl; by rewrite Hs | done].
Qed.

Lemma PUT_cancel_witness :
  (∃ db' o',
     PUT sample_db1 sample_env "o1" (status_body "CANCELLED")
       = (db', json (BOrder o') 200) ∧
     o_status o' = CANCELLED ∧
     p_stock <$> products sample_db1 !! "X" = Some 3 ∧
     p_stock <$> products db' !! "X" = Some 5 ∧
     p_stock <$> products sample_db1 !! "Y" = Some 4 ∧
     p_stock <$> products db' !! "Y" = Some 5) ∧
  (∃ db' o',
     PUT sample_db2 sample_env "o1" (status_body "CANCELLED")
       = (db', json (BOrder o') 200) ∧
     products db' = products sample_db2).
Proof.
  assert (authorised ["ADMIN"; "MANAGER"] sample_env) as Hauth by compute_done.
  split.
  - destruct (PUT_cancel sample_db1 sample_env "o1" (status_body "CANCELLED")
                (mkOrderUpdate (Some CANCELLED) None None None None)
                (new_order sample_env body_two_lines) Hauth)
      as [Hcancel _];
      [reflexivity | reflexivity | reflexivity | by vm_compute |].
    destruct Hcancel as (db' & o' & Hput & _ & Hst & Hps & _);
      [discriminate | compute_done |].
    exists db', o'. split; [exact Hput|]. split; [exact Hst|].
    rewrite Hps. repeat split; by vm_compute.
  - destruct (PUT_cancel sample_db2 sample_env "o1" (status_body "CANCELLED")
                (mkOrderUpdate (Some CANCELLED) None None None None)
                (apply_update (new_order sample_env body_two_lines)
                   (mkOrderUpdate (Some CANCELLED) None None None None)
                   (now sample_env))
                Hauth)
      as [_ Hagain];
      [reflexivity | reflexivity | reflexivity | by vm_compute |].
    destruct Hagain as (db' & o' & Hput & _ & _ & Hps); [reflexivity|].
    exists db', o'. split; assumption.
Defined.

(** ** C6 *)

(** C6: DELETE /api/orders/[id] answers 200 only for an order that is
    PENDING.  For an administrator and an existing order: when the status
    is not PENDING the answer is 400 "Only pending orders can be deleted"
    and the database is unchanged; when it is PENDING (and the products of
    its lines exist) the order is removed with its lines and, in the same
    step, the stock of every product goes up by the quantities of the
    order's lines for it (exactly the line's quantity when the lines name
    distinct products), everything else being left as it was. *)
Theorem DELETE_only_pending db env id :
  (res_status (DELETE db env id).2 = 200 →
   ∃ o, orders db !! id = Some o ∧ o_status o = PENDING) ∧
  (∀ o, admin env → orders db !! id = Some o →
     (o_status o ≠ PENDING →
      DELETE db env id
      = (db, json (BError "Only pending orders can be deleted") 400)) ∧
     (o_status o = PENDING → products_exist db (line_products o) →
      ∃ db',
        DELETE db env id
          = (db', json (BMessage "Order deleted successfully") 200) ∧
        orders db' = delete id (orders db) ∧
        customers db' = customers db ∧
        products db' = restocked (products db) (increments (o_items o)) ∧
        (∀ pid, pid ∉ line_products o →
                products db' !! pid = products db !! pid) ∧
        (NoDup (line_products o) →
         ∀ line p, line ∈ o_items o →
           products db !! oi_productId line = Some p →
           products db' !! oi_productId line
           = Some (with_stock p (p_stock p + oi_quantity line))))).
Proof.
  split; [apply DELETE_ok_pending|].
  intros o Hadmin Ho. split; [by apply DELETE_not_pending|].
  intros Hst Hex. rewrite (DELETE_pending db env id o) by done.
  eexists. split; [done|]. simpl. repeat (split; [done|]). split.
  - intros pid Hpid. by apply restocked_outside.
  - intros Hnd line p Hline Hp. by apply restocked_line.
Qed.

Lemma DELETE_only_pending_witness :
  (DELETE sample_db3 sample_env "o1"
   = (sample_db3, json (BError "Only pending orders can be deleted") 400)) ∧
  (∃ db', DELETE sample_db1 sample_env "o1"
          = (db', json (BMessage "Order deleted successfully") 200) ∧
          orders db' !! "o1" = None ∧
          p_stock <$> products sample_db1 !! "X" = Some 3 ∧
          p_stock <$> products db' !! "X" = Some 5).
Proof.
  assert (admin sample_env) as Hadmin by reflexivity.
  split.
  - destruct (DELETE_only_pending sample_db3 sample_env "o1") as [_ Hdel].
    apply (Hdel (apply_update (new_order sample_env body_two_lines)
                   (mkOrderUpdate (Some PROCESSING) None None None None)
                   (now sample_env)) Hadmin);
      [by vm_compute | discriminate].
  - destruct (DELETE_only_pending sample_db1 sample_env "o1") as [_ Hdel].
    destruct (Hdel (new_order sample_env body_two_lines) Hadmin)
      as [_ Hpending]; [by vm_compute|].
    destruct Hpending as (db' & Hdelete & Horders & _ & Hps & _);
      [reflexivity | compute_done |].
    exists db'. split; [exact Hdelete|]. rewrite Horders, Hps.
    repeat split; by vm_compute.
Defined.

(** ** C7 *)




(** ** C8 *)

(** C8: DELETE /api/products/[id] never deletes a product that some order
    line references: the database (the product and all orders) is left as
    it was and the answer is not 200; for an administrator and an existing
    product the answer is the 400 "Cannot delete product with existing
    orders..." message.  A product that no order line references is deleted
    for an administrator, with answer 200, and nothing else changes. *)
Theorem product_DELETE_integrity db env id :
  (referenced db id →
   (product_DELETE db env id).1 = db ∧
   res_status (product_DELETE db env id).2 ≠ 200 ∧
   (∀ p, admin env → products db !! id = Some p →
      product_DELETE db env id
      = (db, json (BMessage "Cannot delete product with existing orders. Consider marking it as discontinued instead.") 400))) ∧
  (¬ referenced db id →
   ∀ p, admin env → products db !! id = Some p →
     ∃ db',
       product_DELETE db env id
         = (db', json (BMessage "Product deleted successfully") 200) ∧
       products db' = delete id (products db) ∧
       orders db' = orders db ∧ customers db' = customers db).
Proof.
  split.
  - intros Href. destruct (product_DELETE_rejects db env id Href) as [? ?].
    repeat (split; [done|]). intros p Hadmin Hp.
    by eapply product_DELETE_referenced.
  - intros Href p Hadmin Hp.
    rewrite (product_DELETE_unreferenced db env id p) by done.
    eexists. by repeat split.
Qed.

Lemma product_DELETE_integrity_witness :
  (referenced sample_db4 "X" ∧
   product_DELETE sample_db4 sample_env "X"
   = (sample_db4, json (BMessage "Cannot delete product with existing orders. Consider marking it as discontinued instead.") 400)) ∧
  (¬ referenced sample_db4 "Z" ∧
   ∃ db', product_DELETE sample_db4 sample_env "Z"
          = (db', json (BMessage "Product deleted successfully") 200) ∧
          products db' !! "Z" = None ∧ orders db' = orders sample_db4).
Proof.
  assert (admin sample_env) as Hadmin by reflexivity.
  assert (referenced sample_db4 "X") as HX.
  { exists "o1", (new_order sample_env body_two_lines), (mkOrderItem "X" 2 10 20).
    split; [by vm_compute|]. split; [left | done]. }
  assert (¬ referenced sample_db4 "Z") as HZ.
  { intros Href%orderItems_referenced. by vm_compute in Href. }
  destruct (product_DELETE_integrity sample_db4 sample_env "X") as [Hrej _].
  destruct (product_DELETE_integrity sample_db4 sample_env "Z") as [_ Hdel].
  split.
  - split; [exact HX|]. destruct (Hrej HX) as (_ & _ & Hmsg).
    apply (Hmsg (sample_product "Widget" 10 3) Hadmin). by vm_compute.
  - split; [exact HZ|].
    destruct (Hdel HZ (sample_product "Gizmo" 30 7) Hadmin)
      as (db' & Hdelete & Hps & Hos & _); [by vm_compute|].
    exists db'. split; [exact Hdelete|]. rewrite Hps. split; [|exact Hos].
    apply lookup_delete_eq.
Defined.

(** ** C9 *)

(** C9: an order-creation request that has passed the session, role,
    schema and customer checks and carries the same productId on two of its
    lines is rejected with "One or more products not found" (404); no order
    is created and no stock changes; the lookup returns fewer rows than the
    request has lines, whatever the stock of the products. *)
Theorem POST_duplicate_product db env b (i j : nat) (item1 item2 : ItemBody) :
  accepted db env b →
  cb_items b !! i = Some item1 → cb_items b !! j = Some item2 → i ≠ j →
  ib_productId item1 = ib_productId item2 →
  (length (product_findMany db (productIds b)) < length (productIds b))%nat ∧
  POST db env b = (db, json (BError "One or more products not found") 404).
Proof.
  intros Hacc Hi Hj Hne Hsame.
  assert (¬ NoDup (productIds b)) as Hdup.
  { intros Hnd. apply Hne. eapply NoDup_lookup; [exact Hnd| |].
    - unfold productIds. rewrite list_lookup_fmap, Hi. done.
    - unfold productIds. rewrite list_lookup_fmap, Hj. simpl. by f_equal. }
  assert (length (product_findMany db (productIds b)) ≠ length (productIds b))
    as Hlen.
  { intros Hlen. by apply product_findMany_length in Hlen as [? _]. }
  split.
  - assert (length (product_findMany db (productIds b))
            ≤ length (productIds b))%nat; [|lia].
    rewrite <- (length_fmap fst). apply submseteq_length, NoDup_submseteq.
    + apply product_findMany_NoDup.
    + intros id Hin. by apply product_findMany_keys in Hin as [? _].
  - apply POST_early_return. rewrite (POST_checks_accepted _ _ _ Hacc).
    by rewrite (proj2 (Nat.eqb_neq _ _)).
Qed.

Lemma POST_duplicate_product_witness :
  accepted sample_db sample_env body_double ∧
  Forall (in_stock sample_db) (cb_items body_double) ∧
  POST sample_db sample_env body_double
    = (sample_db, json (BError "One or more products not found") 404).
Proof.
  assert (accepted sample_db sample_env body_double) as Hacc by compute_done.
  split; [exact Hacc|]. split.
  - repeat constructor; intros p [= <-]; by vm_compute.
  - apply (POST_duplicate_product sample_db sample_env body_double 0 1
             (mkItemBody "X" 1 10) (mkItemBody "X" 1 10));
      [exact Hacc | reflexivity | reflexivity | lia | reflexivity].
Defined.

(** ** C10 *)

(** C10: PUT /api/orders/[id] leaves every other order as it was, creates
    no order, and in the order it addresses changes at most status,
    paymentStatus, shippingStatus, notes, shippingAddressId and updatedAt:
    subtotal, tax, shipping, total, customerId, orderNumber, createdAt and
    the order lines are the same after the request, so the totals equations
    that held before it hold after it. *)
Theorem PUT_frame db env id b :
  (∀ id', id' ≠ id → orders (PUT db env id b).1 !! id' = orders db !! id') ∧
  (orders db !! id = None → orders (PUT db env id b).1 !! id = None) ∧
  (∀ o, orders db !! id = Some o →
     ∃ o', orders (PUT db env id b).1 !! id = Some o' ∧
           o_subtotal o' = o_subtotal o ∧ o_tax o' = o_tax o ∧
           o_shipping o' = o_shipping o ∧ o_total o' = o_total o ∧
           o_customerId o' = o_customerId o ∧
           o_orderNumber o' = o_orderNumber o ∧
           o_createdAt o' = o_createdAt o ∧
           o_items o' = o_items o ∧
           (totals_hold o → totals_hold o')).
Proof.
  split; [intros; by apply PUT_orders_other|].
  destruct (PUT_orders_same db env id b) as [->|(o & u & _ & Ho & ->)].
  - split; [done|]. intros o Ho. exists o. by repeat (split; [done|]).
  - split; [by rewrite Ho|]. intros ? [= <-]%(eq_trans (eq_sym Ho)).
    exists (apply_update o u (now env)). repeat (split; [done|]).
    apply apply_update_totals.
Qed.

Lemma PUT_frame_witness :
  ∃ o o', orders sample_db1 !! "o1" = Some o ∧
          orders (PUT sample_db1 sample_env "o1" (status_body "SHIPPED")).1
            !! "o1" = Some o' ∧
          o_status o = PENDING ∧ o_status o' = SHIPPED ∧
          o_total o' = o_total o ∧ o_items o' = o_items o ∧ totals_hold o'.
Proof.
  destruct (PUT_frame sample_db1 sample_env "o1" (status_body "SHIPPED"))
    as (_ & _ & Hsame).
  destruct (Hsame (new_order sample_env body_two_lines))
    as (o' & Ho' & _ & _ & _ & Htotal & _ & _ & _ & Hitems & Hkeeps);
    [by vm_compute|].
  exists (new_order sample_env body_two_lines), o'.
  split; [by vm_compute|]. split; [exact Ho'|]. split; [done|].
  split; [|split; [exact Htotal|split; [exact Hitems|]]].
  - assert (Some (o_status o') = Some SHIPPED) as [= ->]; [|done].
    change (Some (o_status o')) with (o_status <$> Some o').
    rewrite <- Ho'. by vm_compute.
  - apply Hkeeps, new_order_totals.
Defined.


(** * Further properties of the handlers *)

(** ** Order creation *)

Lemma decrements_line (items : list ItemBody) item :
  NoDup (ib_productId <$> items) → item ∈ items →
  total_increment (ib_productId item) (decrements items) = - ib_quantity item.
Proof.
  intros Hnd Hin. apply total_increment_NoDup.
  - by rewrite decrements_keys.
  - unfold decrements. apply list_elem_of_fmap. by exists item.
Qed.




(** X2: a request to one of the five mutating routes that is not answered
    200 or 201 leaves the whole database as it was: no handler applies a
    part of its effect and then fails. *)
Theorem failed_request_changes_nothing db req :
  ¬ ok (handle db req).2 → (handle db req).1 = db.
Proof.
  unfold ok. intros Hfail.
  destruct req as [env b|env id b|env id|env id b|env id]; simpl in *.
  - destruct (POST_cases db env b) as [?|(o & ps & _ & _ & _ & _ & HPOST)];
      [done|].
    rewrite HPOST in Hfail. simpl in Hfail. destruct Hfail. by right.
  - destruct (PUT_cases db env id b)
      as [?|(o & u & ps & _ & _ & _ & _ & HPUT)]; [done|].
    rewrite HPUT in Hfail. simpl in Hfail. destruct Hfail. by left.
  - destruct (DELETE_cases db env id)
      as [?|(o & ps & _ & _ & _ & _ & HDELETE)]; [done|].
    rewrite HDELETE in Hfail. simpl in Hfail. destruct Hfail. by left.
  - destruct (product_PUT_cases db env id b)
      as [?|(p & st & _ & _ & _ & HPUT)]; [done|].
    rewrite HPUT in Hfail. simpl in Hfail. destruct Hfail. by left.
  - destruct (product_DELETE_cases db env id)
      as [?|(p & _ & _ & _ & HDELETE)]; [done|].
    rewrite HDELETE in Hfail. simpl in Hfail. destruct Hfail. by left.
Qed.

Lemma failed_request_changes_nothing_witness :
  ¬ ok (handle sample_db1 (DeleteOrder manager_env "o1")).2 ∧
  (handle sample_db1 (DeleteOrder manager_env "o1")).1 = sample_db1.
Proof.
  assert (¬ ok (handle sample_db1 (DeleteOrder manager_env "o1")).2) as Hfail.
  { intros [Hst|Hst]; by vm_compute in Hst. }
  split; [exact Hfail|].
  exact (failed_request_changes_nothing sample_db1 _ Hfail).
Defined.

(** X3: the order in which POST /api/orders turns a request down.  Without
    a session the answer is 401; with a role other than ADMIN and MANAGER
    it is 403; for an authorised user a body that fails the schema gets 400
    "Validation failed" (whether or not the customer exists); a valid body
    for an unknown customer gets 404 "Customer not found"; a request past
    these checks with a line whose product is not in the catalog gets 404
    "One or more products not found".  The database is unchanged in each
    case. *)
Theorem POST_rejections db env b :
  (session env = None →
   POST db env b = (db, json (BError "Unauthorized") 401)) ∧
  (∀ role, session env = Some role → role ∉ ["ADMIN"; "MANAGER"] →
   POST db env b = (db, json (BError "Insufficient permissions") 403)) ∧
  (authorised ["ADMIN"; "MANAGER"] env → OrderCreateSchema b = false →
   POST db env b = (db, json (BValidation "Validation failed") 400)) ∧
  (authorised ["ADMIN"; "MANAGER"] env → OrderCreateSchema b = true →
   cb_customerId b ∉ customers db →
   POST db env b = (db, json (BError "Customer not found") 404)) ∧
  (accepted db env b → ¬ products_exist db (productIds b) →
   POST db env b
   = (db, json (BError "One or more products not found") 404)).
Proof.
  repeat split.
  - intros Hs. apply POST_early_return. unfold POST_checks. by rewrite Hs.
  - intros role Hs Hrole. apply POST_early_return. unfold POST_checks.
    rewrite Hs. unfold has_role. by rewrite bool_decide_eq_false_2.
  - unfold authorised. intros Hauth Hschema. apply POST_early_return.
    unfold POST_checks. destruct (session env) as [role|]; [|done].
    apply has_role_true in Hauth. by rewrite Hauth, Hschema.
  - unfold authorised. intros Hauth Hschema Hcust. apply POST_early_return.
    unfold POST_checks. destruct (session env) as [role|]; [|done].
    apply has_role_true in Hauth. rewrite Hauth, Hschema. simpl.
    by rewrite bool_decide_eq_false_2.
  - intros Hacc Hex. apply POST_early_return.
    rewrite (POST_checks_accepted _ _ _ Hacc).
    destruct (Nat.eqb_spec (length (product_findMany db (productIds b)))
                (length (productIds b))) as [Hlen|]; [|done].
    by apply product_findMany_length in Hlen as [_ ?].
Qed.

Lemma POST_rejections_witness :
  POST sample_db anonymous_env body_two_lines
    = (sample_db, json (BError "Unauthorized") 401) ∧
  POST sample_db user_env body_two_lines
    = (sample_db, json (BError "Insufficient permissions") 403) ∧
  POST sample_db sample_env (mkOrderCreateBody "nobody" [] None None)
    = (sample_db, json (BValidation "Validation failed") 400) ∧
  POST sample_db sample_env
    (mkOrderCreateBody "nobody" [mkItemBody "X" 1 10] None None)
    = (sample_db, json (BError "Customer not found") 404) ∧
  POST sample_db sample_env
    (mkOrderCreateBody "c1" [mkItemBody "W" 1 10] None None)
    = (sample_db, json (BError "One or more products not found") 404).
Proof.
  split; [|split; [|split; [|split]]].
  - by apply (POST_rejections sample_db anonymous_env body_two_lines).
  - apply (POST_rejections sample_db user_env body_two_lines) with "USER";
      [done | compute_done].
  - apply (POST_rejections sample_db sample_env
             (mkOrderCreateBody "nobody" [] None None)); [compute_done | done].
  - apply (POST_rejections sample_db sample_env
             (mkOrderCreateBody "nobody" [mkItemBody "X" 1 10] None None));
      [compute_done | done | compute_done].
  - apply (POST_rejections sample_db sample_env
             (mkOrderCreateBody "c1" [mkItemBody "W" 1 10] None None));
      [compute_done | compute_done].
Defined.

(** ** Creating an order and taking it back *)

Lemma increments_create_item items id :
  total_increment id (increments (create_item <$> items))
  = - total_increment id (decrements items).
Proof.
  unfold increments, decrements.
  induction items as [|item rest IH]; [done|].
  rewrite !fmap_cons. cbn [total_increment]. rewrite IH. simpl.
  destruct (decide (ib_productId item = id)); lia.
Qed.

Lemma restocked_twice ps ups1 ups2 id :
  restocked (restocked ps ups1) ups2 !! id
  = (λ p, with_stock p (p_stock p + total_increment id ups1
                        + total_increment id ups2)) <$> ps !! id.
Proof.
  rewrite !restocked_lookup. by destruct (ps !! id).
Qed.

Lemma restocked_back ps ups1 ups2 :
  (∀ id, total_increment id ups2 = - total_increment id ups1) →
  restocked (restocked ps ups1) ups2 = ps.
Proof.
  intros Hback. apply map_eq. intros id. rewrite restocked_twice, Hback.
  destruct (ps !! id) as [p|]; simpl; [|done].
  replace (p_stock p + total_increment id ups1 + - total_increment id ups1)
    with (p_stock p) by lia.
  by rewrite with_stock_same.
Qed.

Lemma Db_eta db : with_tables db (products db) (orders db) = db.
Proof. by destruct db. Qed.

(** The database after a creation that was answered 201. *)
Lemma POST_created_db db env b :
  res_status (POST db env b).2 = 201 →
  (newId env ∉ dom (orders db)) ∧ products_exist db (productIds b) ∧
  ∃ o, stored_order db (new_order env b) = Some o ∧
       POST db env b
       = (with_tables db (restocked (products db) (decrements (cb_items b)))
            (<[newId env := o]> (orders db)),
          json (BOrder o) 201).
Proof.
  intros Hst. destruct (POST db env b) as [db' [body st]] eqn:HPOST.
  simpl in Hst. subst st.
  apply POST_created in HPOST as (Hc & Hid & _ & o & ps & Ho & -> & Hps & ->).
  apply POST_checks_None in Hc as (_ & _ & Hex & _).
  apply stock_updates_restocked in Hps as ->. eauto.
Qed.

Lemma restocked_dom ps ups : dom (restocked ps ups) = dom ps.
Proof.
  apply set_eq. intros id.
  by rewrite !elem_of_dom, restocked_lookup, fmap_is_Some.
Qed.

Lemma stored_order_products_exist db env b o ps os :
  stored_order db (new_order env b) = Some o →
  dom ps = dom (products db) → products_exist db (productIds b) →
  products_exist (with_tables db ps os) (line_products o).
Proof.
  intros Ho Hdom Hex. apply (products_exist_dom db); [done|].
  rewrite (stored_order_line_products _ _ _ Ho).
  unfold line_products. simpl. by rewrite <- list_fmap_compose.
Qed.

Lemma stored_order_increments_back db env b o id :
  stored_order db (new_order env b) = Some o →
  total_increment id (increments (o_items o))
  = - total_increment id (decrements (cb_items b)).
Proof.
  intros Ho. rewrite (stored_order_increments _ _ _ Ho). simpl.
  apply increments_create_item.
Qed.

(** X4: deleting an order right after it was created undoes the creation:
    when POST /api/orders is answered 201 and an administrator then deletes
    the new order, the deletion is answered 200 and the database is exactly
    the one before the creation (same orders, same stock levels, same
    customers). *)
Theorem POST_then_DELETE db env b env' :
  res_status (POST db env b).2 = 201 → admin env' →
  DELETE (POST db env b).1 env' (newId env)
  = (db, json (BMessage "Order deleted successfully") 200).
Proof.
  intros (Hid & Hex & o & Ho & ->)%POST_created_db Hadmin. simpl.
  rewrite (DELETE_pending _ env' (newId env) o).
  - simpl. f_equal. rewrite delete_insert_id by by apply not_elem_of_dom.
    rewrite restocked_back
      by (intros id; by eapply stored_order_increments_back).
    apply Db_eta.
  - done.
  - simpl. apply lookup_insert_eq.
  - by rewrite (stored_order_status _ _ _ Ho).
  - by eapply stored_order_products_exist; [|apply restocked_dom|].
Qed.

Lemma POST_then_DELETE_witness :
  DELETE (POST sample_db sample_env body_two_lines).1 sample_env "o1"
  = (sample_db, json (BMessage "Order deleted successfully") 200).
Proof.
  apply (POST_then_DELETE sample_db sample_env body_two_lines sample_env);
    [by vm_compute | reflexivity].
Defined.

(** X5: cancelling an order right after it was created gives the stock
    back: when POST /api/orders is answered 201 and an authorised user then
    sets the new order's status to CANCELLED, with a valid body that
    carries no shippingAddressId or one that names an existing address,
    the update is answered 200, the order stays in the database as
    CANCELLED with the lines it was created with, and the product table is
    exactly the one before the creation. *)
Theorem POST_then_cancel db env b env' b' u :
  res_status (POST db env b).2 = 201 →
  authorised ["ADMIN"; "MANAGER"] env' →
  OrderUpdateSchema b' = Some u → u_status u = Some CANCELLED →
  references_ok (addresses db) (u_shippingAddressId u) = true →
  ∃ db' o,
    PUT (POST db env b).1 env' (newId env) b' = (db', json (BOrder o) 200) ∧
    products db' = products db ∧
    orders db' !! newId env = Some o ∧ o_status o = CANCELLED ∧
    o_items <$> orders (POST db env b).1 !! newId env = Some (o_items o).
Proof.
  intros (Hid & Hex & o & Ho & ->)%POST_created_db Hauth Hu Hcancel Haddr.
  simpl.
  assert (o_status o ≠ CANCELLED) as Hst
    by by rewrite (stored_order_status _ _ _ Ho).
  destruct (PUT_accepts
              (with_tables db
                 (restocked (products db) (decrements (cb_items b)))
                 (<[newId env := o]> (orders db)))
              env' (newId env) b' u o Hauth Hu)
    as (ps & Hps & ->).
  { simpl. apply lookup_insert_eq. }
  { done. }
  { rewrite stockUpdates_cancel by done. rewrite increments_keys.
    by eapply stored_order_products_exist; [|apply restocked_dom|]. }
  rewrite stockUpdates_cancel in Hps by done.
  apply stock_updates_restocked in Hps as ->.
  eexists _, _. split; [done|]. simpl. split.
  - apply restocked_back. intros id. by eapply stored_order_increments_back.
  - rewrite !lookup_insert_eq. split; [done|]. simpl. by rewrite Hcancel.
Qed.

Lemma POST_then_cancel_witness :
  (∃ db' o,
     PUT (POST sample_db sample_env body_two_lines).1 manager_env "o1"
       (status_body "CANCELLED") = (db', json (BOrder o) 200) ∧
     products db' = products sample_db ∧ o_status o = CANCELLED) ∧
  PUT (POST sample_db sample_env body_two_lines).1 manager_env "o1"
    cancelled_to_nowhere
  = ((POST sample_db sample_env body_two_lines).1,
     json (BError "Failed to update order") 500).
Proof.
  split; [|by vm_compute].
  destruct (POST_then_cancel sample_db sample_env body_two_lines manager_env
              (status_body "CANCELLED")
              (mkOrderUpdate (Some CANCELLED) None None None None))
    as (db' & o & HPUT & Hps & _ & Hst & _);
    [by vm_compute | compute_done | reflexivity | reflexivity | reflexivity |].
  exists db', o. split; [exact HPUT|]. split; assumption.
Defined.

(** ** Order updates *)

(** A cancellation of an order that is not cancelled, spelled out. *)
Lemma PUT_cancellation db env id o :
  authorised ["ADMIN"; "MANAGER"] env → orders db !! id = Some o →
  o_status o ≠ CANCELLED → products_exist db (line_products o) →
  PUT db env id (status_body "CANCELLED")
  = (with_tables db (restocked (products db) (increments (o_items o)))
       (<[id := apply_update o (only_status CANCELLED) (now env)]> (orders db)),
     json (BOrder (apply_update o (only_status CANCELLED) (now env))) 200).
Proof.
  intros Hauth Ho Hst Hex.
  destruct (PUT_accepts db env id (status_body "CANCELLED")
              (only_status CANCELLED) o Hauth eq_refl Ho eq_refl)
    as (ps & Hps & ->).
  { rewrite stockUpdates_cancel by done. by rewrite increments_keys. }
  rewrite stockUpdates_cancel in Hps by done.
  by apply stock_updates_restocked in Hps as ->.
Qed.

(** X6: a cancelled order can be re-opened, and cancelling it again gives
    the stock back a second time.  For an order that is not CANCELLED whose
    products exist, the three authorised updates CANCELLED, PENDING,
    CANCELLED are each answered 200; the re-opening takes no stock; and
    after the third every product has gained twice the quantities of the
    order's lines for it. *)
Theorem cancel_reopen_cancel db env1 env2 env3 id o :
  authorised ["ADMIN"; "MANAGER"] env1 →
  authorised ["ADMIN"; "MANAGER"] env2 →
  authorised ["ADMIN"; "MANAGER"] env3 →
  orders db !! id = Some o → o_status o ≠ CANCELLED →
  products_exist db (line_products o) →
  ∃ db1 db2 db3 o1 o2 o3,
    PUT db env1 id (status_body "CANCELLED") = (db1, json (BOrder o1) 200) ∧
    PUT db1 env2 id (status_body "PENDING") = (db2, json (BOrder o2) 200) ∧
    PUT db2 env3 id (status_body "CANCELLED") = (db3, json (BOrder o3) 200) ∧
    o_status o2 = PENDING ∧
    products db1 = restocked (products db) (increments (o_items o)) ∧
    products db2 = products db1 ∧
    ∀ pid p, products db !! pid = Some p →
      products db3 !! pid
      = Some (with_stock p (p_stock p
                            + 2 * total_increment pid (increments (o_items o)))).
Proof.
  intros H1 H2 H3 Ho Hst Hex.
  rewrite (PUT_cancellation db env1 id o) by done.
  eexists _, _, _, _, _, _. split; [done|].
  erewrite (PUT_status _ env2 id _ "PENDING" PENDING);
    [|done..|cbn [orders]; by rewrite lookup_insert_eq].
  split; [done|]. cbn [customers products orders].
  erewrite (PUT_cancellation _ env3 id);
    [|done|cbn [orders]; by rewrite lookup_insert_eq|done|].
  2:{ apply (products_exist_dom db); [apply restocked_dom | done]. }
  split; [done|]. split; [done|]. split; [done|]. split; [done|].
  intros pid p Hp. cbn [products]. simpl o_items.
  rewrite restocked_twice, Hp. simpl. f_equal. f_equal. lia.
Qed.

Lemma cancel_reopen_cancel_witness :
  ∃ db1 db2 db3 o1 o2 o3,
    PUT sample_db1 sample_env "o1" (status_body "CANCELLED")
      = (db1, json (BOrder o1) 200) ∧
    PUT db1 manager_env "o1" (status_body "PENDING")
      = (db2, json (BOrder o2) 200) ∧
    PUT db2 sample_env "o1" (status_body "CANCELLED")
      = (db3, json (BOrder o3) 200) ∧
    p_stock <$> products sample_db !! "X" = Some 5 ∧
    p_stock <$> products sample_db1 !! "X" = Some 3 ∧
    p_stock <$> products db3 !! "X" = Some 7.
Proof.
  destruct (cancel_reopen_cancel sample_db1 sample_env manager_env sample_env
              "o1" (new_order sample_env body_two_lines))
    as (db1 & db2 & db3 & o1 & o2 & o3 & HP1 & HP2 & HP3 & _ & _ & _ & Hstock);
    [compute_done | compute_done | compute_done | by vm_compute | discriminate
    | compute_done |].
  exists db1, db2, db3, o1, o2, o3.
  split; [exact HP1|]. split; [exact HP2|]. split; [exact HP3|].
  split; [by vm_compute|]. split; [by vm_compute|].
  rewrite (Hstock "X" (sample_product "Widget" 10 3)) by by vm_compute.
  by vm_compute.
Defined.

Lemma apply_update_twice o u t :
  apply_update (apply_update o u t) u t = apply_update o u t.
Proof.
  destruct u as [[s|] [pay|] [ship|] [n|] [a|]]; reflexivity.
Qed.

Lemma stockUpdates_after o u t : stockUpdates (apply_update o u t) u = [].
Proof.
  destruct (decide (u_status u = Some CANCELLED)) as [Hu|Hu].
  - apply stockUpdates_cancelled. simpl. by rewrite Hu.
  - by apply stockUpdates_other.
Qed.

Lemma PUT_cases_address db env id b :
  (PUT db env id b).1 = db ∨
  ∃ o u ps, authorised ["ADMIN"; "MANAGER"] env ∧
            OrderUpdateSchema b = Some u ∧ orders db !! id = Some o ∧
            references_ok (addresses db) (u_shippingAddressId u) = true ∧
            stock_updates (products db) (stockUpdates o u) = Some ps ∧
            PUT db env id b
            = (with_tables db ps
                 (<[id := apply_update o u (now env)]> (orders db)),
               json (BOrder (apply_update o u (now env))) 200).
Proof.
  unfold PUT, authorised. destruct (session env) as [role|]; [|by left].
  destruct (has_role _ role) eqn:Hrole; simpl; [|by left].
  destruct (OrderUpdateSchema b) as [u|]; [|by left].
  destruct (orders db !! id) as [o|]; [|by left].
  destruct (references_ok _ _) eqn:Haddr; [|by left].
  destruct (stock_updates _ _) as [ps|] eqn:Hps; [|by left].
  right. exists o, u, ps. apply has_role_true in Hrole. by repeat split.
Qed.

(** X7: PUT /api/orders/[id] is idempotent: serving the same update a
    second time (same session, same clock reading, same body) leaves the
    database and the answer of the first time; in particular a repeated
    cancellation restores the stock once. *)
Theorem PUT_idempotent db env id b :
  PUT (PUT db env id b).1 env id b = PUT db env id b.
Proof.
  destruct (PUT_cases_address db env id b)
    as [Hsame|(o & u & ps & Hauth & Hu & Ho & Haddr & Hps & HPUT)].
  - by rewrite Hsame.
  - rewrite HPUT. simpl.
    destruct (PUT_accepts
                (with_tables db ps
                   (<[id := apply_update o u (now env)]> (orders db)))
                env id b u (apply_update o u (now env)) Hauth Hu)
      as (ps' & Hps' & ->).
    + simpl. apply lookup_insert_eq.
    + done.
    + rewrite stockUpdates_after. constructor.
    + rewrite stockUpdates_after in Hps'. simpl in Hps'.
      injection Hps' as <-. simpl.
      by rewrite apply_update_twice, insert_insert_eq.
Qed.

(** X8: the status strings the update schema accepts are exactly the six
    names, in upper case, and reading a name gives back its status; an
    authorised update whose [status] is any other string is answered 400
    "Validation failed" and changes nothing, whether or not the order
    exists. *)
Theorem PUT_status_strings :
  (∀ s st, parse_OrderStatus s = Some st ↔ s = OrderStatus_name st) ∧
  (∀ db env id b s,
     authorised ["ADMIN"; "MANAGER"] env →
     ub_status b = Some s → (∀ st, s ≠ OrderStatus_name st) →
     PUT db env id b = (db, json (BValidation "Validation failed") 400)).
Proof.
  assert (∀ s st, parse_OrderStatus s = Some st ↔ s = OrderStatus_name st)
    as Hparse.
  { intros s st. split; [|intros ->; apply parse_OrderStatus_name].
    unfold parse_OrderStatus.
    repeat (match goal with
            | |- context [String.eqb s ?n] =>
                destruct (String.eqb_spec s n) as [->|]
            end; [by intros [= <-]|]).
    done. }
  split; [exact Hparse|].
  intros db env id b s Hauth Hs Hnone. unfold PUT, authorised in *.
  destruct (session env) as [role|]; [|done].
  apply has_role_true in Hauth. rewrite Hauth. simpl.
  unfold OrderUpdateSchema. rewrite Hs. simpl.
  destruct (parse_OrderStatus s) as [st|] eqn:Hst; [|done].
  apply Hparse in Hst. by destruct (Hnone st).
Qed.

Lemma PUT_status_strings_witness :
  PUT sample_db1 sample_env "o1" (status_body "pending")
  = (sample_db1, json (BValidation "Validation failed") 400).
Proof.
  destruct PUT_status_strings as [_ Hinvalid].
  apply (Hinvalid sample_db1 sample_env "o1" (status_body "pending") "pending");
    [compute_done | reflexivity | by intros []].
Defined.

(** ** What the handlers leave alone *)

Lemma stock_updates_same_but_stock ps ups ps' pid p :
  stock_updates ps ups = Some ps' → ps !! pid = Some p →
  ∃ q, ps' !! pid = Some q ∧ same_but_stock p q.
Proof.
  intros Hrun Hp. rewrite (stock_updates_lookup _ _ _ Hrun), Hp. simpl.
  eexists. split; [done|]. done.
Qed.

(** X9: no handler changes the customer table, and the three order routes
    (create, update, delete) neither add nor remove a product nor change
    anything of a product but its stock: name, price, SKU and the other
    columns of every product are the same after the request. *)
Theorem order_requests_touch_only_stock db req :
  customers (handle db req).1 = customers db ∧
  (order_request req →
   dom (products (handle db req).1) = dom (products db) ∧
   ∀ pid p, products db !! pid = Some p →
     ∃ q, products (handle db req).1 !! pid = Some q ∧ same_but_stock p q).
Proof.
  assert (∀ pid p, products db !! pid = Some p →
            ∃ q, products db !! pid = Some q ∧ same_but_stock p q) as Hrefl.
  { intros pid p Hp. exists p. split; [done|]. unfold same_but_stock.
    by rewrite with_stock_same. }
  destruct req as [env b|env id b|env id|env id b|env id]; simpl.
  - destruct (POST_cases db env b) as [->|(o & ps & _ & _ & Hps & _ & ->)];
      [done|].
    simpl. split; [done|]. intros _. split; [by eapply stock_updates_dom|].
    intros pid p Hp. by eapply stock_updates_same_but_stock.
  - destruct (PUT_cases db env id b)
      as [->|(o & u & ps & _ & _ & _ & Hps & ->)]; [done|].
    simpl. split; [done|]. intros _. split; [by eapply stock_updates_dom|].
    intros pid p Hp. by eapply stock_updates_same_but_stock.
  - destruct (DELETE_cases db env id)
      as [->|(o & ps & _ & _ & _ & Hps & ->)]; [done|].
    simpl. split; [done|]. intros _. split; [by eapply stock_updates_dom|].
    intros pid p Hp. by eapply stock_updates_same_but_stock.
  - destruct (product_PUT_cases db env id b)
      as [->|(p & st & _ & _ & _ & ->)]; done.
  - destruct (product_DELETE_cases db env id)
      as [->|(p & _ & _ & _ & ->)]; done.
Qed.

Lemma order_requests_touch_only_stock_witness :
  ∃ q, products (handle sample_db (CreateOrder sample_env body_two_lines)).1
         !! "X" = Some q ∧
       p_price q = 10%float ∧ p_name q = "Widget" ∧ p_stock q = 3.
Proof.
  destruct (order_requests_touch_only_stock sample_db
              (CreateOrder sample_env body_two_lines)) as [_ Hstock].
  destruct (Hstock I) as [_ Hsame].
  destruct (Hsame "X" (sample_product "Widget" 10 5)) as (q & Hq & Hq');
    [by vm_compute|].
  exists q. split; [exact Hq|]. rewrite Hq'. repeat split.
  assert (Some (p_stock q) = Some 3) as [= ->]; [|done].
  change (Some (p_stock q)) with (p_stock <$> Some q). rewrite <- Hq.
  by vm_compute.
Defined.

(** X10: who may change the database.  A request whose session is missing
    or belongs to a role other than ADMIN and MANAGER changes nothing,
    whatever route it addresses; and the two deletions (of an order, of a
    product) change nothing unless the session is an administrator's: a
    manager can create, update and cancel orders and update products, but
    delete neither. *)
Theorem only_managers_change db req :
  (¬ authorised ["ADMIN"; "MANAGER"] (req_env req) → (handle db req).1 = db) ∧
  (¬ admin (req_env req) →
   match req with
   | DeleteOrder _ _ | DeleteProduct _ _ => (handle db req).1 = db
   | _ => True
   end).
Proof.
  assert (∀ env, admin env → authorised ["ADMIN"; "MANAGER"] env) as Hadmin.
  { intros env Henv. unfold admin, authorised in *. rewrite Henv. left. }
  split.
  - intros Hno.
    destruct req as [env b|env id b|env id|env id b|env id]; simpl in *.
    + destruct (POST_cases db env b) as [?|(o & ps & Hc & _)]; [done|].
      apply POST_checks_None in Hc as ((? & _) & _). done.
    + destruct (PUT_cases db env id b) as [?|(o & u & ps & ? & _)]; done.
    + destruct (DELETE_cases db env id) as [?|(o & ps & ? & _)]; [done|].
      destruct Hno. by apply Hadmin.
    + destruct (product_PUT_cases db env id b) as [?|(p & st & ? & _)]; done.
    + destruct (product_DELETE_cases db env id) as [?|(p & ? & _)]; [done|].
      destruct Hno. by apply Hadmin.
  - intros Hno. destruct req as [env b|env id b|env id|env id b|env id];
      simpl in *; try done.
    + destruct (DELETE_cases db env id) as [?|(o & ps & ? & _)]; done.
    + destruct (product_DELETE_cases db env id) as [?|(p & ? & _)]; done.
Qed.

Lemma only_managers_change_witness :
  (handle sample_db (CreateOrder user_env body_two_lines)).1 = sample_db ∧
  (handle sample_db1 (DeleteOrder manager_env "o1")).1 = sample_db1 ∧
  (handle sample_db1 (UpdateOrder manager_env "o1" (status_body "SHIPPED"))).1
    ≠ sample_db1.
Proof.
  split; [|split].
  - apply (only_managers_change sample_db (CreateOrder user_env body_two_lines)).
    simpl. compute_done.
  - apply (only_managers_change sample_db1 (DeleteOrder manager_env "o1")).
    simpl. by vm_compute.
  - intros Heq. apply (f_equal (λ db, o_status <$> orders db !! "o1")) in Heq.
    by vm_compute in Heq.
Defined.

(** ** Reading orders back *)

Lemma GET_stored db env id o :
  is_Some (session env) → orders db !! id = Some o →
  GET db env id = json (BOrder o) 200.
Proof. intros [role Hs] Ho. unfold GET. by rewrite Hs, Ho. Qed.

Lemma GET_missing db env id :
  is_Some (session env) → orders db !! id = None →
  GET db env id = json (BError "Order not found") 404.
Proof. intros [role Hs] Ho. unfold GET. by rewrite Hs, Ho. Qed.

Lemma PUT_answered_200 db env id b :
  res_status (PUT db env id b).2 = 200 →
  ∃ o u ps, authorised ["ADMIN"; "MANAGER"] env ∧
            OrderUpdateSchema b = Some u ∧ orders db !! id = Some o ∧
            stock_updates (products db) (stockUpdates o u) = Some ps ∧
            PUT db env id b
            = (with_tables db ps
                 (<[id := apply_update o u (now env)]> (orders db)),
               json (BOrder (apply_update o u (now env))) 200).
Proof.
  unfold PUT, authorised. destruct (session env) as [role|]; [|done].
  destruct (has_role _ role) eqn:Hrole; simpl; [|done].
  destruct (OrderUpdateSchema b) as [u|]; [|done].
  destruct (orders db !! id) as [o|]; [|done].
  destruct (references_ok _ _); [|done].
  destruct (stock_updates _ _) as [ps|] eqn:Hps; [|done].
  intros _. exists o, u, ps. apply has_role_true in Hrole. by repeat split.
Qed.

(** X11: what was written is what is read.  For any signed-in reader,
    whatever the role: after a creation answered 201 the new id reads back
    the order of the creation's answer; after an update answered 200 the
    id reads back the order of the update's answer; an id that names no
    order reads 404 "Order not found"; without a session the answer is
    401. *)
Theorem GET_reads_back db env env' :
  is_Some (session env') →
  (∀ b, res_status (POST db env b).2 = 201 →
        GET (POST db env b).1 env' (newId env)
        = json (res_body (POST db env b).2) 200) ∧
  (∀ id b, res_status (PUT db env id b).2 = 200 →
           GET (PUT db env id b).1 env' id = (PUT db env id b).2) ∧
  (∀ id, orders db !! id = None →
         GET db env' id = json (BError "Order not found") 404) ∧
  (∀ id, GET db anonymous_env id = json (BError "Unauthorized") 401).
Proof.
  intros Hs. split; [|split; [|split]].
  - intros b (_ & _ & o & _ & ->)%POST_created_db. simpl.
    apply GET_stored; [done|]. simpl. apply lookup_insert_eq.
  - intros id b (o & u & ps & _ & _ & _ & _ & HPUT)%PUT_answered_200.
    rewrite HPUT. simpl. apply GET_stored; [done|]. simpl.
    apply lookup_insert_eq.
  - intros id Hid. by apply GET_missing.
  - done.
Qed.

Lemma GET_reads_back_witness :
  GET (POST sample_db sample_env body_two_lines).1 user_env "o1"
    = json (res_body (POST sample_db sample_env body_two_lines).2) 200 ∧
  GET sample_db user_env "o1" = json (BError "Order not found") 404.
Proof.
  destruct (GET_reads_back sample_db sample_env user_env) as (HPOST & _ & Hnone & _);
    [by eexists|].
  split; [apply HPOST; by vm_compute | apply Hnone; by vm_compute].
Defined.

Lemma DELETE_answered_200 db env id :
  res_status (DELETE db env id).2 = 200 →
  ∃ o ps, admin env ∧ orders db !! id = Some o ∧ o_status o = PENDING ∧
          stock_updates (products db) (increments (o_items o)) = Some ps ∧
          DELETE db env id
          = (with_tables db ps (delete id (orders db)),
             json (BMessage "Order deleted successfully") 200).
Proof.
  unfold DELETE, admin. destruct (session env) as [role|]; [|done].
  destruct (String.eqb_spec role "ADMIN") as [->|]; simpl; [|done].
  destruct (orders db !! id) as [o|]; [|done].
  case_bool_decide as Hst; simpl; [|done].
  destruct (stock_updates _ _) as [ps|] eqn:Hps; [|done].
  intros _. exists o, ps. by repeat split.
Qed.

(** X12: a deleted order is gone, and its lines with it.  After
    DELETE /api/orders/[id] was answered 200, reading the id gives 404,
    deleting it again gives 404, every valid update of it gives 404, and
    all the other orders are as they were; the order lines that reference
    a product are then exactly the lines of the other orders that
    referenced it before, so a product that only the deleted order
    referenced is referenced by no line any longer. *)
Theorem DELETE_then_gone db env id :
  res_status (DELETE db env id).2 = 200 →
  (∀ env', is_Some (session env') →
     GET (DELETE db env id).1 env' id = json (BError "Order not found") 404) ∧
  (∀ env', admin env' →
     DELETE (DELETE db env id).1 env' id
     = ((DELETE db env id).1, json (BError "Order not found") 404)) ∧
  (∀ env' b u, authorised ["ADMIN"; "MANAGER"] env' →
     OrderUpdateSchema b = Some u →
     PUT (DELETE db env id).1 env' id b
     = ((DELETE db env id).1, json (BError "Order not found") 404)) ∧
  (∀ id', id' ≠ id →
     orders (DELETE db env id).1 !! id' = orders db !! id') ∧
  (∀ pid line,
     line ∈ orderItems (DELETE db env id).1 pid ↔
     ∃ oid o, oid ≠ id ∧ orders db !! oid = Some o ∧ line ∈ o_items o ∧
              oi_productId line = pid) ∧
  (∀ pid,
     (∀ oid o, oid ≠ id → orders db !! oid = Some o → pid ∉ line_products o) →
     orderItems (DELETE db env id).1 pid = []).
Proof.
  intros Hst.
  assert (orders (DELETE db env id).1 = delete id (orders db)) as Horders.
  { by apply DELETE_answered_200 in Hst as (o & ps & _ & _ & _ & _ & ->). }
  remember (DELETE db env id).1 as db' eqn:Hdb'. clear Hdb' Hst.
  assert (orders db' !! id = None) as Hgone
    by (rewrite Horders; apply lookup_delete_eq).
  assert (∀ pid line,
            line ∈ orderItems db' pid ↔
            ∃ oid o, oid ≠ id ∧ orders db !! oid = Some o ∧ line ∈ o_items o ∧
                     oi_productId line = pid) as Hlines.
  { intros pid line. rewrite orderItems_elem, Horders. split.
    - intros (oid & o & [Hne Ho]%lookup_delete_Some & Hline & Hpid).
      by exists oid, o.
    - intros (oid & o & Hne & Ho & Hline & Hpid). exists oid, o.
      split; [|done]. by apply lookup_delete_Some. }
  split; [|split; [|split; [|split; [|split]]]].
  - intros env' Hs. by apply GET_missing.
  - intros env' Hadmin. unfold DELETE, admin in *.
    by rewrite Hadmin, Hgone.
  - intros env' b u Hauth Hu. unfold PUT, authorised in *.
    destruct (session env') as [role|]; [|done].
    apply has_role_true in Hauth. by rewrite Hauth, Hu, Hgone.
  - intros id' Hne. rewrite Horders. by apply lookup_delete_ne.
  - exact Hlines.
  - intros pid Hother.
    destruct (orderItems db' pid) as [|line rest] eqn:Hitems; [done|].
    assert (line ∈ orderItems db' pid) as Hin by (rewrite Hitems; left).
    apply Hlines in Hin as (oid & o & Hne & Ho & Hline & Hpid).
    destruct (Hother oid o Hne Ho). unfold line_products.
    apply list_elem_of_fmap. by exists line.
Qed.

Lemma DELETE_then_gone_witness :
  res_status (DELETE sample_db1 sample_env "o1").2 = 200 ∧
  GET (DELETE sample_db1 sample_env "o1").1 user_env "o1"
    = json (BError "Order not found") 404 ∧
  DELETE (DELETE sample_db1 sample_env "o1").1 sample_env "o1"
    = ((DELETE sample_db1 sample_env "o1").1,
       json (BError "Order not found") 404) ∧
  orderItems sample_db1 "X" = [mkOrderItem "X" 2 10 20] ∧
  orderItems (DELETE sample_db1 sample_env "o1").1 "X" = [].
Proof.
  assert (res_status (DELETE sample_db1 sample_env "o1").2 = 200) as Hst
    by by vm_compute.
  destruct (DELETE_then_gone sample_db1 sample_env "o1" Hst)
    as (HGET & HDELETE & _ & _ & _ & Hnone).
  split; [exact Hst|]. split; [apply HGET; by eexists|].
  split; [by apply HDELETE|]. split; [by vm_compute|].
  apply Hnone. intros oid o Hne Ho. exfalso. revert Ho.
  change (orders sample_db1) with (orders (POST sample_db sample_env body_two_lines).1).
  destruct (POST_created_db sample_db sample_env body_two_lines) as (_ & _ & o' & _ & ->);
    [by vm_compute|].
  simpl. rewrite lookup_insert_ne by done. by rewrite lookup_empty.
Defined.

(** ** Product updates *)

Lemma product_PUT_authorised db env id b :
  authorised ["ADMIN"; "MANAGER"] env →
  product_PUT db env id b =
    match updateProductSchema b with
    | None => (db, json (BValidation "Invalid input data") 400)
    | Some st =>
      match products db !! id with
      | None => (db, json (BMessage "Product not found") 404)
      | Some existingProduct =>
        if sku_taken db existingProduct b
        then (db, json (BMessage "Product with this SKU already exists") 400)
        else if negb (references_ok (categories db) (pb_categoryId b))
        then (db, json (BMessage "Internal server error") 500)
        else
          (with_tables db
             (<[id := apply_product_update existingProduct b st]> (products db))
             (orders db),
           json (BProduct "Product updated successfully"
                   (apply_product_update existingProduct b st)) 200)
      end
    end.
Proof.
  unfold authorised, product_PUT. destruct (session env) as [role|]; [|done].
  intros [->|[->|[]%elem_of_nil]%elem_of_cons]%elem_of_cons; done.
Qed.

Lemma parse_ProductStatus_None s :
  s ∉ ["ACTIVE"; "INACTIVE"; "DISCONTINUED"] → parse_ProductStatus s = None.
Proof.
  intros Hs. unfold parse_ProductStatus.
  repeat (match goal with
          | |- context [String.eqb s ?n] =>
              destruct (String.eqb_spec s n) as [->|]
          end; [exfalso; apply Hs; set_solver|]).
  done.
Qed.

(** X13: what PUT /api/products/[id] refuses.  For an authorised user a
    body with a negative stock or low-stock level, a price or cost price
    that is not greater than zero (zero included), an empty name, SKU or
    category id, or a status outside ACTIVE / INACTIVE / DISCONTINUED is
    answered 400 "Invalid input data" and changes nothing. *)
Theorem product_PUT_validation db env id b :
  authorised ["ADMIN"; "MANAGER"] env →
  (∃ s, pb_stock b = Some s ∧ s < 0) ∨
  (∃ s, pb_lowStock b = Some s ∧ s < 0) ∨
  (∃ p, pb_price b = Some p ∧ PrimFloat.ltb 0 p = false) ∨
  (∃ c, pb_costPrice b = Some c ∧ PrimFloat.ltb 0 c = false) ∨
  pb_name b = Some "" ∨ pb_sku b = Some "" ∨ pb_categoryId b = Some "" ∨
  (∃ s, pb_status b = Some s ∧ s ∉ ["ACTIVE"; "INACTIVE"; "DISCONTINUED"]) →
  product_PUT db env id b
  = (db, json (BValidation "Invalid input data") 400).
Proof.
  intros Hauth Hbad. rewrite product_PUT_authorised by done.
  assert (updateProductSchema b = None) as ->; [|done].
  unfold updateProductSchema.
  destruct Hbad as [(s & Hs & Hneg)|[(s & Hs & Hneg)|[(p & Hp & Hneg)|
    [(c & Hc & Hneg)|[Hn|[Hk|[Hc|(s & Hs & Hout)]]]]]]].
  - rewrite Hs. simpl. rewrite (proj2 (Z.leb_gt _ _)) by done.
    by rewrite !andb_false_r.
  - rewrite Hs. simpl. rewrite (proj2 (Z.leb_gt _ _)) by done.
    by rewrite !andb_false_r.
  - rewrite Hp. simpl. rewrite Hneg. by rewrite !andb_false_r.
  - rewrite Hc. simpl. rewrite Hneg. by rewrite !andb_false_r.
  - rewrite Hn. simpl. done.
  - rewrite Hk. simpl. by rewrite !andb_false_r.
  - rewrite Hc. simpl. by rewrite !andb_false_r.
  - rewrite Hs. simpl. rewrite parse_ProductStatus_None by done.
    by destruct (_ && _).
Qed.

Lemma product_PUT_validation_witness :
  product_PUT sample_db sample_env "X" (stock_update (-1))
    = (sample_db, json (BValidation "Invalid input data") 400) ∧
  product_PUT sample_db sample_env "X" (price_update 0)
    = (sample_db, json (BValidation "Invalid input data") 400) ∧
  res_status (product_PUT sample_db sample_env "X" (stock_update 0)).2 = 200.
Proof.
  assert (authorised ["ADMIN"; "MANAGER"] sample_env) as Hauth by compute_done.
  split; [|split].
  - apply product_PUT_validation; [exact Hauth|].
    left. exists (-1). by split.
  - apply product_PUT_validation; [exact Hauth|].
    right. right. left. exists 0%float. by split.
  - by vm_compute.
Defined.

Lemma apply_product_update_empty p :
  apply_product_update p empty_product_update None = p.
Proof. by destruct p. Qed.

(** X14: what PUT /api/products/[id] leaves alone.  No order, no customer
    and no product other than the addressed one changes, no product is
    added or removed; and an authorised update with an empty body of an
    existing product is answered 200 and leaves the database as it was. *)
Theorem product_update_frame db env id b :
  orders (product_PUT db env id b).1 = orders db ∧
  customers (product_PUT db env id b).1 = customers db ∧
  dom (products (product_PUT db env id b).1) = dom (products db) ∧
  (∀ id', id' ≠ id →
     products (product_PUT db env id b).1 !! id' = products db !! id') ∧
  (authorised ["ADMIN"; "MANAGER"] env → is_Some (products db !! id) →
   b = empty_product_update →
   (product_PUT db env id b).1 = db ∧
   res_status (product_PUT db env id b).2 = 200).
Proof.
  split; [apply product_PUT_orders|].
  split; [|split; [|split]].
  - destruct (product_PUT_cases db env id b)
      as [->|(p & st & _ & _ & _ & ->)]; done.
  - destruct (product_PUT_cases db env id b)
      as [->|(p & st & _ & _ & Hp & ->)]; [done|].
    simpl. rewrite dom_insert_L. apply elem_of_dom_2 in Hp.
    apply subseteq_union_1_L. by apply singleton_subseteq_l.
  - intros id' Hne. destruct (product_PUT_cases db env id b)
      as [->|(p & st & _ & _ & _ & ->)]; [done|].
    simpl. by rewrite lookup_insert_ne.
  - intros Hauth [p Hp] ->. rewrite product_PUT_authorised by done.
    rewrite Hp. simpl. rewrite apply_product_update_empty.
    rewrite insert_id by done. by rewrite Db_eta.
Qed.

Lemma product_update_frame_witness :
  products (product_PUT sample_db sample_env "X" (price_update 12)).1 !! "Y"
    = products sample_db !! "Y" ∧
  (product_PUT sample_db sample_env "X" empty_product_update).1 = sample_db.
Proof.
  destruct (product_update_frame sample_db sample_env "X" (price_update 12))
    as (_ & _ & _ & Hother & _).
  destruct (product_update_frame sample_db sample_env "X" empty_product_update)
    as (_ & _ & _ & _ & Hempty).
  split; [by apply Hother|].
  apply Hempty; [compute_done | by eexists | done].
Defined.

Lemma sku_exists_true db sku :
  sku_exists db sku = true ↔
  ∃ id p, products db !! id = Some p ∧ p_sku p = sku.
Proof.
  unfold sku_exists. rewrite existsb_exists. split.
  - intros ([id p] & Hin & Heq). exists id, p. simpl in Heq.
    apply String.eqb_eq in Heq. split; [|done].
    by apply elem_of_map_to_list, list_elem_of_In.
  - intros (id & p & Hp & Heq). exists (id, p). simpl. split.
    + by apply list_elem_of_In, elem_of_map_to_list.
    + by apply String.eqb_eq.
Qed.

Lemma product_PUT_cases_sku db env id b :
  (product_PUT db env id b).1 = db ∨
  ∃ p st, products db !! id = Some p ∧ sku_taken db p b = false ∧
          (product_PUT db env id b).1
          = with_tables db
              (<[id := apply_product_update p b st]> (products db))
              (orders db).
Proof.
  destruct (product_PUT_cases db env id b)
    as [?|(p & st & Hauth & Hst & Hp & _)]; [by left|].
  rewrite product_PUT_authorised by done. rewrite Hst, Hp.
  destruct (sku_taken db p b) eqn:Htaken; [by left|].
  destruct (references_ok _ _); simpl; [|by left].
  right. by exists p, st.
Qed.

Lemma updated_sku db p b st id2 p2 :
  sku_taken db p b = false →
  products db !! id2 = Some p2 →
  p_sku (apply_product_update p b st) = p_sku p2 → p_sku p = p_sku p2.
Proof.
  unfold sku_taken. simpl. intros Htaken Hp2 Hsku.
  destruct (pb_sku b) as [sku|]; simpl in *; [|done].
  destruct (String.eqb_spec sku (p_sku p)) as [Heq|_]; [congruence|].
  simpl in Htaken. assert (sku_exists db sku = true); [|congruence].
  apply sku_exists_true. by exists id2, p2.
Qed.

Lemma stock_updates_sku ps ups ps' pid q :
  stock_updates ps ups = Some ps' → ps' !! pid = Some q →
  ∃ p, ps !! pid = Some p ∧ p_sku q = p_sku p.
Proof.
  intros Hrun. rewrite (stock_updates_lookup _ _ _ Hrun).
  destruct (ps !! pid) as [p|]; simpl; [|done].
  intros [= <-]. by exists p.
Qed.

Lemma handle_sku_unique db req : sku_unique db → sku_unique (handle db req).1.
Proof.
  intros Huniq.
  assert (∀ ps ups ps', stock_updates ps ups = Some ps' →
            ps = products db →
            sku_unique (with_tables db ps' (orders (handle db req).1)))
    as Hstock.
  { intros ps ups ps' Hrun -> id1 id2 q1 q2 Hq1 Hq2 Hsku. simpl in *.
    destruct (stock_updates_sku _ _ _ _ _ Hrun Hq1) as (p1 & Hp1 & H1).
    destruct (stock_updates_sku _ _ _ _ _ Hrun Hq2) as (p2 & Hp2 & H2).
    apply (Huniq id1 id2 p1 p2); congruence. }
  destruct req as [env b|env id b|env id|env id b|env id]; simpl in *.
  - destruct (POST_cases db env b)
      as [->|(o & ps & _ & _ & Hps & _ & HPOST)]; [done|].
    rewrite HPOST in *. simpl in *.
    intros id1 id2 q1 q2. by apply (Hstock _ _ _ Hps).
  - destruct (PUT_cases db env id b)
      as [->|(o & u & ps & _ & _ & _ & Hps & HPUT)]; [done|].
    rewrite HPUT in *. simpl in *.
    intros id1 id2 q1 q2. by apply (Hstock _ _ _ Hps).
  - destruct (DELETE_cases db env id)
      as [->|(o & ps & _ & _ & _ & Hps & HDELETE)]; [done|].
    rewrite HDELETE in *. simpl in *.
    intros id1 id2 q1 q2. by apply (Hstock _ _ _ Hps).
  - destruct (product_PUT_cases_sku db env id b)
      as [->|(p & st & Hp & Htaken & ->)]; [done|].
    intros id1 id2 q1 q2. simpl.
    destruct (decide (id1 = id)) as [->|H1], (decide (id2 = id)) as [->|H2];
      [done|..].
    + rewrite lookup_insert_eq, lookup_insert_ne by done.
      intros [= <-] Hq2 Hsku. symmetry.
      apply (Huniq id2 id q2 p Hq2 Hp). symmetry.
      by eapply updated_sku.
    + rewrite lookup_insert_eq, lookup_insert_ne by done.
      intros Hq1 [= <-] Hsku.
      apply (Huniq id1 id q1 p Hq1 Hp). symmetry.
      by eapply updated_sku.
    + rewrite !lookup_insert_ne by done. apply Huniq.
  - destruct (product_DELETE_cases db env id)
      as [->|(p & _ & _ & _ & ->)]; [done|].
    intros id1 id2 q1 q2. simpl.
    intros [_ Hq1]%lookup_delete_Some [_ Hq2]%lookup_delete_Some.
    by apply Huniq.
Qed.

(** X15: SKUs stay unique.  If no two products of the catalog carry the
    same SKU, then after any sequence of requests to the five mutating
    routes, served in turn, still no two products carry the same SKU. *)
Theorem sku_stays_unique db reqs : sku_unique db → sku_unique (run db reqs).
Proof.
  revert db. induction reqs as [|req reqs IH]; intros db Huniq; simpl.
  - exact Huniq.
  - apply IH. destruct req; by apply handle_sku_unique.
Qed.

Lemma sku_stays_unique_witness :
  sku_unique sample_db ∧
  sku_unique (run sample_db
                [UpdateProduct sample_env "X" (sku_update "SKU-Gadget");
                 UpdateProduct sample_env "X" (sku_update "SKU-Thing");
                 CreateOrder sample_env body_two_lines]) ∧
  p_sku <$> products
              (run sample_db
                 [UpdateProduct sample_env "X" (sku_update "SKU-Gadget");
                  UpdateProduct sample_env "X" (sku_update "SKU-Thing");
                  CreateOrder sample_env body_two_lines]) !! "X"
  = Some "SKU-Thing".
Proof.
  assert (sku_unique sample_db) as Huniq.
  { intros id1 id2 p1 p2. unfold sample_db. simpl.
    intros [[<- <-]|[? [[<- <-]|[? ?%lookup_empty_Some]]%lookup_insert_Some]]
      %lookup_insert_Some
      [[<- <-]|[? [[<- <-]|[? ?%lookup_empty_Some]]%lookup_insert_Some]]
      %lookup_insert_Some; done. }
  split; [exact Huniq|]. split.
  - by apply sku_stays_unique.
  - by vm_compute.
Defined.

(** X16: changing a SKU.  For an authorised user and an existing product:
    a valid update that carries a SKU which differs from the product's own
    and which some product already has is answered 400 "Product with this
    SKU already exists" and changes nothing; an update that carries only a
    SKU, the product's own or one that no product has, is answered 200,
    and the product carries that SKU and is otherwise as it was. *)
Theorem product_PUT_sku db env id p sku :
  authorised ["ADMIN"; "MANAGER"] env → products db !! id = Some p →
  (∀ b st, updateProductSchema b = Some st → pb_sku b = Some sku →
     sku ≠ p_sku p →
     (∃ id2 p2, products db !! id2 = Some p2 ∧ p_sku p2 = sku) →
     product_PUT db env id b
     = (db, json (BMessage "Product with this SKU already exists") 400)) ∧
  (sku ≠ "" →
   sku = p_sku p ∨ (∀ id2 p2, products db !! id2 = Some p2 → p_sku p2 ≠ sku) →
   ∃ db' p',
     product_PUT db env id (sku_update sku)
     = (db', json (BProduct "Product updated successfully" p') 200) ∧
     products db' !! id = Some p' ∧
     p' = mkProduct (p_name p) (p_description p) (p_price p) (p_categoryId p)
            sku (p_stock p) (p_costPrice p) (p_lowStock p) (p_image p)
            (p_status p)).
Proof.
  intros Hauth Hp. split.
  - intros b st Hst Hsku Hne Hex. rewrite product_PUT_authorised by done.
    rewrite Hst, Hp. unfold sku_taken. rewrite Hsku.
    apply sku_exists_true in Hex. rewrite Hex.
    by rewrite (proj2 (String.eqb_neq _ _)).
  - intros Hsku Hfree. rewrite product_PUT_authorised by done.
    assert (updateProductSchema (sku_update sku) = Some None) as ->.
    { unfold updateProductSchema, sku_update, string_min1. simpl.
      by rewrite bool_decide_eq_true_2. }
    rewrite Hp. unfold sku_taken. cbn [pb_sku sku_update].
    assert (negb (String.eqb sku (p_sku p)) && sku_exists db sku = false) as ->.
    { destruct Hfree as [->|Hfree]; [by rewrite String.eqb_refl|].
      destruct (sku_exists db sku) eqn:Hex; [|by rewrite andb_false_r].
      apply sku_exists_true in Hex as (id2 & p2 & Hp2 & Heq).
      by destruct (Hfree id2 p2). }
    eexists _, _. split; [done|]. simpl. by rewrite lookup_insert_eq.
Qed.

Lemma product_PUT_sku_witness :
  product_PUT sample_db sample_env "X" (sku_update "SKU-Gadget")
    = (sample_db, json (BMessage "Product with this SKU already exists") 400) ∧
  ∃ db' p',
    product_PUT sample_db sample_env "X" (sku_update "SKU-Thing")
      = (db', json (BProduct "Product updated successfully" p') 200) ∧
    p_sku p' = "SKU-Thing".
Proof.
  assert (authorised ["ADMIN"; "MANAGER"] sample_env) as Hauth by compute_done.
  destruct (product_PUT_sku sample_db sample_env "X"
              (sample_product "Widget" 10 5) "SKU-Gadget" Hauth)
    as [Htaken _]; [by vm_compute|].
  destruct (product_PUT_sku sample_db sample_env "X"
              (sample_product "Widget" 10 5) "SKU-Thing" Hauth)
    as [_ Hfree]; [by vm_compute|].
  split.
  - apply (Htaken (sku_update "SKU-Gadget") None);
      [reflexivity | reflexivity | discriminate |].
    exists "Y", (sample_product "Gadget" 20 5). split; by vm_compute.
  - destruct Hfree as (db' & p' & HPUT & _ & Hp'); [discriminate| |].
    + right. intros id2 p2. unfold sample_db. simpl.
      intros [[<- <-]|[? [[<- <-]|[? ?%lookup_empty_Some]]%lookup_insert_Some]]
        %lookup_insert_Some; done.
    + exists db', p'. split; [exact HPUT|]. by rewrite Hp'.
Defined.

(** ** Products that are deleted, products that are referenced *)

Lemma product_DELETE_answered_200 db env id :
  res_status (product_DELETE db env id).2 = 200 →
  admin env ∧ is_Some (products db !! id) ∧ orderItems db id = [] ∧
  product_DELETE db env id
  = (with_tables db (delete id (products db)) (orders db),
     json (BMessage "Product deleted successfully") 200).
Proof.
  unfold product_DELETE, admin. destruct (session env) as [role|]; [|done].
  destruct (String.eqb_spec role "ADMIN") as [->|]; simpl; [|done].
  destruct (products db !! id) as [p|]; [|done].
  destruct (orderItems db id) as [|line rest]; simpl; [|done].
  intros _. repeat split; by eauto.
Qed.

Lemma POST_unknown_product db env b :
  accepted db env b → ¬ products_exist db (productIds b) →
  POST db env b = (db, json (BError "One or more products not found") 404).
Proof.
  intros Hacc Hex. apply POST_early_return.
  rewrite (POST_checks_accepted _ _ _ Hacc).
  destruct (Nat.eqb_spec (length (product_findMany db (productIds b)))
              (length (productIds b))) as [Hlen|]; [|done].
  by apply product_findMany_length in Hlen as [_ ?].
Qed.

(** X17: a deleted product is unknown afterwards.  After
    DELETE /api/products/[id] was answered 200, reading the product gives
    404, an authorised valid update of it gives 404, and every order
    creation that is past the session, role, schema and customer checks and
    names the product on a line is answered 404 "One or more products not
    found", without any change. *)
Theorem product_DELETE_then_unknown db env id :
  res_status (product_DELETE db env id).2 = 200 →
  (∀ env', is_Some (session env') →
     product_GET (product_DELETE db env id).1 env' id
     = (PMessage "Product not found", 404)) ∧
  (∀ env' b st, authorised ["ADMIN"; "MANAGER"] env' →
     updateProductSchema b = Some st →
     product_PUT (product_DELETE db env id).1 env' id b
     = ((product_DELETE db env id).1,
        json (BMessage "Product not found") 404)) ∧
  (∀ env' b, accepted (product_DELETE db env id).1 env' b →
     id ∈ productIds b →
     POST (product_DELETE db env id).1 env' b
     = ((product_DELETE db env id).1,
        json (BError "One or more products not found") 404)).
Proof.
  intros (_ & _ & _ & ->)%product_DELETE_answered_200. simpl.
  split; [|split].
  - intros env' [role Hs]. unfold product_GET. rewrite Hs. simpl.
    by rewrite lookup_delete_eq.
  - intros env' b st Hauth Hst. rewrite product_PUT_authorised by done.
    rewrite Hst. simpl. by rewrite lookup_delete_eq.
  - intros env' b Hacc Hid. apply POST_unknown_product; [done|].
    intros Hex. eapply Forall_forall in Hex; [|exact Hid].
    simpl in Hex. rewrite lookup_delete_eq in Hex. by destruct Hex.
Qed.

Lemma product_DELETE_then_unknown_witness :
  res_status (product_DELETE sample_db4 sample_env "Z").2 = 200 ∧
  POST (product_DELETE sample_db4 sample_env "Z").1 manager_env
    (mkOrderCreateBody "c1" [mkItemBody "Z" 1 30] None None)
  = ((product_DELETE sample_db4 sample_env "Z").1,
     json (BError "One or more products not found") 404).
Proof.
  assert (res_status (product_DELETE sample_db4 sample_env "Z").2 = 200)
    as Hst by by vm_compute.
  split; [exact Hst|].
  apply (product_DELETE_then_unknown sample_db4 sample_env "Z" Hst);
    [compute_done | left].
Defined.

Lemma orderItems_with_order_fst db id :
  (orderItems_with_order db id).*1 = orderItems db id.
Proof.
  unfold orderItems_with_order, orderItems.
  induction ((map_to_list (orders db)).*2) as [|o os IH]; [done|].
  cbn [mbind list_bind]. rewrite !filter_app, fmap_app, IH. f_equal.
  clear IH. induction (o_items o) as [|line rest IH]; [done|].
  rewrite fmap_cons, filter_cons, (filter_cons _ line).
  destruct (decide (oi_productId line = id)) as [Hid|Hid].
  - rewrite decide_True by done. rewrite fmap_cons. cbn [fst]. by rewrite IH.
  - by rewrite decide_False.
Qed.

(** X18: the order lines listed with a product are exactly the lines that
    reference it, and they decide whether it can be deleted.  For a
    signed-in reader and an existing product, GET /api/products/[id]
    answers 200 with the product and a list whose lines are the order
    lines carrying this product id, each with its order; the list is empty
    exactly when an administrator's DELETE of the product is answered
    200. *)
Theorem product_GET_orderItems db env id p :
  is_Some (session env) → products db !! id = Some p →
  ∃ items,
    product_GET db env id = (PProduct p items, 200) ∧
    items.*1 = orderItems db id ∧
    (∀ line o, (line, o) ∈ items →
       oi_productId line = id ∧ line ∈ o_items o ∧
       ∃ oid, orders db !! oid = Some o) ∧
    (∀ env', admin env' →
       (items = [] ↔ res_status (product_DELETE db env' id).2 = 200)).
Proof.
  intros [role Hs] Hp. exists (orderItems_with_order db id).
  split; [unfold product_GET; by rewrite Hs, Hp|].
  split; [apply orderItems_with_order_fst|]. split.
  - intros line o. unfold orderItems_with_order.
    rewrite list_elem_of_filter, list_elem_of_bind. simpl.
    intros (Hid & o' & Hin & Ho').
    apply list_elem_of_fmap in Hin as (line' & [= -> ->] & Hline).
    repeat split; [done..|].
    apply list_elem_of_fmap in Ho' as ([oid o''] & -> & Ho').
    exists oid. by apply elem_of_map_to_list.
  - intros env' Hadmin.
    assert (orderItems_with_order db id = [] ↔ ¬ referenced db id) as ->.
    { rewrite <- orderItems_referenced, <- orderItems_with_order_fst.
      destruct (orderItems_with_order db id) as [|io rest]; simpl.
      - split; [intros _ Hne; by apply Hne | done].
      - split; [done | intros Hnot; exfalso; by apply Hnot]. }
    split.
    + intros Href. by rewrite (product_DELETE_unreferenced db env' id p).
    + intros Hst Href.
      rewrite (product_DELETE_referenced db env' id p) in Hst; done.
Qed.

Lemma product_GET_orderItems_witness :
  ∃ items,
    product_GET sample_db4 user_env "X"
      = (PProduct (sample_product "Widget" 10 3) items, 200) ∧
    items.*1 = [mkOrderItem "X" 2 10 20] ∧
    res_status (product_DELETE sample_db4 sample_env "X").2 ≠ 200.
Proof.
  destruct (product_GET_orderItems sample_db4 user_env "X"
              (sample_product "Widget" 10 3))
    as (items & HGET & Hfst & _ & Hdel); [by eexists | by vm_compute |].
  exists items. split; [exact HGET|].
  assert (items.*1 = [mkOrderItem "X" 2 10 20]) as Hitems.
  { rewrite Hfst. by vm_compute. }
  split; [exact Hitems|].
  intros Hst. apply (Hdel sample_env) in Hst; [|reflexivity].
  by rewrite Hst in Hitems.
Defined.

(** ** Order numbers *)

(** X19: the order number is the clock reading and nothing else.  Two
    successfully created orders carry the same order number exactly when
    they were created at the same reading of [Date.now()], whatever the
    databases, customers and lines: the handler does nothing to tell two
    orders of the same millisecond apart. *)
Theorem orderNumber_clock db1 env1 b1 db1' o1 db2 env2 b2 db2' o2 :
  POST db1 env1 b1 = (db1', json (BOrder o1) 201) →
  POST db2 env2 b2 = (db2', json (BOrder o2) 201) →
  (o_orderNumber o1 = o_orderNumber o2 ↔ now env1 = now env2).
Proof.
  intros (_ & _ & _ & o1' & ps1 & Ho1 & [= ->] & _)%POST_created
         (_ & _ & _ & o2' & ps2 & Ho2 & [= ->] & _)%POST_created.
  apply stored_order_Some in Ho1
    as (? & ? & ? & ? & items1 & _ & _ & _ & _ & _ & ->).
  apply stored_order_Some in Ho2
    as (? & ? & ? & ? & items2 & _ & _ & _ & _ & _ & ->).
  cbn [o_orderNumber new_order]. split.
  - intros Heq. by apply (inj (String.append "ORD-")), pretty_Z_inj in Heq.
  - by intros ->.
Qed.

Lemma orderNumber_clock_witness :
  ∃ db1' o1 db2' o2,
    POST sample_db sample_env body_two_lines = (db1', json (BOrder o1) 201) ∧
    POST sample_db1 same_time_env body_three = (db2', json (BOrder o2) 201) ∧
    o_orderNumber o1 = o_orderNumber o2.
Proof.
  exists (POST sample_db sample_env body_two_lines).1,
    (new_order sample_env body_two_lines),
    (POST sample_db1 same_time_env body_three).1,
    (new_order same_time_env body_three).
  split; [by vm_compute|]. split; [by vm_compute|].
  apply (orderNumber_clock sample_db sample_env body_two_lines
           (POST sample_db sample_env body_two_lines).1 _
           sample_db1 same_time_env body_three
           (POST sample_db1 same_time_env body_three).1 _);
    [by vm_compute | by vm_compute | reflexivity].
Defined.

(** * The new-order form *)

Lemma find_item_None (items : list FormItem) id :
  List.find (λ item, String.eqb (fi_productId item) id) items = None ↔
  id ∉ fi_productId <$> items.
Proof.
  induction items as [|item rest IH]; simpl.
  - split; [intros _; apply not_elem_of_nil | done].
  - rewrite not_elem_of_cons. destruct (String.eqb_spec (fi_productId item) id).
    + split; [done | intros [? _]; congruence].
    + rewrite IH. split; [intros ?; split; [congruence|done] | tauto].
Qed.

Lemma set_quantity_ids (items : list FormItem) id (q : FormItem → Z) :
  fi_productId <$> ((λ item, if String.eqb (fi_productId item) id
                             then with_quantity item (q item) else item)
                      <$> items)
  = fi_productId <$> items.
Proof.
  rewrite <- list_fmap_compose. apply list_fmap_ext. intros _ item _. simpl.
  by destruct (String.eqb _ _).
Qed.

Lemma remove_ids_sublist (items : list FormItem) id :
  sublist (fi_productId <$>
             List.filter (λ item, negb (String.eqb (fi_productId item) id)) items)
    (fi_productId <$> items).
Proof.
  induction items as [|item rest IH]; simpl; [constructor|].
  destruct (negb _); simpl; by constructor.
Qed.

Lemma remove_not_in (items : list FormItem) id :
  id ∉ fi_productId <$>
         List.filter (λ item, negb (String.eqb (fi_productId item) id)) items.
Proof.
  induction items as [|item rest IH]; simpl; [apply not_elem_of_nil|].
  destruct (String.eqb_spec (fi_productId item) id); simpl; [done|].
  rewrite not_elem_of_cons. split; [congruence | done].
Qed.

Lemma handleRemoveItem_ok id f : form_ok f → form_ok (handleRemoveItem id f).
Proof.
  intros [Hnd Hq]. split.
  - eapply sublist_NoDup; [exact Hnd | apply remove_ids_sublist].
  - simpl. apply Forall_forall. intros item Hin.
    apply list_elem_of_In, filter_In in Hin as [Hin _].
    eapply Forall_forall in Hq; [exact Hq|]. by apply list_elem_of_In.
Qed.

Lemma handleAddProduct_ok product f : form_ok f → form_ok (handleAddProduct product f).
Proof.
  intros [Hnd Hq]. unfold handleAddProduct.
  destruct (List.find _ (fd_items f)) as [existingItem|] eqn:Hfind.
  - split.
    + unfold item_ids. simpl.
      by rewrite (set_quantity_ids _ _ (λ item, fi_quantity item + 1)).
    + simpl. apply Forall_fmap. eapply Forall_impl; [exact Hq|].
      intros item Hitem. simpl in *. destruct (String.eqb _ _); simpl; lia.
  - apply find_item_None in Hfind. split.
    + unfold item_ids. simpl. rewrite fmap_app. simpl.
      apply NoDup_app. split; [done|]. split.
      * intros id Hin [->|[]%elem_of_nil]%elem_of_cons. done.
      * apply NoDup_singleton.
    + simpl. apply Forall_app. split; [done|]. by repeat constructor.
Qed.

Lemma handleUpdateQuantity_ok id quantity f :
  form_ok f → form_ok (handleUpdateQuantity id quantity f).
Proof.
  intros Hok. unfold handleUpdateQuantity.
  destruct (Z.leb_spec quantity 0); [by apply handleRemoveItem_ok|].
  destruct Hok as [Hnd Hq]. split.
  - unfold item_ids. simpl.
    by rewrite (set_quantity_ids _ _ (λ _, quantity)).
  - simpl. apply Forall_fmap. eapply Forall_impl; [exact Hq|].
    intros item Hitem. simpl in *. destruct (String.eqb _ _); simpl; lia.
Qed.

(** X20: the form never holds a product twice nor a line without
    quantity.  Starting from the empty form, after any sequence of
    additions, quantity changes and removals, the items of the form name
    pairwise distinct products and each has a quantity of at least one (a
    quantity set to zero or below removes the line; adding a product that
    is already there raises its quantity instead of adding a line). *)
Theorem form_stays_ok events :
  form_ok (form_after empty_form events) ∧
  ∀ f e, form_ok f → form_ok (form_step f e).
Proof.
  assert (∀ f e, form_ok f → form_ok (form_step f e)) as Hstep.
  { intros f [product|id quantity|id] Hok; simpl.
    - by apply handleAddProduct_ok.
    - by apply handleUpdateQuantity_ok.
    - by apply handleRemoveItem_ok. }
  split; [|exact Hstep].
  assert (form_ok empty_form) as Hempty.
  { split; [apply NoDup_nil_2 | constructor]. }
  unfold form_after. revert Hempty. generalize empty_form.
  induction events as [|e events IH]; intros f Hok; simpl; [done|].
  apply IH. destruct e; by apply Hstep.
Qed.

Lemma form_stays_ok_witness :
  form_ok (form_after empty_form
             [AddProduct ui_widget; AddProduct ui_gadget; AddProduct ui_widget;
              UpdateQuantity "Y" 0]) ∧
  fd_items (form_after empty_form
              [AddProduct ui_widget; AddProduct ui_gadget; AddProduct ui_widget;
               UpdateQuantity "Y" 0])
  = [mkFormItem "X" 2 10 (Some ui_widget)].
Proof.
  split; [|reflexivity].
  exact (proj1 (form_stays_ok
                  [AddProduct ui_widget; AddProduct ui_gadget;
                   AddProduct ui_widget; UpdateQuantity "Y" 0])).
Defined.

Lemma handleSubmit_Fetch f d :
  handleSubmit f = Fetch d →
  fd_customerId f ≠ "" ∧ fd_items f ≠ [] ∧
  parsed_body d
  = mkOrderCreateBody (fd_customerId f)
      ((λ item, mkItemBody (fi_productId item) (fi_quantity item)
                  (fi_price item)) <$> fd_items f)
      (or_undefined (fd_shippingAddressId f)) (or_undefined (fd_notes f)) ∧
  od_subtotal d = calculateSubtotal f ∧
  od_tax d = calculateTax (calculateSubtotal f) ∧
  od_shipping d = calculateShipping ∧ od_total d = calculateTotal f.
Proof.
  unfold handleSubmit.
  destruct (String.eqb_spec (fd_customerId f) "") as [|Hc]; [done|].
  destruct (Nat.eqb_spec (length (fd_items f)) 0) as [|Hlen]; [done|].
  intros [= <-]. repeat split; try done.
  intros Hnil. by rewrite Hnil in Hlen.
Qed.

(** X21: what the form sends gets as far as the stock check.  When the
    form holds no product twice and only quantities of at least one (as it
    always does, X20), its request, sent by an authorised user for an
    existing customer with lines whose products are in the catalog (with a
    product id and a price that is not negative), passes the schema, the
    customer check and the product lookup of POST /api/orders: the only
    check that can still turn it down is the stock check, which the page
    itself does not make. *)
Theorem form_request_reaches_stock_check f d db env :
  form_ok f → handleSubmit f = Fetch d →
  authorised ["ADMIN"; "MANAGER"] env → fd_customerId f ∈ customers db →
  Forall (line_known db) (fd_items f) →
  accepted db env (parsed_body d) ∧
  NoDup (productIds (parsed_body d)) ∧
  products_exist db (productIds (parsed_body d)) ∧
  (POST_checks db env (parsed_body d) = None ∨
   ∃ p, POST db env (parsed_body d)
        = (db, json (BError ("Insufficient stock for product: " +:+ p_name p))
                 400)).
Proof.
  intros [Hnd Hq] (Hc & Hitems & Hbody & _)%handleSubmit_Fetch Hauth Hcust Hknown.
  rewrite Hbody.
  assert (productIds (mkOrderCreateBody (fd_customerId f)
            ((λ item, mkItemBody (fi_productId item) (fi_quantity item)
                        (fi_price item)) <$> fd_items f)
            (or_undefined (fd_shippingAddressId f))
            (or_undefined (fd_notes f))) = item_ids f) as Hids.
  { unfold productIds, item_ids. simpl. by rewrite <- list_fmap_compose. }
  assert (accepted db env (mkOrderCreateBody (fd_customerId f)
            ((λ item, mkItemBody (fi_productId item) (fi_quantity item)
                        (fi_price item)) <$> fd_items f)
            (or_undefined (fd_shippingAddressId f))
            (or_undefined (fd_notes f)))) as Hacc.
  { split; [done|]. split; [|done]. unfold OrderCreateSchema. simpl.
    unfold string_min1. rewrite bool_decide_eq_true_2 by done. simpl.
    rewrite andb_true_iff. split.
    - apply forallb_forall. intros item' Hin.
      apply list_elem_of_In, list_elem_of_fmap in Hin as (item & -> & Hin).
      eapply Forall_forall in Hq; [|exact Hin].
      eapply Forall_forall in Hknown as (Hid & Hprice & _); [|exact Hin].
      unfold ItemSchema, string_min1. simpl.
      rewrite bool_decide_eq_true_2 by done. simpl in *.
      by rewrite (proj2 (Z.leb_le _ _)), Hprice.
    - rewrite bool_decide_eq_false_2; [done|].
      destruct (fd_items f); done. }
  assert (products_exist db (item_ids f)) as Hex.
  { unfold products_exist, item_ids. apply Forall_fmap.
    eapply Forall_impl; [exact Hknown|]. by intros item (_ & _ & ?). }
  rewrite Hids. repeat (split; [done|]).
  unfold POST. rewrite (POST_checks_accepted _ _ _ Hacc). rewrite Hids.
  rewrite (proj2 (Nat.eqb_eq _ _)) by by apply product_findMany_length.
  destruct (check_stock _ _) as [p|]; [right; by exists p | by left].
Qed.

Lemma form_request_reaches_stock_check_witness :
  ∃ d, handleSubmit widget_form = Fetch d ∧
       res_status (POST sample_db sample_env (parsed_body d)).2 = 201.
Proof.
  exists (mkOrderData "c1" None [mkItemBody "X" 1 10] 10
            (calculateTax 10) 10 (calculateTotal widget_form) None).
  split; [reflexivity|].
  destruct (form_request_reaches_stock_check widget_form
              (mkOrderData "c1" None [mkItemBody "X" 1 10] 10
                 (calculateTax 10) 10 (calculateTotal widget_form) None)
              sample_db sample_env) as (_ & _ & _ & Hchecks).
  - apply handleAddProduct_ok. split; [apply NoDup_nil_2 | constructor].
  - reflexivity.
  - compute_done.
  - compute_done.
  - repeat constructor; [done | by eexists].
  - by vm_compute.
Defined.

Lemma calc_subtotal_form (items : list FormItem) :
  calc_subtotal ((λ item, mkItemBody (fi_productId item) (fi_quantity item)
                            (fi_price item)) <$> items)
  = fold_left (λ sum item, sum + fi_price item * Number (fi_quantity item))%float
      items 0%float.
Proof.
  unfold calc_subtotal. generalize 0%float.
  induction items as [|item rest IH]; intros acc; simpl; [done|].
  by rewrite IH.
Qed.

(** X22: the amounts of the page and the amounts of the stored order.  For
    an order created from the form's request, the stored subtotal and
    shipping are what the database holds for the subtotal and shipping the
    page computed and showed, but the stored tax is what it holds for the
    subtotal times 0.1 while the page's tax is the subtotal times 0.08:
    the [subtotal], [tax], [shipping] and [total] the page sends are not
    read by the handler, which computes its own.  The totals differ
    already for a single widget at $10: the page shows 20.8, the order
    stores 21. *)
Theorem form_amounts_and_stored_amounts :
  (∀ f d db env db' o,
     handleSubmit f = Fetch d →
     POST db env (parsed_body d) = (db', json (BOrder o) 201) →
     od_subtotal d = calculateSubtotal f ∧
     od_tax d = (od_subtotal d * 0.08)%float ∧
     od_total d
     = (od_subtotal d + od_subtotal d * 0.08 + od_shipping d)%float ∧
     stored_amount db (od_subtotal d) = Some (o_subtotal o) ∧
     stored_amount db (od_shipping d) = Some (o_shipping o) ∧
     stored_amount db (od_subtotal d * 0.1)%float = Some (o_tax o) ∧
     stored_amount db
       (od_subtotal d + od_subtotal d * 0.1 + od_shipping d)%float
     = Some (o_total o)) ∧
  (∃ d db' o,
     handleSubmit widget_form = Fetch d ∧
     POST sample_db sample_env (parsed_body d) = (db', json (BOrder o) 201) ∧
     od_total d = 20.8%float ∧ o_total o = 21%float).
Proof.
  split.
  - intros f d db env db' o (_ & _ & Hbody & Hsub & Htax & Hship & Htotal)
      %handleSubmit_Fetch (_ & _ & _ & o' & ps & Ho & [= ->] & _)%POST_created.
    apply stored_order_Some in Ho
      as (subtotal & tax & shipping & total & items
          & Hs & Ht & Hsh & Htot & _ & ->).
    rewrite Hbody in Hs, Ht, Hsh, Htot. simpl in Hs, Ht, Hsh, Htot.
    rewrite calc_subtotal_form in Hs, Ht, Htot.
    rewrite Hsub, Htax, Hship, Htotal. simpl. by repeat split.
  - exists (mkOrderData "c1" None [mkItemBody "X" 1 10] 10
              (calculateTax 10) 10 (calculateTotal widget_form) None).
    eexists _, _. split; [reflexivity|]. split; [by vm_compute|].
    split; by vm_compute.
Qed.

Lemma form_amounts_and_stored_amounts_witness :
  ∃ d db' o,
    handleSubmit widget_form = Fetch d ∧
    POST sample_db sample_env (parsed_body d) = (db', json (BOrder o) 201) ∧
    od_tax d = (od_subtotal d * 0.08)%float ∧
    stored_amount sample_db (od_subtotal d) = Some (o_subtotal o) ∧
    stored_amount sample_db (od_subtotal d * 0.1)%float = Some (o_tax o).
Proof.
  destruct form_amounts_and_stored_amounts as [Hall _].
  exists (mkOrderData "c1" None [mkItemBody "X" 1 10] 10
            (calculateTax 10) 10 (calculateTotal widget_form) None),
    (POST sample_db sample_env
       (mkOrderCreateBody "c1" [mkItemBody "X" 1 10] None None)).1,
    (new_order sample_env
       (mkOrderCreateBody "c1" [mkItemBody "X" 1 10] None None)).
  split; [reflexivity|]. split; [by vm_compute|].
  destruct (Hall widget_form
              (mkOrderData "c1" None [mkItemBody "X" 1 10] 10
                 (calculateTax 10) 10 (calculateTotal widget_form) None)
              sample_db sample_env
              (POST sample_db sample_env
                 (mkOrderCreateBody "c1" [mkItemBody "X" 1 10] None None)).1
              (new_order sample_env
                 (mkOrderCreateBody "c1" [mkItemBody "X" 1 10] None None)))
    as (_ & H1 & _ & H2 & _ & H3 & _); [reflexivity | by vm_compute |].
  split; [exact H1|]. split; [exact H2 | exact H3].
Defined.

Lemma raise_quantity_other (items : list FormItem) id :
  id ∉ fi_productId <$> items →
  (λ item, if String.eqb (fi_productId item) id
           then with_quantity item (fi_quantity item + 1) else item) <$> items
  = items.
Proof.
  induction items as [|item rest IH]; [done|].
  rewrite !fmap_cons, not_elem_of_cons. intros [Hne Hrest].
  rewrite (proj2 (String.eqb_neq _ _)) by congruence.
  f_equal. by apply IH.
Qed.

Lemma handleAddProduct_again product f item (rest : list FormItem) :
  fd_items f = rest ++ [item] → fi_productId item = up_id product →
  up_id product ∉ fi_productId <$> rest →
  fd_items (handleAddProduct product f)
  = rest ++ [with_quantity item (fi_quantity item + 1)].
Proof.
  intros Hitems Hid Hrest. unfold handleAddProduct. rewrite Hitems.
  destruct (List.find _ (rest ++ [item])) as [existingItem|] eqn:Hfind.
  - simpl. rewrite fmap_app, raise_quantity_other by done. simpl.
    by rewrite (proj2 (String.eqb_eq _ _)).
  - apply find_item_None in Hfind. destruct Hfind.
    rewrite fmap_app. apply elem_of_app. right. simpl. rewrite Hid. left.
Qed.

Lemma handleAddProduct_more (more : list UiProduct) : ∀ g rest item,
  fd_items g = rest ++ [item] →
  Forall (λ p, up_id p = fi_productId item) more →
  fi_productId item ∉ fi_productId <$> rest →
  fd_items (fold_left (λ f p, handleAddProduct p f) more g)
  = rest ++ [with_quantity item (fi_quantity item + Z.of_nat (length more))].
Proof.
  induction more as [|p more IH]; intros g rest item Hg Hmore Hrest; simpl.
  - rewrite Hg. do 2 f_equal. destruct item. unfold with_quantity. simpl.
    f_equal. lia.
  - apply Forall_cons in Hmore as [Hp Hmore].
    rewrite (IH _ rest (with_quantity item (fi_quantity item + 1))).
    + unfold with_quantity. simpl. do 3 f_equal. lia.
    + apply handleAddProduct_again; [done | done | by rewrite Hp].
    + done.
    + done.
Qed.

(** X23: adding a product that is already in the form raises its quantity
    by one and changes nothing else.  Putting a product that is not in the
    form into it and then adding products with the same id any number of
    times leaves the other lines as they were and one line for that id,
    with quantity one plus the number of further additions, and with the
    price and the product data of the first addition: a price the product
    search shows later does not reach the line. *)
Theorem handleAddProduct_counts product f (more : list UiProduct) :
  up_id product ∉ item_ids f →
  Forall (λ p, up_id p = up_id product) more →
  fd_items (fold_left (λ f p, handleAddProduct p f) more
              (handleAddProduct product f))
  = fd_items f ++ [mkFormItem (up_id product) (1 + Z.of_nat (length more))
                     (up_price product) (Some product)].
Proof.
  intros Hnew Hmore.
  rewrite (handleAddProduct_more more _ (fd_items f)
             (mkFormItem (up_id product) 1 (up_price product) (Some product))).
  - done.
  - unfold handleAddProduct.
    by rewrite (proj2 (find_item_None (fd_items f) (up_id product))).
  - done.
  - done.
Qed.

Lemma handleAddProduct_counts_witness :
  fd_items (fold_left (λ f p, handleAddProduct p f)
              [ui_widget; ui_widget_dearer] (handleAddProduct ui_widget sample_form))
  = [mkFormItem "X" 3 10 (Some ui_widget)].
Proof.
  apply (handleAddProduct_counts ui_widget sample_form
           [ui_widget; ui_widget_dearer]);
    [apply not_elem_of_nil | by repeat constructor].
Defined.

(** * The order list page *)

Lemma canManageOrders_authorised env :
  canManageOrders env = true ↔ authorised ["ADMIN"; "MANAGER"] env.
Proof.
  unfold canManageOrders, authorised. rewrite orb_true_iff.
  rewrite !bool_decide_eq_true. destruct (session env) as [role|].
  - rewrite !elem_of_cons, elem_of_nil. split.
    + intros [[= ->]|[= ->]]; tauto.
    + intros [->|[->|[]]]; tauto.
  - split; [intros [|]; done | done].
Qed.

Lemma PUT_status_ok db env id o name s :
  authorised ["ADMIN"; "MANAGER"] env → orders db !! id = Some o →
  products_exist db (line_products o) →
  parse_OrderStatus name = Some s →
  res_status (PUT db env id (status_body name)).2 = 200.
Proof.
  intros Hauth Ho Hex Hname.
  destruct (PUT_accepts db env id (status_body name) (only_status s) o Hauth
              (OrderUpdateSchema_status _ _ Hname) Ho eq_refl)
    as (ps & _ & ->); [|done].
  by apply stockUpdates_exist.
Qed.

(** X24: every entry of an order's action menu works.  For an order of the
    database whose products exist, each request the list page offers in
    the order's menu (the updates to CONFIRMED, PROCESSING, SHIPPED,
    DELIVERED and CANCELLED for an administrator or manager, the deletion
    for an administrator when the order is PENDING) is answered 200 when
    sent; the menu offers nothing to other users, never offers to put an
    order back to PENDING, and offers the deletion only to an administrator
    and only for a PENDING order. *)
Theorem menu_requests_succeed db env id o :
  orders db !! id = Some o → products_exist db (line_products o) →
  (∀ req, req ∈ menu env id o → res_status (handle db req).2 = 200) ∧
  (¬ authorised ["ADMIN"; "MANAGER"] env → menu env id o = []) ∧
  (UpdateOrder env id (status_body "PENDING") ∉ menu env id o) ∧
  (DeleteOrder env id ∈ menu env id o ↔ admin env ∧ o_status o = PENDING).
Proof.
  intros Ho Hex. unfold menu.
  destruct (canManageOrders env) eqn:Hcan.
  - apply canManageOrders_authorised in Hcan.
    assert (∀ req,
              req ∈ [UpdateOrder env id (status_body "CONFIRMED");
                     UpdateOrder env id (status_body "PROCESSING");
                     UpdateOrder env id (status_body "SHIPPED");
                     UpdateOrder env id (status_body "DELIVERED");
                     UpdateOrder env id (status_body "CANCELLED")] →
              res_status (handle db req).2 = 200 ∧
              req ≠ UpdateOrder env id (status_body "PENDING") ∧
              req ≠ DeleteOrder env id) as Hupdates.
    { intros req Hin.
      repeat (apply elem_of_cons in Hin as [->|Hin];
              [split; [simpl; by eapply PUT_status_ok | by split]|]).
      by apply elem_of_nil in Hin. }
    destruct (bool_decide (session env = Some "ADMIN")
              && bool_decide (o_status o = PENDING)) eqn:Hd.
    + apply andb_true_iff in Hd
        as [Hadmin%bool_decide_eq_true Hst%bool_decide_eq_true].
      split; [|split; [done|split]].
      * intros req [Hin|Hin]%elem_of_app; [by apply Hupdates|].
        apply list_elem_of_singleton in Hin as ->. simpl.
        by rewrite (DELETE_pending db env id o).
      * intros [Hin|Hin]%elem_of_app; [by apply Hupdates in Hin as (_ & ? & _)|].
        by apply list_elem_of_singleton in Hin.
      * split; [done|]. intros _. apply elem_of_app. right. left.
    + rewrite app_nil_r.
      split; [intros req Hin; by apply Hupdates|]. split; [done|].
      split; [intros Hin; by apply Hupdates in Hin as (_ & ? & _)|].
      split; [intros Hin; by apply Hupdates in Hin as (_ & _ & ?)|].
      intros [Hadmin Hst]. unfold admin in Hadmin.
      by rewrite !bool_decide_eq_true_2 in Hd.
  - assert (¬ authorised ["ADMIN"; "MANAGER"] env) as Hno.
    { intros Hauth%canManageOrders_authorised. congruence. }
    split; [intros req []%elem_of_nil|]. split; [done|].
    split; [apply not_elem_of_nil|]. split; [intros []%elem_of_nil|].
    intros [Hadmin _]. destruct Hno. unfold admin, authorised in *.
    rewrite Hadmin. left.
Qed.

Lemma menu_requests_succeed_witness :
  length (menu sample_env "o1" (new_order sample_env body_two_lines)) = 6%nat ∧
  length (menu manager_env "o1" (new_order sample_env body_two_lines)) = 5%nat ∧
  menu user_env "o1" (new_order sample_env body_two_lines) = [] ∧
  res_status (handle sample_db1 (DeleteOrder sample_env "o1")).2 = 200.
Proof.
  destruct (menu_requests_succeed sample_db1 sample_env "o1"
              (new_order sample_env body_two_lines)) as (Hall & _);
    [by vm_compute | compute_done |].
  split; [reflexivity|]. split; [reflexivity|]. split.
  - destruct (menu_requests_succeed sample_db1 user_env "o1"
                (new_order sample_env body_two_lines)) as (_ & Hnone & _);
      [by vm_compute | compute_done |].
    apply Hnone. compute_done.
  - apply Hall. apply elem_of_app. right. left.
Defined.

(** * Partial updates and sold-out products *)

(** X25: fields that an update does not carry stay as they are.  An
    authorised, valid update of an existing order that carries no [status]
    (and no shippingAddressId, or one that names an existing address) is
    answered 200, leaves the order's status and the whole product table
    as they were and sets [updatedAt] to the clock reading; each of
    paymentStatus, shippingStatus, notes and shippingAddressId that the
    body does not carry keeps its value, and one that it carries takes the
    body's value.  When the shippingAddressId names no address the answer
    is 500 and nothing changes. *)
Theorem PUT_absent_fields db env id b u o :
  authorised ["ADMIN"; "MANAGER"] env →
  OrderUpdateSchema b = Some u → orders db !! id = Some o →
  u_status u = None →
  (references_ok (addresses db) (u_shippingAddressId u) = true →
   ∃ db' o',
     PUT db env id b = (db', json (BOrder o') 200) ∧
     orders db' !! id = Some o' ∧ products db' = products db ∧
     o_status o' = o_status o ∧ o_updatedAt o' = now env ∧
     o_paymentStatus o' = default (o_paymentStatus o) (u_paymentStatus u) ∧
     o_shippingStatus o' = default (o_shippingStatus o) (u_shippingStatus u) ∧
     o_notes o' = from_option Some (o_notes o) (u_notes u) ∧
     o_shippingAddressId o'
     = from_option Some (o_shippingAddressId o) (u_shippingAddressId u)) ∧
  (references_ok (addresses db) (u_shippingAddressId u) = false →
   PUT db env id b = (db, json (BError "Failed to update order") 500)).
Proof.
  intros Hauth Hu Ho Hst. split.
  - intros Haddr.
    destruct (PUT_accepts db env id b u o Hauth Hu Ho Haddr)
      as (ps & Hps & ->).
    { rewrite stockUpdates_other by (rewrite Hst; done). constructor. }
    rewrite stockUpdates_other in Hps by (rewrite Hst; done).
    injection Hps as <-.
    eexists _, _. split; [done|]. simpl. rewrite lookup_insert_eq.
    split; [done|]. split; [done|]. rewrite Hst. simpl.
    by repeat (split; [done|]).
  - intros Haddr. unfold PUT, authorised in *.
    destruct (session env) as [role|]; [|done].
    apply has_role_true in Hauth. by rewrite Hauth, Hu, Ho, Haddr.
Qed.

Lemma PUT_absent_fields_witness :
  (∃ db' o',
     PUT sample_db1 manager_env "o1" (notes_body "leave at the door")
       = (db', json (BOrder o') 200) ∧
     o_status o' = PENDING ∧ o_notes o' = Some "leave at the door" ∧
     o_updatedAt o' = 1700000000002 ∧ products db' = products sample_db1) ∧
  PUT sample_db1 manager_env "o1" address_body_nowhere
    = (sample_db1, json (BError "Failed to update order") 500).
Proof.
  split.
  - destruct (PUT_absent_fields sample_db1 manager_env "o1"
                (notes_body "leave at the door")
                (mkOrderUpdate None None None (Some "leave at the door") None)
                (new_order sample_env body_two_lines))
      as [Hok _];
      [compute_done | reflexivity | by vm_compute | reflexivity |].
    destruct Hok as (db' & o' & HPUT & _ & Hps & Hst & Ht & _ & _ & Hnotes & _);
      [reflexivity|].
    exists db', o'. repeat (split; [assumption|]). assumption.
  - destruct (PUT_absent_fields sample_db1 manager_env "o1"
                address_body_nowhere
                (mkOrderUpdate None None None None (Some "addr-404"))
                (new_order sample_env body_two_lines))
      as [_ Hfail];
      [compute_done | reflexivity | by vm_compute | reflexivity |].
    apply Hfail. by vm_compute.
Defined.

Lemma POST_first_short db env b :
  accepted db env b → NoDup (productIds b) →
  products_exist db (productIds b) → ¬ Forall (in_stock db) (cb_items b) →
  ∃ p, POST db env b
       = (db, json (BError ("Insufficient stock for product: " +:+ p_name p))
                400).
Proof.
  intros Hacc Hnd Hex Hshort.
  destruct (first_short_line _ _ Hshort)
    as (pre & item & post & p & Hitems & Hpre & Hp & Hlt).
  exists p. apply POST_early_return.
  rewrite (POST_checks_accepted _ _ _ Hacc).
  rewrite (proj2 (Nat.eqb_eq _ _)) by by apply product_findMany_length.
  rewrite Hitems at 1.
  rewrite (check_stock_first db (productIds b) pre item post p); [done| |done..].
  intros it Hit. apply items_productIds. by rewrite Hitems.
Qed.

(** X26: an order may take the whole stock, and then the product is sold
    out.  The stock check of POST /api/orders is [stock < quantity]: a
    request past the earlier checks, with distinct existing products, each
    of whose lines asks for exactly the stock of its product passes every
    check of the handler, and when it is then answered 201 each of these
    products is left with a stock of zero; and a product whose stock is
    zero (or below) cannot be ordered: every such request with a line for
    that product is turned down with the 400 insufficient-stock error, the
    database unchanged. *)
Theorem no_order_when_sold_out db env b :
  accepted db env b → NoDup (productIds b) →
  products_exist db (productIds b) →
  (Forall (λ item, ∀ p, products db !! ib_productId item = Some p →
                        ib_quantity item = p_stock p) (cb_items b) →
   POST_checks db env b = None ∧
   (res_status (POST db env b).2 = 201 →
    ∀ item, item ∈ cb_items b →
      p_stock <$> products (POST db env b).1 !! ib_productId item = Some 0)) ∧
  (∀ pid p item,
     products db !! pid = Some p → item ∈ cb_items b →
     ib_productId item = pid → p_stock p ≤ 0 →
     ∃ q, POST db env b
          = (db, json (BError ("Insufficient stock for product: " +:+ p_name q))
                   400)).
Proof.
  intros Hacc Hnd Hex. split.
  - intros Hall. split.
    + apply POST_checks_None. repeat (split; [done|]).
      eapply Forall_impl; [exact Hall|]. intros item Hitem p Hp.
      rewrite (Hitem p Hp). lia.
    + intros (_ & _ & o & _ & ->)%POST_created_db item Hitem. simpl.
      rewrite restocked_lookup.
      eapply Forall_forall in Hex;
        [|apply list_elem_of_fmap; by exists item].
      destruct Hex as [p Hp]. rewrite Hp. simpl.
      rewrite decrements_line by done.
      eapply Forall_forall in Hall; [|exact Hitem].
      rewrite (Hall p Hp). f_equal. lia.
  - intros pid p item Hp Hitem Hid Hzero. apply POST_first_short; [done..|].
    destruct Hacc as (_ & Hschema & _).
    apply OrderCreateSchema_quantities in Hschema.
    eapply Forall_forall in Hschema; [|exact Hitem]. simpl in Hschema.
    apply (short_line_not_in_stock db _ item p); [done|by rewrite Hid|lia].
Qed.

Lemma no_order_when_sold_out_witness :
  POST_checks sample_db sample_env body_all_widgets = None ∧
  res_status (POST sample_db sample_env body_all_widgets).2 = 201 ∧
  p_stock <$> products sold_out_db !! "X" = Some 0 ∧
  ∃ q, POST sold_out_db same_time_env
         (mkOrderCreateBody "c1" [mkItemBody "X" 1 10] None None)
       = (sold_out_db,
          json (BError ("Insufficient stock for product: " +:+ p_name q)) 400).
Proof.
  destruct (no_order_when_sold_out sample_db sample_env body_all_widgets)
    as [Hexact _]; [compute_done | compute_done | compute_done |].
  destruct Hexact as [Hchecks Hzero].
  { repeat constructor. simpl. intros p Hp.
    assert (Some (p_stock p) = Some 5) as [= ->]; [|done].
    change (Some (p_stock p)) with (p_stock <$> Some p). by rewrite <- Hp. }
  assert (res_status (POST sample_db sample_env body_all_widgets).2 = 201)
    as Hst by by vm_compute.
  split; [exact Hchecks|]. split; [exact Hst|]. split.
  - apply (Hzero Hst (mkItemBody "X" 5 10)). left.
  - destruct (no_order_when_sold_out sold_out_db same_time_env
                (mkOrderCreateBody "c1" [mkItemBody "X" 1 10] None None))
      as [_ Hsold]; [compute_done | compute_done | compute_done |].
    apply (Hsold "X" (sample_product "Widget" 10 0) (mkItemBody "X" 1 10));
      [by vm_compute | left | reflexivity | reflexivity].
Defined.

(** * Short lines *)

(** X27: an order that asks for more than there is.  Whenever a line of
    an order-creation request asks for more than the current stock of its
    product, the request creates no order and changes no stock (the
    database is left as it was) and is not answered 201; and when the
    request has passed the session, role, schema and customer checks and
    its lines name pairwise distinct products of the catalog, the answer
    is the 400 insufficient-stock error that names the product of the
    first such line. *)
Theorem POST_insufficient_stock db env b :
  (∃ item p, item ∈ cb_items b ∧
     products db !! ib_productId item = Some p ∧
     p_stock p < ib_quantity item) →
  (POST db env b).1 = db ∧
  res_status (POST db env b).2 ≠ 201 ∧
  (accepted db env b → NoDup (productIds b) →
   products_exist db (productIds b) →
   ∃ pre item post p,
     cb_items b = pre ++ item :: post ∧
     Forall (in_stock db) pre ∧
     products db !! ib_productId item = Some p ∧
     p_stock p < ib_quantity item ∧
     POST db env b
       = (db, json (BError ("Insufficient stock for product: " +:+ p_name p))
                400)).
Proof.
  intros (item & p & Hin & Hp & Hlt).
  pose proof (short_line_not_in_stock _ _ _ _ Hin Hp Hlt) as Hshort.
  destruct (POST_checks db env b) as [r|] eqn:Hchecks.
  - rewrite (POST_early_return _ _ _ _ Hchecks). simpl.
    split; [done|]. split; [by eapply POST_checks_status|].
    intros Hacc Hnd Hex.
    destruct (first_short_line _ _ Hshort)
      as (pre & item' & post & p' & Hitems & Hpre & Hp' & Hlt').
    exists pre, item', post, p'. repeat split; try done.
    rewrite (POST_checks_accepted _ _ _ Hacc) in Hchecks.
    rewrite (proj2 (Nat.eqb_eq _ _)) in Hchecks
      by by apply product_findMany_length.
    rewrite Hitems in Hchecks at 1.
    rewrite (check_stock_first db (productIds b) pre item' post p') in Hchecks;
      [by simplify_eq | | done..].
    intros it Hit. apply items_productIds. by rewrite Hitems.
  - apply POST_checks_None in Hchecks as (_ & _ & _ & Hall). done.
Qed.

Lemma POST_insufficient_stock_witness :
  (∃ item p, item ∈ cb_items body_short ∧
     products sample_db !! ib_productId item = Some p ∧
     p_stock p < ib_quantity item) ∧
  accepted sample_db sample_env body_short ∧
  NoDup (productIds body_short) ∧
  products_exist sample_db (productIds body_short) ∧
  (POST sample_db sample_env body_short).1 = sample_db ∧
  res_status (POST sample_db sample_env body_short).2 ≠ 201 ∧
  ∃ pre item post p,
    cb_items body_short = pre ++ item :: post ∧
    Forall (in_stock sample_db) pre ∧
    products sample_db !! ib_productId item = Some p ∧
    p_stock p < ib_quantity item ∧
    POST sample_db sample_env body_short
      = (sample_db,
         json (BError ("Insufficient stock for product: " +:+ p_name p)) 400).
Proof.
  assert (∃ item p, item ∈ cb_items body_short ∧
            products sample_db !! ib_productId item = Some p ∧
            p_stock p < ib_quantity item) as Hshort.
  { exists (mkItemBody "X" 6 10), (sample_product "Widget" 10 5).
    split; [right; left|]. split; by vm_compute. }
  assert (accepted sample_db sample_env body_short) as Hacc by compute_done.
  assert (NoDup (productIds body_short)) as Hnd by compute_done.
  assert (products_exist sample_db (productIds body_short)) as Hex
    by compute_done.
  destruct (POST_insufficient_stock sample_db sample_env body_short Hshort)
    as (Hdb & Hstatus & Hfirst).
  repeat (split; [assumption|]). exact (Hfirst Hacc Hnd Hex).
Defined.

(** * What the database refuses *)



(** X29: a category that does not exist.  An authorised, valid update of an
    existing product whose SKU check passes and whose categoryId names no
    category is answered 500 "Internal server error" and changes
    nothing. *)
Theorem product_PUT_unknown_category db env id b st p c :
  authorised ["ADMIN"; "MANAGER"] env →
  updateProductSchema b = Some st → products db !! id = Some p →
  sku_taken db p b = false →
  pb_categoryId b = Some c → c ∉ categories db →
  product_PUT db env id b
  = (db, json (BMessage "Internal server error") 500).
Proof.
  intros Hauth Hst Hp Hsku Hc Hnone. rewrite product_PUT_authorised by done.
  rewrite Hst, Hp, Hsku, Hc. simpl. by rewrite bool_decide_eq_false_2.
Qed.

Lemma product_PUT_unknown_category_witness :
  product_PUT sample_db sample_env "X" (category_update "cat-404")
    = (sample_db, json (BMessage "Internal server error") 500) ∧
  res_status (product_PUT sample_db sample_env "X" (category_update "cat-1")).2
    = 200.
Proof.
  split; [|by vm_compute].
  apply (product_PUT_unknown_category sample_db sample_env "X"
           (category_update "cat-404") None (sample_product "Widget" 10 5)
           "cat-404");
    [compute_done | reflexivity | by vm_compute | reflexivity | reflexivity
    | compute_done].
Defined.
